(** * The Svelte Flow store: a shallow embedding and its specification

    Two snapshots of the store module are embedded:

    - [Legacy]: [packages/svelte/src/lib/store/index.ts], the first store,
      built from separate writable stores ([nodesStore], [edgesStore], ...);
    - [Flow]: the current [createStore], built over the cells returned by
      [getInitialStore].

    JavaScript objects have identity and are mutable.  Node and edge objects
    live in a heap (a list indexed by reference); an array is the list of the
    references it holds.  Functions that only read and select elements (the
    edge projection and the deletion handler of [Legacy]) are embedded on the
    element values. *)

From Stdlib Require Import ZArith QArith.
From stdpp Require Import base option list strings gmap.

(** ** JavaScript helpers *)

(** Object references. *)
Abbreviation loc := nat (only parsing).

(** Numbers are only stored and copied by the store, never computed with. *)
Definition number := Z.

(** Truthiness of an optional boolean field ([undefined] is falsy). *)
Definition truthy (b : option bool) : bool := default false b.

(** [typeof b === 'boolean' ? b : true] *)
Definition boolOrTrue (b : option bool) : bool := default true b.

(** A value that is neither [null] nor [undefined] (an object is truthy). *)
Definition isSome {A} (o : option A) : bool :=
  match o with
  | Some _ => true
  | None => false
  end.

(** A string is truthy when it is not empty. *)
Definition stringTruthy (s : string) : bool := negb (String.eqb s "").

(** [s || d] on an optional string. *)
Definition stringOr (s : option string) (d : string) : string :=
  match s with
  | Some v => if stringTruthy v then v else d
  | None => d
  end.

(** [ids.includes(i)] *)
Definition includes (ids : list string) (i : string) : bool :=
  existsb (String.eqb i) ids.

(** ** Objects and references *)

Module Heap.
Section heap.
Context {A : Type}.

(** [{ ... }]: a fresh object, placed after every object allocated so far. *)
Definition alloc (v : A) (h : list A) : loc * list A := (length h, h ++ [v]).

(** [refs.map((o) => (c(o) ? { ...o, changes } : o))]: [f o = Some o'] when
    the callback answers with a new object [o'], [None] when it answers
    with [o] itself. *)
Fixpoint mapObjects (f : A → option A) (refs : list loc) (h : list A)
  : list loc * list A :=
  match refs with
  | [] => ([], h)
  | r :: rs =>
      let '(r', h1) :=
        match h !! r ≫= f with
        | Some o' => alloc o' h
        | None => (r, h)
        end in
      let '(rs', h2) := mapObjects f rs h1 in
      (r' :: rs', h2)
  end.

(** [refs.map((o) => { o.field = ...; return o; })]: every element is
    written in place, in order; the new array holds the same references. *)
Definition mutObjects (f : A → A) (refs : list loc) (h : list A) : list A :=
  foldl (λ h r, alter f r h) h refs.

(** [refs.find((o) => p(o))]: the first reference whose object satisfies [p]. *)
Definition findObject (p : A → bool) (refs : list loc) (h : list A)
  : option loc :=
  find (λ r, from_option p false (h !! r)) refs.

(** [refs.filter((o) => p(o))] *)
Definition filterObjects (p : A → bool) (refs : list loc) (h : list A)
  : list loc :=
  List.filter (λ r, from_option p false (h !! r)) refs.

(** Every reference of an array points to an allocated object. *)
Definition allocated (h : list A) (refs : list loc) : Prop :=
  Forall (λ r, r < length h) refs.

End heap.
End Heap.

(** ** Types shared by both snapshots ([@xyflow/system]) *)

Record XYPosition := mkXY { x : number; y : number }.

Inductive Position := Left | Top | Right | Bottom.

Record HandleElement := mkHandle {
  handle_id : option string;
  handle_x : number;
  handle_y : number;
  handle_width : number;
  handle_height : number;
  handle_position : Position
}.

Record NodeHandleBounds := mkHandleBounds {
  hb_source : option (list HandleElement);
  hb_target : option (list HandleElement)
}.

(** [node[internalsSymbol]] *)
Record NodeInternals := mkInternals {
  handleBounds : option NodeHandleBounds
}.

Record Rect := mkRect {
  rect_x : number;
  rect_y : number;
  rect_width : number;
  rect_height : number
}.

Record Viewport := mkViewport {
  viewport_x : number;
  viewport_y : number;
  viewport_zoom : number
}.

Definition CoordinateExtent : Type := (number * number) * (number * number).

Record SelectionRect := mkSelectionRect {
  sel_x : number;
  sel_y : number;
  sel_width : number;
  sel_height : number
}.

Record Connection := mkConnection {
  conn_source : string;
  conn_target : string;
  conn_sourceHandle : option string;
  conn_targetHandle : option string
}.

(** What nodes and edges have in common: [Node | Edge] in the source. *)
Class Element (A : Type) := {
  elemId : A → string;
  elemSelected : A → option bool;
  withSelected : bool → A → A
}.

(** * The current store *)

Module Flow.

Record NodeComputed := mkComputed {
  computed_width : option number;
  computed_height : option number;
  positionAbsolute : option XYPosition
}.

Record Node := mkNode {
  node_id : string;
  node_position : XYPosition;
  node_computed : option NodeComputed;
  node_parentId : option string;
  node_selected : option bool;
  node_dragging : option bool;
  node_deletable : option bool;
  node_type : option string;
  node_data : string;
  node_internals : option NodeInternals
}.

Record Edge := mkEdge {
  edge_id : string;
  edge_source : string;
  edge_target : string;
  edge_sourceHandle : option string;
  edge_targetHandle : option string;
  edge_type : option string;
  edge_selected : option bool;
  edge_deletable : option bool
}.

#[global] Instance node_element : Element Node := {|
  elemId := node_id;
  elemSelected := node_selected;
  withSelected b n :=
    {| node_id := node_id n; node_position := node_position n;
       node_computed := node_computed n; node_parentId := node_parentId n;
       node_selected := Some b; node_dragging := node_dragging n;
       node_deletable := node_deletable n; node_type := node_type n;
       node_data := node_data n; node_internals := node_internals n |}
|}.

#[global] Instance edge_element : Element Edge := {|
  elemId := edge_id;
  elemSelected := edge_selected;
  withSelected b e :=
    {| edge_id := edge_id e; edge_source := edge_source e;
       edge_target := edge_target e; edge_sourceHandle := edge_sourceHandle e;
       edge_targetHandle := edge_targetHandle e; edge_type := edge_type e;
       edge_selected := Some b; edge_deletable := edge_deletable e |}
|}.

(** [NodeBase | NodeDragItem]: the fields [updateNodePositions] reads. *)
Record NodeDragItem := mkDragItem {
  ndi_id : string;
  ndi_position : XYPosition;
  ndi_computed : option NodeComputed
}.

Record NodeDimensionUpdate := mkDimensionUpdate {
  ndu_id : string;
  ndu_nodeElement : nat;
  ndu_forceUpdate : option bool
}.

Record FitViewOptions := mkFitViewOptions {
  fvo_padding : option number;
  fvo_includeHiddenNodes : option bool;
  fvo_minZoom : option number;
  fvo_maxZoom : option number;
  fvo_duration : option number;
  fvo_nodes : option (list loc);
  fvo_waitForInit : option bool
}.

(** The value of the [fitViewScheduled] cell: [boolean | FitViewOptions]. *)
Inductive FitViewScheduled :=
| FvsBool (b : bool)
| FvsOptions (o : FitViewOptions).

(** An options object is truthy. *)
Definition fvsTruthy (v : FitViewScheduled) : bool :=
  match v with
  | FvsBool b => b
  | FvsOptions _ => true
  end.

(** The pan/zoom engine is an external object; the store holds a reference to
    it and calls its methods.  Its state is the sequence of calls it has
    received, the latest first. *)
Inductive PanZoomCall :=
| SetScaleExtent (min max : number)
| SetTranslateExtent (extent : CoordinateExtent)
| SetViewport (v : Viewport).

Definition PanZoom : Type := list PanZoomCall.

(** The argument object of [fitViewUtil]. *)
Record FitViewParams := mkFitViewParams {
  fvp_nodes : list loc;
  fvp_width : number;
  fvp_height : number;
  fvp_minZoom : number;
  fvp_maxZoom : number;
  fvp_panZoom : PanZoom;
  fvp_nodeOrigin : number * number
}.

Record ConnectionData := mkConnectionData {
  connectionStartHandle : option string;
  connectionEndHandle : option string;
  connectionPosition : option XYPosition;
  connectionStatus : option string
}.

(** A DOM element, known by a handle only. *)
Definition DomNode := nat.

(** The writable cells, as named in a [set] or [update]. *)
Inductive Cell :=
| CNodes | CEdges | CFitViewScheduled | CMinZoom | CMaxZoom
| CTranslateExtent | CSelectionRect | CSelectionRectMode | CSnapGrid
| CIsValidConnection | CCurrentConnection.

(** The cells of [getInitialStore], the [currentConnection] cell of
    [createStore], the two object heaps, and what the store does to the
    outside: lines written to the console, calls of the [ondelete] callback,
    and the [set]/[update] calls made on cells ([writes], latest first). *)
Record Store := mkStore {
  nodeHeap : list Node;
  edgeHeap : list Edge;
  nodes : list loc;
  edges : list loc;
  nodeLookup : list (string * loc);
  domNode : option DomNode;
  nodeOrigin : number * number;
  width : number;
  height : number;
  viewport : Viewport;
  panZoom : option PanZoom;
  minZoom : number;
  maxZoom : number;
  translateExtent : CoordinateExtent;
  fitViewScheduled : FitViewScheduled;
  nodeTypes : list (string * string);
  edgeTypes : list (string * string);
  multiselectionKeyPressed : bool;
  deleteKeyPressed : bool;
  selectionRect : option SelectionRect;
  selectionRectMode : option string;
  snapGrid : option (number * number);
  isValidConnection : Connection → bool;
  ondelete : bool;
  currentConnection : ConnectionData;
  console : list (string * string);
  ondeleteCalls : list (list loc * list loc);
  writes : list Cell
}.

Definition with_nodeHeap (v : list Node) (s : Store) : Store :=
  {| nodeHeap := v; edgeHeap := edgeHeap s; nodes := nodes s;
     edges := edges s; nodeLookup := nodeLookup s; domNode := domNode s;
     nodeOrigin := nodeOrigin s; width := width s; height := height s;
     viewport := viewport s; panZoom := panZoom s; minZoom := minZoom s;
     maxZoom := maxZoom s; translateExtent := translateExtent s;
     fitViewScheduled := fitViewScheduled s; nodeTypes := nodeTypes s;
     edgeTypes := edgeTypes s;
     multiselectionKeyPressed := multiselectionKeyPressed s;
     deleteKeyPressed := deleteKeyPressed s;
     selectionRect := selectionRect s;
     selectionRectMode := selectionRectMode s; snapGrid := snapGrid s;
     isValidConnection := isValidConnection s; ondelete := ondelete s;
     currentConnection := currentConnection s; console := console s;
     ondeleteCalls := ondeleteCalls s; writes := writes s |}.

Definition with_edgeHeap (v : list Edge) (s : Store) : Store :=
  {| nodeHeap := nodeHeap s; edgeHeap := v; nodes := nodes s;
     edges := edges s; nodeLookup := nodeLookup s; domNode := domNode s;
     nodeOrigin := nodeOrigin s; width := width s; height := height s;
     viewport := viewport s; panZoom := panZoom s; minZoom := minZoom s;
     maxZoom := maxZoom s; translateExtent := translateExtent s;
     fitViewScheduled := fitViewScheduled s; nodeTypes := nodeTypes s;
     edgeTypes := edgeTypes s;
     multiselectionKeyPressed := multiselectionKeyPressed s;
     deleteKeyPressed := deleteKeyPressed s;
     selectionRect := selectionRect s;
     selectionRectMode := selectionRectMode s; snapGrid := snapGrid s;
     isValidConnection := isValidConnection s; ondelete := ondelete s;
     currentConnection := currentConnection s; console := console s;
     ondeleteCalls := ondeleteCalls s; writes := writes s |}.

Definition with_nodes (v : list loc) (s : Store) : Store :=
  {| nodeHeap := nodeHeap s; edgeHeap := edgeHeap s; nodes := v;
     edges := edges s; nodeLookup := nodeLookup s; domNode := domNode s;
     nodeOrigin := nodeOrigin s; width := width s; height := height s;
     viewport := viewport s; panZoom := panZoom s; minZoom := minZoom s;
     maxZoom := maxZoom s; translateExtent := translateExtent s;
     fitViewScheduled := fitViewScheduled s; nodeTypes := nodeTypes s;
     edgeTypes := edgeTypes s;
     multiselectionKeyPressed := multiselectionKeyPressed s;
     deleteKeyPressed := deleteKeyPressed s;
     selectionRect := selectionRect s;
     selectionRectMode := selectionRectMode s; snapGrid := snapGrid s;
     isValidConnection := isValidConnection s; ondelete := ondelete s;
     currentConnection := currentConnection s; console := console s;
     ondeleteCalls := ondeleteCalls s; writes := writes s |}.

Definition with_edges (v : list loc) (s : Store) : Store :=
  {| nodeHeap := nodeHeap s; edgeHeap := edgeHeap s; nodes := nodes s;
     edges := v; nodeLookup := nodeLookup s; domNode := domNode s;
     nodeOrigin := nodeOrigin s; width := width s; height := height s;
     viewport := viewport s; panZoom := panZoom s; minZoom := minZoom s;
     maxZoom := maxZoom s; translateExtent := translateExtent s;
     fitViewScheduled := fitViewScheduled s; nodeTypes := nodeTypes s;
     edgeTypes := edgeTypes s;
     multiselectionKeyPressed := multiselectionKeyPressed s;
     deleteKeyPressed := deleteKeyPressed s;
     selectionRect := selectionRect s;
     selectionRectMode := selectionRectMode s; snapGrid := snapGrid s;
     isValidConnection := isValidConnection s; ondelete := ondelete s;
     currentConnection := currentConnection s; console := console s;
     ondeleteCalls := ondeleteCalls s; writes := writes s |}.

Definition with_panZoom (v : option PanZoom) (s : Store) : Store :=
  {| nodeHeap := nodeHeap s; edgeHeap := edgeHeap s; nodes := nodes s;
     edges := edges s; nodeLookup := nodeLookup s; domNode := domNode s;
     nodeOrigin := nodeOrigin s; width := width s; height := height s;
     viewport := viewport s; panZoom := v; minZoom := minZoom s;
     maxZoom := maxZoom s; translateExtent := translateExtent s;
     fitViewScheduled := fitViewScheduled s; nodeTypes := nodeTypes s;
     edgeTypes := edgeTypes s;
     multiselectionKeyPressed := multiselectionKeyPressed s;
     deleteKeyPressed := deleteKeyPressed s;
     selectionRect := selectionRect s;
     selectionRectMode := selectionRectMode s; snapGrid := snapGrid s;
     isValidConnection := isValidConnection s; ondelete := ondelete s;
     currentConnection := currentConnection s; console := console s;
     ondeleteCalls := ondeleteCalls s; writes := writes s |}.

Definition with_minZoom (v : number) (s : Store) : Store :=
  {| nodeHeap := nodeHeap s; edgeHeap := edgeHeap s; nodes := nodes s;
     edges := edges s; nodeLookup := nodeLookup s; domNode := domNode s;
     nodeOrigin := nodeOrigin s; width := width s; height := height s;
     viewport := viewport s; panZoom := panZoom s; minZoom := v;
     maxZoom := maxZoom s; translateExtent := translateExtent s;
     fitViewScheduled := fitViewScheduled s; nodeTypes := nodeTypes s;
     edgeTypes := edgeTypes s;
     multiselectionKeyPressed := multiselectionKeyPressed s;
     deleteKeyPressed := deleteKeyPressed s;
     selectionRect := selectionRect s;
     selectionRectMode := selectionRectMode s; snapGrid := snapGrid s;
     isValidConnection := isValidConnection s; ondelete := ondelete s;
     currentConnection := currentConnection s; console := console s;
     ondeleteCalls := ondeleteCalls s; writes := writes s |}.

Definition with_maxZoom (v : number) (s : Store) : Store :=
  {| nodeHeap := nodeHeap s; edgeHeap := edgeHeap s; nodes := nodes s;
     edges := edges s; nodeLookup := nodeLookup s; domNode := domNode s;
     nodeOrigin := nodeOrigin s; width := width s; height := height s;
     viewport := viewport s; panZoom := panZoom s; minZoom := minZoom s;
     maxZoom := v; translateExtent := translateExtent s;
     fitViewScheduled := fitViewScheduled s; nodeTypes := nodeTypes s;
     edgeTypes := edgeTypes s;
     multiselectionKeyPressed := multiselectionKeyPressed s;
     deleteKeyPressed := deleteKeyPressed s;
     selectionRect := selectionRect s;
     selectionRectMode := selectionRectMode s; snapGrid := snapGrid s;
     isValidConnection := isValidConnection s; ondelete := ondelete s;
     currentConnection := currentConnection s; console := console s;
     ondeleteCalls := ondeleteCalls s; writes := writes s |}.

Definition with_translateExtent (v : CoordinateExtent) (s : Store) : Store :=
  {| nodeHeap := nodeHeap s; edgeHeap := edgeHeap s; nodes := nodes s;
     edges := edges s; nodeLookup := nodeLookup s; domNode := domNode s;
     nodeOrigin := nodeOrigin s; width := width s; height := height s;
     viewport := viewport s; panZoom := panZoom s; minZoom := minZoom s;
     maxZoom := maxZoom s; translateExtent := v;
     fitViewScheduled := fitViewScheduled s; nodeTypes := nodeTypes s;
     edgeTypes := edgeTypes s;
     multiselectionKeyPressed := multiselectionKeyPressed s;
     deleteKeyPressed := deleteKeyPressed s;
     selectionRect := selectionRect s;
     selectionRectMode := selectionRectMode s; snapGrid := snapGrid s;
     isValidConnection := isValidConnection s; ondelete := ondelete s;
     currentConnection := currentConnection s; console := console s;
     ondeleteCalls := ondeleteCalls s; writes := writes s |}.

Definition with_fitViewScheduled (v : FitViewScheduled) (s : Store) : Store :=
  {| nodeHeap := nodeHeap s; edgeHeap := edgeHeap s; nodes := nodes s;
     edges := edges s; nodeLookup := nodeLookup s; domNode := domNode s;
     nodeOrigin := nodeOrigin s; width := width s; height := height s;
     viewport := viewport s; panZoom := panZoom s; minZoom := minZoom s;
     maxZoom := maxZoom s; translateExtent := translateExtent s;
     fitViewScheduled := v; nodeTypes := nodeTypes s;
     edgeTypes := edgeTypes s;
     multiselectionKeyPressed := multiselectionKeyPressed s;
     deleteKeyPressed := deleteKeyPressed s;
     selectionRect := selectionRect s;
     selectionRectMode := selectionRectMode s; snapGrid := snapGrid s;
     isValidConnection := isValidConnection s; ondelete := ondelete s;
     currentConnection := currentConnection s; console := console s;
     ondeleteCalls := ondeleteCalls s; writes := writes s |}.

Definition with_selectionRect (v : option SelectionRect) (s : Store) : Store :=
  {| nodeHeap := nodeHeap s; edgeHeap := edgeHeap s; nodes := nodes s;
     edges := edges s; nodeLookup := nodeLookup s; domNode := domNode s;
     nodeOrigin := nodeOrigin s; width := width s; height := height s;
     viewport := viewport s; panZoom := panZoom s; minZoom := minZoom s;
     maxZoom := maxZoom s; translateExtent := translateExtent s;
     fitViewScheduled := fitViewScheduled s; nodeTypes := nodeTypes s;
     edgeTypes := edgeTypes s;
     multiselectionKeyPressed := multiselectionKeyPressed s;
     deleteKeyPressed := deleteKeyPressed s; selectionRect := v;
     selectionRectMode := selectionRectMode s; snapGrid := snapGrid s;
     isValidConnection := isValidConnection s; ondelete := ondelete s;
     currentConnection := currentConnection s; console := console s;
     ondeleteCalls := ondeleteCalls s; writes := writes s |}.

Definition with_selectionRectMode (v : option string) (s : Store) : Store :=
  {| nodeHeap := nodeHeap s; edgeHeap := edgeHeap s; nodes := nodes s;
     edges := edges s; nodeLookup := nodeLookup s; domNode := domNode s;
     nodeOrigin := nodeOrigin s; width := width s; height := height s;
     viewport := viewport s; panZoom := panZoom s; minZoom := minZoom s;
     maxZoom := maxZoom s; translateExtent := translateExtent s;
     fitViewScheduled := fitViewScheduled s; nodeTypes := nodeTypes s;
     edgeTypes := edgeTypes s;
     multiselectionKeyPressed := multiselectionKeyPressed s;
     deleteKeyPressed := deleteKeyPressed s;
     selectionRect := selectionRect s; selectionRectMode := v;
     snapGrid := snapGrid s; isValidConnection := isValidConnection s;
     ondelete := ondelete s; currentConnection := currentConnection s;
     console := console s; ondeleteCalls := ondeleteCalls s;
     writes := writes s |}.

Definition with_snapGrid (v : option (number * number)) (s : Store) : Store :=
  {| nodeHeap := nodeHeap s; edgeHeap := edgeHeap s; nodes := nodes s;
     edges := edges s; nodeLookup := nodeLookup s; domNode := domNode s;
     nodeOrigin := nodeOrigin s; width := width s; height := height s;
     viewport := viewport s; panZoom := panZoom s; minZoom := minZoom s;
     maxZoom := maxZoom s; translateExtent := translateExtent s;
     fitViewScheduled := fitViewScheduled s; nodeTypes := nodeTypes s;
     edgeTypes := edgeTypes s;
     multiselectionKeyPressed := multiselectionKeyPressed s;
     deleteKeyPressed := deleteKeyPressed s;
     selectionRect := selectionRect s;
     selectionRectMode := selectionRectMode s; snapGrid := v;
     isValidConnection := isValidConnection s; ondelete := ondelete s;
     currentConnection := currentConnection s; console := console s;
     ondeleteCalls := ondeleteCalls s; writes := writes s |}.

Definition with_isValidConnection (v : Connection → bool) (s : Store) : Store :=
  {| nodeHeap := nodeHeap s; edgeHeap := edgeHeap s; nodes := nodes s;
     edges := edges s; nodeLookup := nodeLookup s; domNode := domNode s;
     nodeOrigin := nodeOrigin s; width := width s; height := height s;
     viewport := viewport s; panZoom := panZoom s; minZoom := minZoom s;
     maxZoom := maxZoom s; translateExtent := translateExtent s;
     fitViewScheduled := fitViewScheduled s; nodeTypes := nodeTypes s;
     edgeTypes := edgeTypes s;
     multiselectionKeyPressed := multiselectionKeyPressed s;
     deleteKeyPressed := deleteKeyPressed s;
     selectionRect := selectionRect s;
     selectionRectMode := selectionRectMode s; snapGrid := snapGrid s;
     isValidConnection := v; ondelete := ondelete s;
     currentConnection := currentConnection s; console := console s;
     ondeleteCalls := ondeleteCalls s; writes := writes s |}.

Definition with_currentConnection (v : ConnectionData) (s : Store) : Store :=
  {| nodeHeap := nodeHeap s; edgeHeap := edgeHeap s; nodes := nodes s;
     edges := edges s; nodeLookup := nodeLookup s; domNode := domNode s;
     nodeOrigin := nodeOrigin s; width := width s; height := height s;
     viewport := viewport s; panZoom := panZoom s; minZoom := minZoom s;
     maxZoom := maxZoom s; translateExtent := translateExtent s;
     fitViewScheduled := fitViewScheduled s; nodeTypes := nodeTypes s;
     edgeTypes := edgeTypes s;
     multiselectionKeyPressed := multiselectionKeyPressed s;
     deleteKeyPressed := deleteKeyPressed s;
     selectionRect := selectionRect s;
     selectionRectMode := selectionRectMode s; snapGrid := snapGrid s;
     isValidConnection := isValidConnection s; ondelete := ondelete s;
     currentConnection := v; console := console s;
     ondeleteCalls := ondeleteCalls s; writes := writes s |}.

Definition with_console (v : list (string * string)) (s : Store) : Store :=
  {| nodeHeap := nodeHeap s; edgeHeap := edgeHeap s; nodes := nodes s;
     edges := edges s; nodeLookup := nodeLookup s; domNode := domNode s;
     nodeOrigin := nodeOrigin s; width := width s; height := height s;
     viewport := viewport s; panZoom := panZoom s; minZoom := minZoom s;
     maxZoom := maxZoom s; translateExtent := translateExtent s;
     fitViewScheduled := fitViewScheduled s; nodeTypes := nodeTypes s;
     edgeTypes := edgeTypes s;
     multiselectionKeyPressed := multiselectionKeyPressed s;
     deleteKeyPressed := deleteKeyPressed s;
     selectionRect := selectionRect s;
     selectionRectMode := selectionRectMode s; snapGrid := snapGrid s;
     isValidConnection := isValidConnection s; ondelete := ondelete s;
     currentConnection := currentConnection s; console := v;
     ondeleteCalls := ondeleteCalls s; writes := writes s |}.

Definition with_ondeleteCalls (v : list (list loc * list loc)) (s : Store) : Store :=
  {| nodeHeap := nodeHeap s; edgeHeap := edgeHeap s; nodes := nodes s;
     edges := edges s; nodeLookup := nodeLookup s; domNode := domNode s;
     nodeOrigin := nodeOrigin s; width := width s; height := height s;
     viewport := viewport s; panZoom := panZoom s; minZoom := minZoom s;
     maxZoom := maxZoom s; translateExtent := translateExtent s;
     fitViewScheduled := fitViewScheduled s; nodeTypes := nodeTypes s;
     edgeTypes := edgeTypes s;
     multiselectionKeyPressed := multiselectionKeyPressed s;
     deleteKeyPressed := deleteKeyPressed s;
     selectionRect := selectionRect s;
     selectionRectMode := selectionRectMode s; snapGrid := snapGrid s;
     isValidConnection := isValidConnection s; ondelete := ondelete s;
     currentConnection := currentConnection s; console := console s;
     ondeleteCalls := v; writes := writes s |}.

Definition with_writes (v : list Cell) (s : Store) : Store :=
  {| nodeHeap := nodeHeap s; edgeHeap := edgeHeap s; nodes := nodes s;
     edges := edges s; nodeLookup := nodeLookup s; domNode := domNode s;
     nodeOrigin := nodeOrigin s; width := width s; height := height s;
     viewport := viewport s; panZoom := panZoom s; minZoom := minZoom s;
     maxZoom := maxZoom s; translateExtent := translateExtent s;
     fitViewScheduled := fitViewScheduled s; nodeTypes := nodeTypes s;
     edgeTypes := edgeTypes s;
     multiselectionKeyPressed := multiselectionKeyPressed s;
     deleteKeyPressed := deleteKeyPressed s;
     selectionRect := selectionRect s;
     selectionRectMode := selectionRectMode s; snapGrid := snapGrid s;
     isValidConnection := isValidConnection s; ondelete := ondelete s;
     currentConnection := currentConnection s; console := console s;
     ondeleteCalls := ondeleteCalls s; writes := v |}.

(** ** Reading and writing cells *)

Definition M (A : Type) : Type := Store → A * Store.

#[global] Instance M_ret : MRet M := λ A a s, (a, s).
#[global] Instance M_bind : MBind M :=
  λ A B k m s, let '(a, s1) := m s in k a s1.

(** [get(store.c)] *)
Definition gets {A} (c : Store → A) : M A := λ s, (c s, s).

(** [store.c.set(v)] *)
Definition cellSet {A} (c : Cell) (w : A → Store → Store) (v : A) : M unit :=
  λ s, (tt, with_writes (c :: writes s) (w v s)).

(** A state change that is no cell write: objects and the outside. *)
Definition modify (f : Store → Store) : M unit := λ s, (tt, f s).

(** The final state of a computation. *)
Definition exec {A} (m : M A) (s : Store) : Store := (m s).2.

(** The value a computation returns. *)
Definition eval {A} (m : M A) (s : Store) : A := (m s).1.

Section store.

(** ** What [@xyflow/system] provides *)

(** [fitView(params, options)]: reads the node objects, drives the engine,
    and says whether it could fit the view. *)
Variable fitViewUtil :
  list Node → FitViewParams → option FitViewOptions → bool * PanZoom.

(** [updateNodeDimensions(updates, nodes, nodeLookup, domNode, nodeOrigin)]:
    the next node array, or [null]; it may write to node objects and create
    some. *)
Variable updateNodeDimensionsSystem :
  list (string * NodeDimensionUpdate) → list loc → list (string * loc) →
  option DomNode → number * number → list Node → option (list loc) * list Node.

(** [getElementsToRemove({ nodesToRemove, edgesToRemove, nodes, edges,
    onBeforeDelete })], awaited; the [onBeforeDelete] hook is part of it. *)
Variable getElementsToRemove :
  list Node → list Edge → list loc → list loc → list loc → list loc →
  list loc * list loc.

(** [errorMessages['error012']] *)
Variable error012 : string → string.

(** ** Actions *)

(** The object [updateNodePositions] answers with for [node], when a drag
    item has its id. *)
Definition draggedNode (nodeDragItems : list NodeDragItem) (dragging : bool)
    (node : Node) : option Node :=
  match find (λ ndi, String.eqb (ndi_id ndi) (node_id node)) nodeDragItems with
  | Some nodeDragItem =>
      Some {| node_id := node_id node;
              node_position := ndi_position nodeDragItem;
              node_computed :=
                Some {| computed_width := node_computed node ≫= computed_width;
                        computed_height := node_computed node ≫= computed_height;
                        positionAbsolute :=
                          ndi_computed nodeDragItem ≫= positionAbsolute |};
              node_parentId := node_parentId node;
              node_selected := node_selected node;
              node_dragging := Some dragging;
              node_deletable := node_deletable node;
              node_type := node_type node;
              node_data := node_data node;
              node_internals := node_internals node |}
  | None => None
  end.

Definition updateNodePositions (nodeDragItems : list NodeDragItem)
    (dragging : bool) : M unit :=
  λ s,
    let '(nds, h) :=
      Heap.mapObjects (draggedNode nodeDragItems dragging)
        (nodes s) (nodeHeap s) in
    (tt, with_writes (CNodes :: writes s) (with_nodes nds (with_nodeHeap h s))).

Definition callFitViewUtil (nds : list loc) (panZoom : PanZoom)
    (options : option FitViewOptions) : M bool :=
  λ s,
    let '(done, panZoom') :=
      fitViewUtil (nodeHeap s)
        {| fvp_nodes := nds; fvp_width := width s; fvp_height := height s;
           fvp_minZoom := minZoom s; fvp_maxZoom := maxZoom s;
           fvp_panZoom := panZoom; fvp_nodeOrigin := nodeOrigin s |}
        options in
    (done, with_panZoom (Some panZoom') s).

Definition fitView (nds : list loc) (options : option FitViewOptions)
  : M bool :=
  pz ← gets panZoom;
  match pz with
  | None => mret false
  | Some panZoom =>
      match options with
      | Some o =>
          if truthy (fvo_waitForInit o)
          then cellSet CFitViewScheduled with_fitViewScheduled (FvsOptions o);;
               mret true
          else callFitViewUtil nds panZoom options
      | None => callFitViewUtil nds panZoom options
      end
  end.

(** The options of the retried fit-view. *)
Definition scheduledFitViewOptions (fitViewScheduled : FitViewScheduled)
    (nextNodes : list loc) : FitViewOptions :=
  match fitViewScheduled with
  | FvsBool _ =>
      {| fvo_padding := None; fvo_includeHiddenNodes := None;
         fvo_minZoom := None; fvo_maxZoom := None; fvo_duration := None;
         fvo_nodes := Some nextNodes; fvo_waitForInit := None |}
  | FvsOptions o =>
      {| fvo_padding := fvo_padding o;
         fvo_includeHiddenNodes := fvo_includeHiddenNodes o;
         fvo_minZoom := fvo_minZoom o; fvo_maxZoom := fvo_maxZoom o;
         fvo_duration := fvo_duration o;
         fvo_nodes := Some (default nextNodes (fvo_nodes o));
         fvo_waitForInit := Some false |}
  end.

Definition callUpdateNodeDimensionsSystem
    (updates : list (string * NodeDimensionUpdate)) (nds : list loc)
    (lookup : list (string * loc)) (dom : option DomNode)
    (origin : number * number) : M (option (list loc)) :=
  λ s,
    let '(res, h) :=
      updateNodeDimensionsSystem updates nds lookup dom origin (nodeHeap s) in
    (res, with_nodeHeap h s).

Definition updateNodeDimensions
    (updates : list (string * NodeDimensionUpdate)) : M unit :=
  nds ← gets nodes;
  lookup ← gets nodeLookup;
  dom ← gets domNode;
  origin ← gets nodeOrigin;
  nextNodes ← callUpdateNodeDimensionsSystem updates nds lookup dom origin;
  match nextNodes with
  | None => mret tt
  | Some nextNodes =>
      fitViewScheduled ← gets fitViewScheduled;
      (if fvsTruthy fitViewScheduled
       then
         fitViewDone ←
           fitView nextNodes
             (Some (scheduledFitViewOptions fitViewScheduled nextNodes));
         if (fitViewDone : bool)
         then cellSet CFitViewScheduled with_fitViewScheduled (FvsBool false)
         else mret tt
       else mret tt);;
      cellSet CNodes with_nodes nextNodes
  end.

Definition callPanZoom (call : PanZoomCall) (panZoom : PanZoom) : M unit :=
  modify (with_panZoom (Some (call :: panZoom))).

Definition setMinZoom (minZoom : number) : M unit :=
  pz ← gets panZoom;
  match pz with
  | Some panZoom =>
      max ← gets maxZoom;
      callPanZoom (SetScaleExtent minZoom max) panZoom;;
      cellSet CMinZoom with_minZoom minZoom
  | None => mret tt
  end.

Definition setMaxZoom (maxZoom : number) : M unit :=
  pz ← gets panZoom;
  match pz with
  | Some panZoom =>
      min ← gets minZoom;
      callPanZoom (SetScaleExtent min maxZoom) panZoom;;
      cellSet CMaxZoom with_maxZoom maxZoom
  | None => mret tt
  end.

Definition setTranslateExtent (extent : CoordinateExtent) : M unit :=
  pz ← gets panZoom;
  match pz with
  | Some panZoom =>
      callPanZoom (SetTranslateExtent extent) panZoom;;
      cellSet CTranslateExtent with_translateExtent extent
  | None => mret tt
  end.

(** One turn of the [forEach] of [resetSelectedElements]. *)
Definition resetSelectedStep {A} `{Element A} (acc : bool * list A) (r : loc)
  : bool * list A :=
  match acc.2 !! r with
  | Some element =>
      if truthy (elemSelected element)
      then (true, <[r := withSelected false element]> acc.2)
      else acc
  | None => acc
  end.

Definition resetSelectedElements {A} `{Element A} (elements : list loc)
    (h : list A) : bool * list A :=
  foldl resetSelectedStep (false, h) elements.

Record UnselectParams := mkUnselectParams {
  up_nodes : option (list loc);
  up_edges : option (list loc)
}.

(** [resetSelectedElements] on node objects, and on edge objects. *)
Definition resetSelectedNodes (elements : list loc) : M bool :=
  λ s,
    let '(changed, h) := resetSelectedElements elements (nodeHeap s) in
    (changed, with_nodeHeap h s).

Definition resetSelectedEdges (elements : list loc) : M bool :=
  λ s,
    let '(changed, h) := resetSelectedElements elements (edgeHeap s) in
    (changed, with_edgeHeap h s).

Definition unselectNodesAndEdges (params : option UnselectParams) : M unit :=
  nds ← gets nodes;
  resetNodes ← resetSelectedNodes (default nds (params ≫= up_nodes));
  (if (resetNodes : bool)
   then nds' ← gets nodes; cellSet CNodes with_nodes nds'
   else mret tt);;
  eds ← gets edges;
  resetEdges ← resetSelectedEdges (default eds (params ≫= up_edges));
  if (resetEdges : bool)
  then eds' ← gets edges; cellSet CEdges with_edges eds'
  else mret tt.

(** [matching.some((m) => m.id === element.id)] *)
Definition someSameId {A} `{Element A} (matching : list loc) (h : list A)
    (element : A) : bool :=
  existsb
    (λ m, from_option (λ o, String.eqb (elemId o) (elemId element)) false
            (h !! m))
    matching.

(** The subscriber of [store.deleteKeyPressed]. *)
Definition onDeleteKeyPressed (deleteKeyPressed : bool) : M unit :=
  if deleteKeyPressed
  then
    nds ← gets nodes;
    eds ← gets edges;
    nh ← gets nodeHeap;
    eh ← gets edgeHeap;
    let selectedNodes :=
      Heap.filterObjects (λ node, truthy (node_selected node)) nds nh in
    let selectedEdges :=
      Heap.filterObjects (λ edge, truthy (edge_selected edge)) eds eh in
    let '(matchingNodes, matchingEdges) :=
      getElementsToRemove nh eh selectedNodes selectedEdges nds eds in
    if negb (length matchingNodes =? 0) || negb (length matchingEdges =? 0)
    then
      modify (λ s,
        with_writes (CNodes :: writes s)
          (with_nodes
             (Heap.filterObjects
                (λ node, negb (someSameId matchingNodes (nodeHeap s) node))
                (nodes s) (nodeHeap s)) s));;
      modify (λ s,
        with_writes (CEdges :: writes s)
          (with_edges
             (Heap.filterObjects
                (λ edge, negb (someSameId matchingEdges (edgeHeap s) edge))
                (edges s) (edgeHeap s)) s));;
      hook ← gets ondelete;
      if (hook : bool)
      then modify (λ s,
             with_ondeleteCalls
               ((matchingNodes, matchingEdges) :: ondeleteCalls s) s)
      else mret tt
    else mret tt
  else mret tt.

(** The [selected] flag [addSelectedNodes] and [addSelectedEdges] write. *)
Definition selectElement {A} `{Element A} (isMultiSelection : bool)
    (ids : list string) (element : A) : A :=
  let willBeSelected := includes ids (elemId element) in
  let selected :=
    if isMultiSelection
    then truthy (elemSelected element) || willBeSelected
    else willBeSelected in
  withSelected selected element.

(** [store.nodes.update((ns) => ns.map((node) => { node.selected = ...;
    return node; }))]: the objects are written in place and the cell gets a
    new array of the same references.  Likewise for edges. *)
Definition updateNodesInPlace (f : Node → Node) : M unit :=
  modify (λ s,
    with_writes (CNodes :: writes s)
      (with_nodeHeap (Heap.mutObjects f (nodes s) (nodeHeap s)) s)).

Definition updateEdgesInPlace (f : Edge → Edge) : M unit :=
  modify (λ s,
    with_writes (CEdges :: writes s)
      (with_edgeHeap (Heap.mutObjects f (edges s) (edgeHeap s)) s)).

Definition addSelectedNodes (ids : list string) : M unit :=
  isMultiSelection ← gets multiselectionKeyPressed;
  updateNodesInPlace (selectElement isMultiSelection ids);;
  if negb isMultiSelection
  then updateEdgesInPlace (withSelected false)
  else mret tt.

Definition addSelectedEdges (ids : list string) : M unit :=
  isMultiSelection ← gets multiselectionKeyPressed;
  updateEdgesInPlace (selectElement isMultiSelection ids);;
  if negb isMultiSelection
  then updateNodesInPlace (withSelected false)
  else mret tt.

(** [console.warn(code, message)] *)
Definition consoleWarn (code message : string) : M unit :=
  modify (λ s, with_console ((code, message) :: console s) s).

Definition handleNodeSelection (id : string) : M unit :=
  nds ← gets nodes;
  nh ← gets nodeHeap;
  match Heap.findObject (λ n, String.eqb (node_id n) id) nds nh with
  | None => consoleWarn "012" (error012 id)
  | Some r =>
      cellSet CSelectionRect with_selectionRect None;;
      cellSet CSelectionRectMode with_selectionRectMode None;;
      if negb (from_option (λ node, truthy (node_selected node)) false (nh !! r))
      then addSelectedNodes [id]
      else
        multi ← gets multiselectionKeyPressed;
        if (multi : bool)
        then unselectNodesAndEdges
               (Some {| up_nodes := Some [r]; up_edges := Some [] |})
        else mret tt
  end.

Definition initConnectionUpdateData : ConnectionData :=
  {| connectionStartHandle := None; connectionEndHandle := None;
     connectionPosition := None; connectionStatus := None |}.

Definition updateConnection (newConnection : ConnectionData) : M unit :=
  cellSet CCurrentConnection with_currentConnection newConnection.

Definition cancelConnection : M unit :=
  updateConnection initConnectionUpdateData.

Definition reset : M unit :=
  cellSet CSelectionRect with_selectionRect None;;
  cellSet CSelectionRectMode with_selectionRectMode None;;
  cellSet CSnapGrid with_snapGrid None;;
  cellSet CIsValidConnection with_isValidConnection (λ _, true);;
  cellSet CNodes with_nodes [];;
  cellSet CEdges with_edges [];;
  unselectNodesAndEdges None;;
  cancelConnection.

(** The [fitView] action the store exposes. *)
Definition fitViewAction (options : option FitViewOptions) : M bool :=
  nds ← gets nodes;
  fitView nds options.

End store.
End Flow.

(** * The first store ([index.ts]) *)

Module Legacy.

Record Node := mkNode {
  node_id : string;
  node_position : XYPosition;
  node_positionAbsolute : option XYPosition;
  node_width : option number;
  node_height : option number;
  node_parentNode : option string;
  node_selected : option bool;
  node_dragging : option bool;
  node_deletable : option bool;
  node_type : option string;
  node_data : string;
  node_internals : option NodeInternals
}.

Record Edge := mkEdge {
  edge_id : string;
  edge_source : string;
  edge_target : string;
  edge_sourceHandle : option string;
  edge_targetHandle : option string;
  edge_type : option string;
  edge_selected : option bool;
  edge_deletable : option bool
}.

Record NodeDragItem := mkDragItem {
  ndi_id : string;
  ndi_position : XYPosition;
  ndi_positionAbsolute : option XYPosition
}.

(** An edge with its resolved geometry. *)
Record WrapEdgeProps := mkWrapEdgeProps {
  wrap_edge : Edge;
  wrap_type : string;
  sourceX : number;
  sourceY : number;
  targetX : number;
  targetY : number;
  sourcePosition : Position;
  targetPosition : Position;
  sourceHandleId : option string;
  targetHandleId : option string
}.

Record EdgePositions := mkEdgePositions {
  ep_sourceX : number;
  ep_sourceY : number;
  ep_targetX : number;
  ep_targetY : number
}.

(** What a callback does: it returns a value, or a [TypeError] is thrown
    (a property read on [null] or [undefined]). *)
Inductive Outcome (A : Type) :=
| Returns (a : A)
| Throws.
Arguments Returns {A} a.
Arguments Throws {A}.

(** ** [updateNodePositions] *)

Definition draggedNode (nodeDragItems : list NodeDragItem) (dragging : bool)
    (n : Node) : option Node :=
  match find (λ ndi, String.eqb (ndi_id ndi) (node_id n)) nodeDragItems with
  | Some nodeDragItem =>
      Some {| node_id := node_id n;
              node_position := ndi_position nodeDragItem;
              node_positionAbsolute := ndi_positionAbsolute nodeDragItem;
              node_width := node_width n;
              node_height := node_height n;
              node_parentNode := node_parentNode n;
              node_selected := node_selected n;
              node_dragging := Some dragging;
              node_deletable := node_deletable n;
              node_type := node_type n;
              node_data := node_data n;
              node_internals := node_internals n |}
  | None => None
  end.

(** The new value of [nodesStore], and the heap with the objects created. *)
Definition updateNodePositions (nodeDragItems : list NodeDragItem)
    (dragging : bool) (nds : list loc) (h : list Node)
  : list loc * list Node :=
  Heap.mapObjects (draggedNode nodeDragItems dragging) nds h.

(** ** [addSelectedNodes] *)

(** Every node is replaced by a copy; the multi-selection key is read and
    not used ([@todo handle multiselection key]). *)
Definition addSelectedNodes (ids : list string) (ns : list Node)
  : list Node :=
  map (λ node,
         {| node_id := node_id node;
            node_position := node_position node;
            node_positionAbsolute := node_positionAbsolute node;
            node_width := node_width node;
            node_height := node_height node;
            node_parentNode := node_parentNode node;
            node_selected := Some (includes ids (node_id node));
            node_dragging := node_dragging node;
            node_deletable := node_deletable node;
            node_type := node_type node;
            node_data := node_data node;
            node_internals := node_internals node |})
      ns.

(** ** The edge projection [edgesWithDataStore] *)

(** Modelled from the spec: [getNodeData] of [EdgeRenderer/utils] is not part
    of the sources.  It answers with the node's rectangle, its handle bounds
    and whether the node can carry an edge: the node exists and its geometry
    (handle bounds, width, height, absolute position) is known. *)
Definition getNodeData (node : option Node)
  : Rect * option NodeHandleBounds * bool :=
  let handleBounds := (node ≫= node_internals) ≫= handleBounds in
  let positionAbsolute := node ≫= node_positionAbsolute in
  let width := node ≫= node_width in
  let height := node ≫= node_height in
  let isValid :=
    isSome handleBounds && isSome width && isSome height &&
    isSome positionAbsolute in
  ({| rect_x := default 0%Z (x <$> positionAbsolute);
      rect_y := default 0%Z (y <$> positionAbsolute);
      rect_width := default 0%Z width;
      rect_height := default 0%Z height |},
   handleBounds, isValid).

(** Modelled from the spec: [getHandle] of [EdgeRenderer/utils] is not part
    of the sources.  With an explicit handle id the handle of an edge end is
    the handle of the role that has this id, and there is none when no
    handle of the role has it (an edge that names a handle id the node does
    not have is absent from the visible edges).  With no explicit id it is
    the first handle of the role.  There is none when the node has no handle
    of the role. *)
Definition getHandle (bounds : option (list HandleElement))
    (handleId : option string) : option HandleElement :=
  match bounds with
  | None => None
  | Some handles =>
      match handleId with
      | Some i => find (λ h, bool_decide (handle_id h = Some i)) handles
      | None => head handles
      end
  end.

(** The resolved handle of an edge end, in the words of the specification:
    one of the handles of the role; the one the explicit id names when a
    handle of the role has that id, the first handle of the role otherwise. *)
Definition resolvedHandle (handles : list HandleElement)
    (handleId : option string) (h : HandleElement) : Prop :=
  h ∈ handles ∧
  (∀ i, handleId = Some i → Some i ∈ handle_id <$> handles →
     handle_id h = Some i) ∧
  ((∀ i, handleId = Some i → Some i ∉ handle_id <$> handles) →
     head handles = Some h).

(** The geometry of a node is known, in the words of the specification: its
    width and height are measured, its absolute position is computed and its
    handle-bounds cache is filled. *)
Definition knownGeometry (n : Node) : Prop :=
  is_Some (node_width n) ∧ is_Some (node_height n) ∧
  is_Some (node_positionAbsolute n) ∧
  is_Some (node_internals n ≫= handleBounds).

(** The handles of a node, by role. *)
Definition sourceHandles (n : Node) : list HandleElement :=
  default [] ((node_internals n ≫= handleBounds) ≫= hb_source).

Definition targetHandles (n : Node) : list HandleElement :=
  default [] ((node_internals n ≫= handleBounds) ≫= hb_target).

(** A matching handle exists, in the words of the specification: a handle of
    the role that has the explicit id, or, for an edge end that names no
    handle, any handle of the role. *)
Definition matchingHandle (handles : list HandleElement)
    (handleId : option string) : Prop :=
  match handleId with
  | Some i => Some i ∈ handle_id <$> handles
  | None => handles ≠ []
  end.

Section projection.

(** [getEdgePositions] of [EdgeRenderer/utils]: the anchor points of an edge
    from the two node rectangles, handles and handle sides. *)
Variable getEdgePositions :
  Rect → HandleElement → Position → Rect → HandleElement → Position →
  EdgePositions.

(** The callback of [$edges.map]: [Returns None] is [return null]. *)
Definition edgeWithData (nds : list Node) (edge : Edge)
  : Outcome (option WrapEdgeProps) :=
  let sourceNode := find (λ node, String.eqb (node_id node) (edge_source edge)) nds in
  let targetNode := find (λ node, String.eqb (node_id node) (edge_target edge)) nds in
  let '(sourceNodeRect, sourceHandleBounds, sourceIsValid) :=
    getNodeData sourceNode in
  let '(targetNodeRect, targetHandleBounds, targetIsValid) :=
    getNodeData targetNode in
  if negb sourceIsValid || negb targetIsValid then Returns None
  else
    let edgeType := stringOr (edge_type edge) "default" in
    match targetHandleBounds, sourceHandleBounds with
    | Some targetBounds, Some sourceBounds =>
        let targetNodeHandles := hb_target targetBounds in
        let sourceHandle :=
          getHandle (hb_source sourceBounds) (edge_sourceHandle edge) in
        let targetHandle :=
          getHandle targetNodeHandles (edge_targetHandle edge) in
        match sourceHandle, targetHandle with
        | Some sourceHandle, Some targetHandle =>
            let sourcePosition := handle_position sourceHandle in
            let targetPosition := handle_position targetHandle in
            let p :=
              getEdgePositions sourceNodeRect sourceHandle sourcePosition
                targetNodeRect targetHandle targetPosition in
            Returns
              (Some {| wrap_edge := edge;
                       wrap_type := edgeType;
                       sourceX := ep_sourceX p;
                       sourceY := ep_sourceY p;
                       targetX := ep_targetX p;
                       targetY := ep_targetY p;
                       sourcePosition := sourcePosition;
                       targetPosition := targetPosition;
                       sourceHandleId := edge_sourceHandle edge;
                       targetHandleId := edge_targetHandle edge |})
        | _, _ => Returns None
        end
    | _, _ => Throws
    end.

(** [$edges.map(...).filter((e) => e !== null)]: a callback that throws
    ends the whole computation. *)
Fixpoint edgesWithData (eds : list Edge) (nds : list Node)
  : Outcome (list WrapEdgeProps) :=
  match eds with
  | [] => Returns []
  | edge :: rest =>
      match edgeWithData nds edge with
      | Throws => Throws
      | Returns w =>
          match edgesWithData rest nds with
          | Throws => Throws
          | Returns ws => Returns (from_option (λ w, [w]) [] w ++ ws)
          end
      end
  end.

End projection.

(** ** The subscriber of [deleteKeyPressedStore] *)

(** The callback of the [reduce] that builds [nodesToRemove]. *)
Definition nodesToRemoveStep (nodeIds : list string) (res : list Node)
    (node : Node) : list Node :=
  let parentHit :=
    negb (includes nodeIds (node_id node)) &&
    from_option
      (λ parent,
         stringTruthy parent &&
         isSome (find (λ n, String.eqb (node_id n) parent) res))
      false (node_parentNode node) in
  let deletable := boolOrTrue (node_deletable node) in
  if deletable && (includes nodeIds (node_id node) || parentHit)
  then res ++ [node]
  else res.

Definition nodesToRemove (nodeIds : list string) (nds : list Node)
  : list Node :=
  foldl (nodesToRemoveStep nodeIds) [] nds.

(** Modelled from the spec: [getConnectedEdges] of [@reactflow/utils] is not
    part of the sources.  The connected edges are those that reference one
    of the given nodes as their source or their target. *)
Definition getConnectedEdges (nds : list Node) (eds : list Edge)
  : list Edge :=
  let nodeIds := node_id <$> nds in
  List.filter
    (λ e, includes nodeIds (edge_source e) || includes nodeIds (edge_target e))
    eds.

(** The ids of [edgesToRemove], each once. *)
Definition edgeIdsToRemove (edgesToRemove : list Edge) : list string :=
  foldl (λ res edge,
           if includes res (edge_id edge) then res else res ++ [edge_id edge])
        [] edgesToRemove.

(** The edges the subscriber means to remove. *)
Definition edgesToRemove (nodeIds edgeIds : list string)
    (nds : list Node) (eds : list Edge) : list Edge :=
  let deletableEdges :=
    List.filter (λ e, boolOrTrue (edge_deletable e)) eds in
  let initialHitEdges :=
    List.filter (λ e, includes edgeIds (edge_id e)) deletableEdges in
  let connectedEdges :=
    getConnectedEdges (nodesToRemove nodeIds nds) deletableEdges in
  initialHitEdges ++ connectedEdges.

(** The new values of [nodesStore] and [edgesStore].  Arrays are truthy, so
    the test [nodesToRemove || initialHitEdges] always passes. *)
Definition onDeleteKeyPressed (deleteKeyPressed : bool)
    (nds : list Node) (eds : list Edge) : list Node * list Edge :=
  if deleteKeyPressed
  then
    let selectedNodes := List.filter (λ node, truthy (node_selected node)) nds in
    let selectedEdges := List.filter (λ edge, truthy (edge_selected edge)) eds in
    let nodeIds := node_id <$> selectedNodes in
    let edgeIds := edge_id <$> selectedEdges in
    let ids := edgeIdsToRemove (edgesToRemove nodeIds edgeIds nds eds) in
    (List.filter (λ node, negb (includes nodeIds (node_id node))) nds,
     List.filter (λ edge, negb (includes ids (edge_id edge))) eds)
  else (nds, eds).

(** ** The removed nodes, in the words of the specification *)

(** [a] is an ancestor of [n]: the parent of [n], or an ancestor of it,
    following [parentNode] through the nodes of the collection. *)
Inductive ancestor (nds : list Node) : Node → Node → Prop :=
| ancestor_parent n a :
    a ∈ nds → node_parentNode n = Some (node_id a) → ancestor nds a n
| ancestor_step n m a :
    m ∈ nds → node_parentNode n = Some (node_id m) → ancestor nds a m →
    ancestor nds a n.

(** Every selected deletable node, and every deletable node that is not
    selected and has a removed ancestor. *)
Inductive removedBySpec (nds : list Node) : Node → Prop :=
| removed_selected n :
    n ∈ nds → truthy (node_selected n) = true →
    boolOrTrue (node_deletable n) = true → removedBySpec nds n
| removed_descendant n a :
    n ∈ nds → truthy (node_selected n) = false →
    boolOrTrue (node_deletable n) = true →
    ancestor nds a n → removedBySpec nds a → removedBySpec nds n.

End Legacy.

(** * Sample graphs *)

Module Samples.
Import Flow.

Definition origin : XYPosition := {| x := 0%Z; y := 0%Z |}.

(** A selected parent [a] and its unselected child [b]. *)
Definition nodeA : Node :=
  {| node_id := "a"; node_position := origin; node_computed := None;
     node_parentId := None; node_selected := Some true;
     node_dragging := None; node_deletable := None; node_type := None;
     node_data := "A"; node_internals := None |}.

Definition nodeB : Node :=
  {| node_id := "b"; node_position := {| x := 5%Z; y := 5%Z |};
     node_computed := None; node_parentId := Some "a";
     node_selected := None; node_dragging := None;
     node_deletable := None; node_type := None;
     node_data := "B"; node_internals := None |}.

Definition edgeAB : Edge :=
  {| edge_id := "e1"; edge_source := "a"; edge_target := "b";
     edge_sourceHandle := None; edge_targetHandle := None;
     edge_type := None; edge_selected := Some true;
     edge_deletable := None |}.

(** A store before the pan/zoom engine is attached. *)
Definition detached : Store :=
  {| nodeHeap := [nodeA; nodeB]; edgeHeap := [edgeAB];
     nodes := [0; 1]; edges := [0];
     nodeLookup := [("a", 0); ("b", 1)]; domNode := None;
     nodeOrigin := (0%Z, 0%Z); width := 500%Z; height := 500%Z;
     viewport := {| viewport_x := 0%Z; viewport_y := 0%Z; viewport_zoom := 1%Z |};
     panZoom := None; minZoom := 1%Z; maxZoom := 2%Z;
     translateExtent := ((0%Z, 0%Z), (1000%Z, 1000%Z));
     fitViewScheduled := FvsBool true;
     nodeTypes := []; edgeTypes := [];
     multiselectionKeyPressed := false; deleteKeyPressed := false;
     selectionRect := None; selectionRectMode := None; snapGrid := None;
     isValidConnection := λ _, true; ondelete := false;
     currentConnection := initConnectionUpdateData;
     console := []; ondeleteCalls := []; writes := [] |}.

(** The same store once the engine is attached. *)
Definition attached : Store := with_panZoom (Some []) detached.

Definition dragA : NodeDragItem :=
  {| ndi_id := "a"; ndi_position := {| x := 10%Z; y := 20%Z |};
     ndi_computed :=
       Some {| computed_width := None; computed_height := None;
               positionAbsolute := Some {| x := 10%Z; y := 20%Z |} |} |}.

(** Fit-view options that ask to wait for the initialisation. *)
Definition waitOptions : FitViewOptions :=
  {| fvo_padding := None; fvo_includeHiddenNodes := None;
     fvo_minZoom := None; fvo_maxZoom := None; fvo_duration := None;
     fvo_nodes := None; fvo_waitForInit := Some true |}.

(** A [fitViewUtil] that fits when there is a node to frame. *)
Definition fitWhenNodes (h : list Node) (p : FitViewParams)
    (o : option FitViewOptions) : bool * PanZoom :=
  match fvp_nodes p with
  | [] => (false, fvp_panZoom p)
  | _ :: _ =>
      (true,
       SetViewport {| viewport_x := 0%Z; viewport_y := 0%Z; viewport_zoom := 1%Z |}
         :: fvp_panZoom p)
  end.

(** An [updateNodeDimensions] of the system that accepts every update and
    keeps the node array. *)
Definition measureAll (updates : list (string * NodeDimensionUpdate))
    (nds : list loc) (lookup : list (string * loc)) (dom : option DomNode)
    (nodeOrigin : number * number) (h : list Node)
  : option (list loc) * list Node :=
  (Some nds, h).

Definition error012 (id : string) : string := "Node not found: " +:+ id.

(** The ids of the selected nodes, and of the selected edges, of a store. *)
Definition selectedNodeIds (s : Store) : list string :=
  omap (λ r, nodeHeap s !! r ≫= λ n,
          if truthy (node_selected n) then Some (node_id n) else None)
       (nodes s).

Definition selectedEdgeIds (s : Store) : list string :=
  omap (λ r, edgeHeap s !! r ≫= λ e,
          if truthy (edge_selected e) then Some (edge_id e) else None)
       (edges s).

(** The same store with the multi-selection key held. *)
Definition multiSelecting : Store :=
  {| nodeHeap := nodeHeap detached; edgeHeap := edgeHeap detached;
     nodes := nodes detached; edges := edges detached;
     nodeLookup := nodeLookup detached; domNode := domNode detached;
     nodeOrigin := nodeOrigin detached; width := width detached;
     height := height detached; viewport := viewport detached;
     panZoom := panZoom detached; minZoom := minZoom detached;
     maxZoom := maxZoom detached; translateExtent := translateExtent detached;
     fitViewScheduled := fitViewScheduled detached;
     nodeTypes := nodeTypes detached; edgeTypes := edgeTypes detached;
     multiselectionKeyPressed := true;
     deleteKeyPressed := deleteKeyPressed detached;
     selectionRect := selectionRect detached;
     selectionRectMode := selectionRectMode detached;
     snapGrid := snapGrid detached;
     isValidConnection := isValidConnection detached;
     ondelete := ondelete detached;
     currentConnection := currentConnection detached;
     console := console detached; ondeleteCalls := ondeleteCalls detached;
     writes := writes detached |}.

(** A [getElementsToRemove] that answers with the selection it is given. *)
Definition removeSelected (nh : list Node) (eh : list Edge)
    (nodesToRemove edgesToRemove nds eds : list loc) : list loc * list loc :=
  (nodesToRemove, edgesToRemove).

End Samples.

Module LegacySamples.
Import Legacy.

Definition handleOut : HandleElement :=
  {| handle_id := Some "out"; handle_x := 10%Z; handle_y := 20%Z;
     handle_width := 4%Z; handle_height := 4%Z; handle_position := Bottom |}.

Definition handleIn : HandleElement :=
  {| handle_id := Some "in"; handle_x := 10%Z; handle_y := 0%Z;
     handle_width := 4%Z; handle_height := 4%Z; handle_position := Top |}.

Definition measured (id : string) (parent : option string)
    (selected deletable : option bool) : Node :=
  {| node_id := id; node_position := {| x := 0%Z; y := 0%Z |};
     node_positionAbsolute := Some {| x := 0%Z; y := 0%Z |};
     node_width := Some 20%Z; node_height := Some 20%Z;
     node_parentNode := parent; node_selected := selected;
     node_dragging := None; node_deletable := deletable;
     node_type := None; node_data := id;
     node_internals :=
       Some {| handleBounds :=
                 Some {| hb_source := Some [handleOut];
                         hb_target := Some [handleIn] |} |} |}.

(** A selected grandparent [g], its child [p] that may not be deleted, and
    the child [c] of [p]. *)
Definition nodeG : Node := measured "g" None (Some true) None.
Definition nodeP : Node := measured "p" (Some "g") None (Some false).
Definition nodeC : Node := measured "c" (Some "p") None None.

Definition family : list Node := [nodeG; nodeP; nodeC].

Definition edgeGP : Edge :=
  {| edge_id := "g-p"; edge_source := "g"; edge_target := "p";
     edge_sourceHandle := Some "out"; edge_targetHandle := None;
     edge_type := None; edge_selected := None; edge_deletable := None |}.

Definition edgePC : Edge :=
  {| edge_id := "p-c"; edge_source := "p"; edge_target := "c";
     edge_sourceHandle := None; edge_targetHandle := None;
     edge_type := None; edge_selected := None; edge_deletable := None |}.

(** An edge to a node that is not there. *)
Definition edgeDangling : Edge :=
  {| edge_id := "g-x"; edge_source := "g"; edge_target := "x";
     edge_sourceHandle := None; edge_targetHandle := None;
     edge_type := None; edge_selected := None; edge_deletable := None |}.

(** An edge to a handle that its target node does not have. *)
Definition edgeMissingHandle : Edge :=
  {| edge_id := "g-c"; edge_source := "g"; edge_target := "c";
     edge_sourceHandle := None; edge_targetHandle := Some "missing";
     edge_type := None; edge_selected := None; edge_deletable := None |}.

(** Anchor points at the corners of the two handles. *)
Definition anchors (sourceRect : Rect) (sourceHandle : HandleElement)
    (sourcePosition : Position) (targetRect : Rect)
    (targetHandle : HandleElement) (targetPosition : Position)
  : EdgePositions :=
  {| ep_sourceX := handle_x sourceHandle; ep_sourceY := handle_y sourceHandle;
     ep_targetX := handle_x targetHandle; ep_targetY := handle_y targetHandle |}.

End LegacySamples.

(** * The first store, as a whole *)

(** The writable stores of [createStore] in [index.ts] that its functions
    read or write, the closure variable [fitViewOnInitDone], the
    [fitView] argument of [createStore], and the two object heaps. *)
Module LegacyStore.
Import Legacy.

#[global] Instance legacy_node_element : Element Node := {|
  elemId := node_id;
  elemSelected := node_selected;
  withSelected b n :=
    {| node_id := node_id n; node_position := node_position n;
       node_positionAbsolute := node_positionAbsolute n;
       node_width := node_width n; node_height := node_height n;
       node_parentNode := node_parentNode n; node_selected := Some b;
       node_dragging := node_dragging n; node_deletable := node_deletable n;
       node_type := node_type n; node_data := node_data n;
       node_internals := node_internals n |}
|}.

#[global] Instance legacy_edge_element : Element Edge := {|
  elemId := edge_id;
  elemSelected := edge_selected;
  withSelected b e :=
    {| edge_id := edge_id e; edge_source := edge_source e;
       edge_target := edge_target e; edge_sourceHandle := edge_sourceHandle e;
       edge_targetHandle := edge_targetHandle e; edge_type := edge_type e;
       edge_selected := Some b; edge_deletable := edge_deletable e |}
|}.

(** The d3 zoom behaviour is an external object; its state is the list of
    the transforms it was asked to apply, the latest first.  The d3
    selection is a DOM handle. *)
Definition D3ZoomInstance : Type := list Viewport.
Definition D3SelectionInstance : Type := nat.

Record D3Store := mkD3Store {
  d3_zoom : option D3ZoomInstance;
  d3_selection : option D3SelectionInstance
}.

Record NodeDimensionUpdate := mkDimensionUpdate {
  ndu_id : string;
  ndu_nodeElement : nat;
  ndu_forceUpdate : option bool
}.

(** The argument object of [fitView] of [@reactflow/utils]. *)
Record FitViewParams := mkFitViewParams {
  fvp_nodes : list loc;
  fvp_width : number;
  fvp_height : number;
  fvp_minZoom : Q;
  fvp_maxZoom : Q;
  fvp_d3Selection : D3SelectionInstance;
  fvp_d3Zoom : D3ZoomInstance;
  fvp_nodeOrigin : number * number
}.

Record Store := mkStore {
  nodeHeap : list Node;
  edgeHeap : list Edge;
  nodesStore : list loc;
  edgesStore : list loc;
  heightStore : number;
  widthStore : number;
  nodeOriginStore : number * number;
  d3Store : D3Store;
  selectionRectStore : option SelectionRect;
  selectionRectModeStore : option string;
  multiselectionKeyPressedStore : bool;
  fitViewOnInit : bool;
  fitViewOnInitDone : bool
}.

Definition with_nodeHeap (v : list Node) (s : Store) : Store :=
  {| nodeHeap := v; edgeHeap := edgeHeap s; nodesStore := nodesStore s;
     edgesStore := edgesStore s; heightStore := heightStore s;
     widthStore := widthStore s; nodeOriginStore := nodeOriginStore s;
     d3Store := d3Store s; selectionRectStore := selectionRectStore s;
     selectionRectModeStore := selectionRectModeStore s;
     multiselectionKeyPressedStore := multiselectionKeyPressedStore s;
     fitViewOnInit := fitViewOnInit s;
     fitViewOnInitDone := fitViewOnInitDone s |}.

Definition with_edgeHeap (v : list Edge) (s : Store) : Store :=
  {| nodeHeap := nodeHeap s; edgeHeap := v; nodesStore := nodesStore s;
     edgesStore := edgesStore s; heightStore := heightStore s;
     widthStore := widthStore s; nodeOriginStore := nodeOriginStore s;
     d3Store := d3Store s; selectionRectStore := selectionRectStore s;
     selectionRectModeStore := selectionRectModeStore s;
     multiselectionKeyPressedStore := multiselectionKeyPressedStore s;
     fitViewOnInit := fitViewOnInit s;
     fitViewOnInitDone := fitViewOnInitDone s |}.

Definition with_nodesStore (v : list loc) (s : Store) : Store :=
  {| nodeHeap := nodeHeap s; edgeHeap := edgeHeap s; nodesStore := v;
     edgesStore := edgesStore s; heightStore := heightStore s;
     widthStore := widthStore s; nodeOriginStore := nodeOriginStore s;
     d3Store := d3Store s; selectionRectStore := selectionRectStore s;
     selectionRectModeStore := selectionRectModeStore s;
     multiselectionKeyPressedStore := multiselectionKeyPressedStore s;
     fitViewOnInit := fitViewOnInit s;
     fitViewOnInitDone := fitViewOnInitDone s |}.

Definition with_edgesStore (v : list loc) (s : Store) : Store :=
  {| nodeHeap := nodeHeap s; edgeHeap := edgeHeap s;
     nodesStore := nodesStore s; edgesStore := v;
     heightStore := heightStore s; widthStore := widthStore s;
     nodeOriginStore := nodeOriginStore s; d3Store := d3Store s;
     selectionRectStore := selectionRectStore s;
     selectionRectModeStore := selectionRectModeStore s;
     multiselectionKeyPressedStore := multiselectionKeyPressedStore s;
     fitViewOnInit := fitViewOnInit s;
     fitViewOnInitDone := fitViewOnInitDone s |}.

Definition with_d3Store (v : D3Store) (s : Store) : Store :=
  {| nodeHeap := nodeHeap s; edgeHeap := edgeHeap s;
     nodesStore := nodesStore s; edgesStore := edgesStore s;
     heightStore := heightStore s; widthStore := widthStore s;
     nodeOriginStore := nodeOriginStore s; d3Store := v;
     selectionRectStore := selectionRectStore s;
     selectionRectModeStore := selectionRectModeStore s;
     multiselectionKeyPressedStore := multiselectionKeyPressedStore s;
     fitViewOnInit := fitViewOnInit s;
     fitViewOnInitDone := fitViewOnInitDone s |}.

Definition with_selectionRectStore (v : option SelectionRect) (s : Store) : Store :=
  {| nodeHeap := nodeHeap s; edgeHeap := edgeHeap s;
     nodesStore := nodesStore s; edgesStore := edgesStore s;
     heightStore := heightStore s; widthStore := widthStore s;
     nodeOriginStore := nodeOriginStore s; d3Store := d3Store s;
     selectionRectStore := v;
     selectionRectModeStore := selectionRectModeStore s;
     multiselectionKeyPressedStore := multiselectionKeyPressedStore s;
     fitViewOnInit := fitViewOnInit s;
     fitViewOnInitDone := fitViewOnInitDone s |}.

Definition with_selectionRectModeStore (v : option string) (s : Store) : Store :=
  {| nodeHeap := nodeHeap s; edgeHeap := edgeHeap s;
     nodesStore := nodesStore s; edgesStore := edgesStore s;
     heightStore := heightStore s; widthStore := widthStore s;
     nodeOriginStore := nodeOriginStore s; d3Store := d3Store s;
     selectionRectStore := selectionRectStore s;
     selectionRectModeStore := v;
     multiselectionKeyPressedStore := multiselectionKeyPressedStore s;
     fitViewOnInit := fitViewOnInit s;
     fitViewOnInitDone := fitViewOnInitDone s |}.

Definition with_fitViewOnInitDone (v : bool) (s : Store) : Store :=
  {| nodeHeap := nodeHeap s; edgeHeap := edgeHeap s;
     nodesStore := nodesStore s; edgesStore := edgesStore s;
     heightStore := heightStore s; widthStore := widthStore s;
     nodeOriginStore := nodeOriginStore s; d3Store := d3Store s;
     selectionRectStore := selectionRectStore s;
     selectionRectModeStore := selectionRectModeStore s;
     multiselectionKeyPressedStore := multiselectionKeyPressedStore s;
     fitViewOnInit := fitViewOnInit s; fitViewOnInitDone := v |}.

(** A number is truthy when it is not zero. *)
Definition numberTruthy (n : number) : bool := negb (n =? 0)%Z.

(** [a.f] when the property is there, [b.f] otherwise: one field of
    [{ ...b, ...a }]. *)
Definition orElse {A} (a b : option A) : option A :=
  match a with
  | Some v => Some v
  | None => b
  end.

Section store.

(** [fitView(params, {})] of [@reactflow/utils]: reads the node objects,
    drives the zoom behaviour, and says whether it could fit the view. *)
Variable fitViewUtil : list Node → FitViewParams → bool * D3ZoomInstance.

(** The zoom of the [.react-flow__viewport] element, read off its computed
    style; [None] when the document has no such element. *)
Variable viewportZoom : option number.

(** [getDimensions(nodeElement)] of [@reactflow/utils]: width and height. *)
Variable getDimensions : nat → number * number.

(** [getHandleBounds(selector, nodeElement, zoom)] *)
Variable getHandleBounds : string → nat → number → option (list HandleElement).

Definition setEdges (eds : list loc) (s : Store) : Store :=
  with_edgesStore eds s.

(** [{ ...currentNode, ...n, positionAbsolute: n.position }]; an optional
    field that is [None] is a property the object does not have. *)
Definition mergedNode (currentNode : option Node) (n : Node) : Node :=
  {| node_id := node_id n;
     node_position := node_position n;
     node_positionAbsolute := Some (node_position n);
     node_width := orElse (node_width n) (currentNode ≫= node_width);
     node_height := orElse (node_height n) (currentNode ≫= node_height);
     node_parentNode :=
       orElse (node_parentNode n) (currentNode ≫= node_parentNode);
     node_selected := orElse (node_selected n) (currentNode ≫= node_selected);
     node_dragging := orElse (node_dragging n) (currentNode ≫= node_dragging);
     node_deletable :=
       orElse (node_deletable n) (currentNode ≫= node_deletable);
     node_type := orElse (node_type n) (currentNode ≫= node_type);
     node_data := node_data n;
     node_internals :=
       orElse (node_internals n) (currentNode ≫= node_internals) |}.

(** [currentNodes.find((cn) => cn.id === id)], as an object. *)
Definition currentNodeOf (id : string) (s : Store) : option Node :=
  Heap.findObject (λ cn, String.eqb (node_id cn) id) (nodesStore s) (nodeHeap s)
    ≫= λ r, nodeHeap s !! r.

(** The given nodes are the caller's objects; every node of the new array
    is a new object. *)
Definition setNodes (nds : list Node) (s : Store) : Store :=
  let nextNodes := map (λ n, mergedNode (currentNodeOf (node_id n) s) n) nds in
  with_nodesStore (seq (length (nodeHeap s)) (length nextNodes))
    (with_nodeHeap (nodeHeap s ++ nextNodes) s).

Definition updateNodePositions (nodeDragItems : list NodeDragItem)
    (dragging : bool) (s : Store) : Store :=
  let '(nds, h) :=
    Legacy.updateNodePositions nodeDragItems dragging
      (nodesStore s) (nodeHeap s) in
  with_nodesStore nds (with_nodeHeap h s).

(** What the [map] callback of [updateNodeDimensions] leaves of a node; the
    node is written in place. *)
Definition measuredNode (zoom : number) (updates : list NodeDimensionUpdate)
    (node : Node) : Node :=
  match find (λ u, String.eqb (ndu_id u) (node_id node)) updates with
  | Some update =>
      let dimensions := getDimensions (ndu_nodeElement update) in
      let doUpdate :=
        numberTruthy dimensions.1 && numberTruthy dimensions.2 &&
        (negb (bool_decide (node_width node = Some dimensions.1)) ||
         negb (bool_decide (node_height node = Some dimensions.2)) ||
         truthy (ndu_forceUpdate update)) in
      if doUpdate
      then
        {| node_id := node_id node;
           node_position := node_position node;
           node_positionAbsolute := node_positionAbsolute node;
           node_width := Some dimensions.1;
           node_height := Some dimensions.2;
           node_parentNode := node_parentNode node;
           node_selected := node_selected node;
           node_dragging := node_dragging node;
           node_deletable := node_deletable node;
           node_type := node_type node;
           node_data := node_data node;
           node_internals :=
             Some {| handleBounds :=
                       Some {| hb_source :=
                                 getHandleBounds ".source"
                                   (ndu_nodeElement update) zoom;
                               hb_target :=
                                 getHandleBounds ".target"
                                   (ndu_nodeElement update) zoom |} |} |}
      else node
  | None => node
  end.

Definition _fitView (s : Store) : bool * Store :=
  match d3_zoom (d3Store s), d3_selection (d3Store s) with
  | Some d3Zoom, Some d3Selection =>
      let '(done, d3Zoom') :=
        fitViewUtil (nodeHeap s)
          {| fvp_nodes := nodesStore s;
             fvp_width := widthStore s;
             fvp_height := heightStore s;
             fvp_minZoom := (1 # 5)%Q;
             fvp_maxZoom := (2 # 1)%Q;
             fvp_d3Selection := d3Selection;
             fvp_d3Zoom := d3Zoom;
             fvp_nodeOrigin := nodeOriginStore s |} in
      (done,
       with_d3Store
         {| d3_zoom := Some d3Zoom'; d3_selection := Some d3Selection |} s)
  | _, _ => (false, s)
  end.

(** [fitViewOnInitDone || (fitViewOnInit && !!d3Zoom && !!d3Selection &&
    _fitView())], with its short cuts. *)
Definition fitViewOnInitStep (s : Store) : bool * Store :=
  if fitViewOnInitDone s then (true, s)
  else if fitViewOnInit s && isSome (d3_zoom (d3Store s))
          && isSome (d3_selection (d3Store s))
       then _fitView s
       else (false, s).

Definition updateNodeDimensions (updates : list NodeDimensionUpdate)
    (s : Store) : Store :=
  match viewportZoom with
  | None => s
  | Some zoom =>
      let nextNodes := nodesStore s in
      let s1 :=
        with_nodeHeap
          (Heap.mutObjects (measuredNode zoom updates) (nodesStore s)
             (nodeHeap s)) s in
      let '(done, s2) := fitViewOnInitStep s1 in
      with_nodesStore nextNodes (with_fitViewOnInitDone done s2)
  end.

(** [resetSelectedItem]: [None] when the item itself is returned. *)
Definition resetSelectedItem {A} `{Element A} (item : A) : option A :=
  if truthy (elemSelected item) then Some (withSelected false item) else None.

Definition resetSelectedElements (s : Store) : Store :=
  let '(ns, nh) :=
    Heap.mapObjects resetSelectedItem (nodesStore s) (nodeHeap s) in
  let s1 := with_nodesStore ns (with_nodeHeap nh s) in
  let '(es, eh) :=
    Heap.mapObjects resetSelectedItem (edgesStore s1) (edgeHeap s1) in
  with_edgesStore es (with_edgeHeap eh s1).

(** The whole of [addSelectedNodes]: the selection rectangle is cleared,
    the multi-selection key is read and not used, and every node is
    replaced by a copy. *)
Definition addSelectedNodes (ids : list string) (s : Store) : Store :=
  let s1 := with_selectionRectModeStore None (with_selectionRectStore None s) in
  let '(ns, nh) :=
    Heap.mapObjects
      (λ node, Some (withSelected (includes ids (node_id node)) node))
      (nodesStore s1) (nodeHeap s1) in
  with_nodesStore ns (with_nodeHeap nh s1).

End store.
End LegacyStore.

Module LegacyStoreSamples.
Import Legacy LegacyStore.

(** The sample family in a store with the zoom behaviour attached and a
    fit-view asked for on initialisation. *)
Definition loaded : Store :=
  {| nodeHeap := LegacySamples.family;
     edgeHeap := [LegacySamples.edgeGP; LegacySamples.edgeDangling];
     nodesStore := [0; 1; 2]; edgesStore := [0; 1];
     heightStore := 500%Z; widthStore := 500%Z;
     nodeOriginStore := (0%Z, 0%Z);
     d3Store := {| d3_zoom := Some []; d3_selection := Some 7 |};
     selectionRectStore := None; selectionRectModeStore := None;
     multiselectionKeyPressedStore := true;
     fitViewOnInit := true; fitViewOnInitDone := false |}.

(** A [fitView] utility that always fits. *)
Definition fitAlways (h : list Node) (p : FitViewParams)
  : bool * D3ZoomInstance :=
  (true,
   {| viewport_x := 0%Z; viewport_y := 0%Z; viewport_zoom := 1%Z |}
     :: fvp_d3Zoom p).

(** Every element measures 30 by 40 and has one source handle. *)
Definition measure30x40 (nodeElement : nat) : number * number :=
  (30%Z, 40%Z).

Definition oneHandle (selector : string) (nodeElement : nat) (zoom : number)
  : option (list HandleElement) :=
  Some [LegacySamples.handleOut].

Definition updateG : NodeDimensionUpdate :=
  {| ndu_id := "g"; ndu_nodeElement := 1; ndu_forceUpdate := None |}.

(** A node as a caller of [setNodes] gives it: no size, no handle bounds. *)
Definition bareG : Node :=
  {| node_id := "g"; node_position := {| x := 3%Z; y := 4%Z |};
     node_positionAbsolute := None; node_width := None; node_height := None;
     node_parentNode := None; node_selected := None; node_dragging := None;
     node_deletable := None; node_type := None; node_data := "G2";
     node_internals := None |}.

(** The ids of the selected nodes, and of the selected edges, of a store. *)
Definition selectedNodeIds (s : Store) : list string :=
  omap (λ r, nodeHeap s !! r ≫= λ n,
          if truthy (node_selected n) then Some (node_id n) else None)
       (nodesStore s).

Definition selectedEdgeIds (s : Store) : list string :=
  omap (λ r, edgeHeap s !! r ≫= λ e,
          if truthy (edge_selected e) then Some (edge_id e) else None)
       (edgesStore s).



End LegacyStoreSamples.

(** * The type registries of the first store *)

Module LegacyRegistry.
Section registry.

(** A component is an opaque reference; a registry is an object used as a
    map from type names to components. *)
Variable Component : Type.

(** The built-in node components. *)
Variables InputNode OutputNode DefaultNode : Component.

(** The built-in edge components. *)
Variables StraightEdge SmoothStepEdge BezierEdge : Component.

(** The initial value of [nodeTypesStore]:
    [{ ...nodeTypes, input: nodeTypes.input || InputNode, ... }]. *)
Definition initialNodeTypes (nodeTypes : gmap string Component)
  : gmap string Component :=
  <["default" := default DefaultNode (nodeTypes !! "default")]>
    (<["output" := default OutputNode (nodeTypes !! "output")]>
       (<["input" := default InputNode (nodeTypes !! "input")]> nodeTypes)).

(** The initial value of [edgeTypesStore]. *)
Definition initialEdgeTypes (edgeTypes : gmap string Component)
  : gmap string Component :=
  <["default" := default BezierEdge (edgeTypes !! "default")]>
    (<["smoothstep" := default SmoothStepEdge (edgeTypes !! "smoothstep")]>
       (<["straight" := default StraightEdge (edgeTypes !! "straight")]>
          edgeTypes)).

End registry.
End LegacyRegistry.

(** * Facts about the helpers *)

Lemma includes_elem_of (ids : list string) (i : string) :
  includes ids i = true ↔ i ∈ ids.
Proof.
  unfold includes. rewrite existsb_exists. split.
  - intros (j & Hj & He). apply String.eqb_eq in He. subst j.
    by apply list_elem_of_In.
  - intros Hi. exists i. split; [by apply list_elem_of_In | apply String.eqb_refl].
Qed.

Lemma includes_false (ids : list string) (i : string) :
  includes ids i = false ↔ i ∉ ids.
Proof.
  rewrite <- includes_elem_of. destruct (includes ids i); split; congruence.
Qed.

(** [find] by id answers nothing exactly when no element has the id. *)
Lemma find_id_None {A} (key : A → string) (i : string) (l : list A) :
  find (λ a, String.eqb (key a) i) l = None ↔ i ∉ key <$> l.
Proof.
  induction l as [|a l IH]; simpl.
  - split; [intros _; apply not_elem_of_nil | done].
  - destruct (String.eqb_spec (key a) i) as [He|Hne].
    + split; [done|]. intros Hn. destruct Hn. subst i. apply elem_of_cons. by left.
    + rewrite IH. rewrite not_elem_of_cons. split; [intros ?; split; [congruence | done] | tauto].
Qed.

Lemma find_id_Some {A} (key : A → string) (i : string) (l : list A) (a : A) :
  find (λ a, String.eqb (key a) i) l = Some a → a ∈ l ∧ key a = i.
Proof.
  intros Hf. apply find_some in Hf as [Hin He].
  apply String.eqb_eq in He. split; [by apply list_elem_of_In | done].
Qed.

Section heap_facts.
Context {A : Type}.
Implicit Types (h : list A) (refs : list loc).

Lemma allocated_lookup h refs i r :
  Heap.allocated h refs → refs !! i = Some r → is_Some (h !! r).
Proof.
  intros Ha Hi. apply lookup_lt_is_Some_2.
  eapply (Forall_lookup_1 _ _ _ _ Ha Hi).
Qed.

Lemma allocated_app h k refs :
  Heap.allocated h refs → Heap.allocated (h ++ k) refs.
Proof.
  intros Ha. eapply Forall_impl; [exact Ha|].
  intros r Hr. simpl in *. rewrite length_app. lia.
Qed.

Lemma mapObjects_cons (f : A → option A) r rs h :
  Heap.mapObjects f (r :: rs) h =
    let '(r', h1) :=
      match h !! r ≫= f with
      | Some o' => Heap.alloc o' h
      | None => (r, h)
      end in
    let '(rs', h2) := Heap.mapObjects f rs h1 in
    (r' :: rs', h2).
Proof. reflexivity. Qed.

(** What [mapObjects] returns, position by position: the heap only grows,
    an element the callback keeps stays the same reference, an element it
    replaces becomes a reference that was not allocated before. *)
Lemma mapObjects_spec (f : A → option A) refs : ∀ h refs' h',
  Heap.mapObjects f refs h = (refs', h') →
  Heap.allocated h refs →
  length refs' = length refs ∧
  (∃ k, h' = h ++ k) ∧
  ∀ i r, refs !! i = Some r →
    ∃ o, h !! r = Some o ∧
      match f o with
      | None => refs' !! i = Some r
      | Some o' =>
          ∃ r', refs' !! i = Some r' ∧ length h ≤ r' ∧ h' !! r' = Some o'
      end.
Proof.
  induction refs as [|r rs IH]; intros h refs' h' Hm Ha.
  - inversion Hm; subst. split; [done|]. split; [by exists []; rewrite app_nil_r|].
    intros i r Hi. by rewrite lookup_nil in Hi.
  - apply Forall_cons in Ha as [Hr Hrs].
    destruct (lookup_lt_is_Some_2 h r Hr) as [o Ho].
    rewrite mapObjects_cons, Ho in Hm. simpl in Hm.
    destruct (f o) as [o'|] eqn:Hf.
    + unfold Heap.alloc in Hm.
      destruct (Heap.mapObjects f rs (h ++ [o'])) as [rs' h2] eqn:Hrec.
      inversion Hm; subst refs' h'; clear Hm.
      destruct (IH _ _ _ Hrec (allocated_app h [o'] rs Hrs))
        as (Hlen & [k Hk] & Hpt).
      split; [simpl; by rewrite Hlen|].
      split; [exists ([o'] ++ k); by rewrite Hk, app_assoc|].
      intros [|i] r0 Hi; simpl in Hi.
      * inversion Hi; subst r0. exists o. split; [done|]. rewrite Hf.
        exists (length h). split; [done|]. split; [lia|].
        rewrite Hk, <- app_assoc. simpl. by apply list_lookup_middle.
      * destruct (Hpt i r0 Hi) as (o0 & Ho0 & Hcase).
        assert (Hlt : r0 < length h)
          by (eapply (Forall_lookup_1 _ _ _ _ Hrs Hi)).
        rewrite lookup_app_l in Ho0 by done.
        exists o0. split; [done|].
        destruct (f o0) as [o0'|]; [|done].
        destruct Hcase as (r' & Hr' & Hfresh & Hh').
        exists r'. split; [done|]. split; [|done].
        rewrite length_app in Hfresh. simpl in Hfresh. lia.
    + destruct (Heap.mapObjects f rs h) as [rs' h2] eqn:Hrec.
      inversion Hm; subst refs' h'; clear Hm.
      destruct (IH _ _ _ Hrec Hrs) as (Hlen & Hk & Hpt).
      split; [simpl; by rewrite Hlen|]. split; [done|].
      intros [|i] r0 Hi; simpl in Hi.
      * inversion Hi; subst r0. exists o. split; [done|]. by rewrite Hf.
      * apply (Hpt i r0 Hi).
Qed.

(** Every reference of the result is an old one or a fresh one; this tells
    on which side of the old heap's end it lies. *)
Lemma mapObjects_result_ref (f : A → option A) refs h refs' h' n q r0 :
  Heap.mapObjects f refs h = (refs', h') →
  Heap.allocated h refs →
  refs !! n = Some q → refs' !! n = Some r0 →
  (r0 = q ∧ q < length h) ∨ length h ≤ r0.
Proof.
  intros Hm Ha Hq Hn.
  destruct (mapObjects_spec _ _ _ _ _ Hm Ha) as (_ & _ & Hpt).
  destruct (Hpt n q Hq) as (o & Ho & Hcase).
  assert (q < length h) by (eapply (Forall_lookup_1 _ _ _ _ Ha Hq)).
  destruct (f o).
  - destruct Hcase as (r1 & Hr1 & Hge & _). right. congruence.
  - left. split; [congruence | done].
Qed.

(** The objects created by one [mapObjects] are pairwise distinct: a fresh
    reference sits at one position only. *)
Lemma mapObjects_fresh_once (f : A → option A) refs : ∀ h refs' h' i j r',
  Heap.mapObjects f refs h = (refs', h') →
  Heap.allocated h refs →
  refs' !! i = Some r' → refs' !! j = Some r' → length h ≤ r' → i = j.
Proof.
  induction refs as [|r rs IH]; intros h refs' h' i j r' Hm Ha Hi Hj Hfr.
  - inversion Hm; subst. by rewrite lookup_nil in Hi.
  - apply Forall_cons in Ha as [Hr Hrs]. rewrite mapObjects_cons in Hm.
    destruct (h !! r ≫= f) as [o'|] eqn:Hf.
    + unfold Heap.alloc in Hm.
      destruct (Heap.mapObjects f rs (h ++ [o'])) as [rs' h2] eqn:Hrec.
      inversion Hm; subst refs' h'; clear Hm.
      pose proof (allocated_app h [o'] rs Hrs) as Hrs'.
      destruct (mapObjects_spec _ _ _ _ _ Hrec Hrs') as (Hlen & _ & _).
      assert (Htail : ∀ n r0, rs' !! n = Some r0 →
                r0 < length h ∨ length (h ++ [o']) ≤ r0).
      { intros n r0 Hn.
        destruct (lookup_lt_is_Some_2 rs n) as [q Hq].
        { rewrite <- Hlen. by eapply lookup_lt_Some. }
        destruct (mapObjects_result_ref _ _ _ _ _ _ _ _ Hrec Hrs' Hq Hn)
          as [[-> _]|Hge]; [left|by right].
        eapply (Forall_lookup_1 _ _ _ _ Hrs Hq). }
      destruct i as [|i], j as [|j]; simpl in Hi, Hj; try done.
      * inversion Hi; subst r'.
        destruct (Htail j _ Hj) as [?|Hge]; [lia|].
        rewrite length_app in Hge; simpl in Hge; lia.
      * inversion Hj; subst r'.
        destruct (Htail i _ Hi) as [?|Hge]; [lia|].
        rewrite length_app in Hge; simpl in Hge; lia.
      * f_equal. eapply (IH _ _ _ i j r' Hrec Hrs' Hi Hj).
        destruct (Htail i _ Hi) as [?|Hge]; [lia | done].
    + destruct (Heap.mapObjects f rs h) as [rs' h2] eqn:Hrec.
      inversion Hm; subst refs' h'; clear Hm.
      destruct (mapObjects_spec _ _ _ _ _ Hrec Hrs) as (Hlen & _ & _).
      assert (Htail : ∀ n r0, rs' !! n = Some r0 → length h ≤ r0 →
                ∃ q, rs !! n = Some q).
      { intros n r0 Hn _. apply lookup_lt_is_Some_2.
        rewrite <- Hlen. by eapply lookup_lt_Some. }
      destruct i as [|i], j as [|j]; simpl in Hi, Hj; try done.
      * inversion Hi; subst r'. lia.
      * inversion Hj; subst r'. lia.
      * f_equal. by eapply (IH _ _ _ i j r' Hrec Hrs Hi Hj).
Qed.

(** In-place writes keep every reference and the size of the heap. *)
Lemma mutObjects_length (f : A → A) refs : ∀ h,
  length (Heap.mutObjects f refs h) = length h.
Proof.
  unfold Heap.mutObjects. induction refs as [|r rs IH]; intros h; simpl; [done|].
  by rewrite IH, length_alter.
Qed.

Lemma mutObjects_lookup_notin (f : A → A) refs : ∀ h r,
  r ∉ refs → Heap.mutObjects f refs h !! r = h !! r.
Proof.
  unfold Heap.mutObjects.
  induction refs as [|q rs IH]; intros h r Hr; simpl; [done|].
  apply not_elem_of_cons in Hr as [Hne Hr].
  rewrite IH by done. by apply list_lookup_alter_ne.
Qed.

(** When writing twice is the same as writing once, aliases inside the array
    do not matter: every listed object is written, the others are left
    alone. *)
Lemma mutObjects_lookup_in (f : A → A) refs :
  (∀ o, f (f o) = f o) →
  ∀ h r, r ∈ refs → Heap.mutObjects f refs h !! r = f <$> h !! r.
Proof.
  intros Hidem.
  induction refs as [|q rs IH]; intros h r Hr.
  - by apply elem_of_nil in Hr.
  - change (Heap.mutObjects f (q :: rs) h)
      with (Heap.mutObjects f rs (alter f q h)).
    destruct (decide (r ∈ rs)) as [Hin|Hnin].
    + rewrite IH by done. rewrite list_lookup_alter.
      case_decide; [|done]. subst q.
      destruct (h !! r); simpl; [|done]. by rewrite Hidem.
    + apply elem_of_cons in Hr as [->|Hr]; [|done].
      rewrite mutObjects_lookup_notin by done.
      apply list_lookup_alter_eq.
Qed.

End heap_facts.

Section map_objects_facts.
Context {A : Type}.

(** [mapObjects] as a relation between the two arrays and the two heaps. *)
Lemma mapObjects_identity (f : A → option A) (refs refs' : list loc)
    (h h' : list A) :
  Heap.mapObjects f refs h = (refs', h') →
  Heap.allocated h refs →
  length refs' = length refs ∧
  (∀ r o, h !! r = Some o → h' !! r = Some o) ∧
  ∀ i r, refs !! i = Some r →
    ∃ o r' o',
      h !! r = Some o ∧ refs' !! i = Some r' ∧ h' !! r' = Some o' ∧
      (f o = None → r' = r ∧ o' = o) ∧
      (∀ n, f o = Some n →
         o' = n ∧ h !! r' = None ∧ ∀ j, refs' !! j = Some r' → j = i).
Proof.
  intros Hm Ha.
  destruct (mapObjects_spec _ _ _ _ _ Hm Ha) as (Hlen & [k Hk] & Hpt).
  assert (Hkeep : ∀ r o, h !! r = Some o → h' !! r = Some o).
  { intros r o Ho. subst h'. by apply lookup_app_l_Some. }
  split; [done|]. split; [done|].
  intros i r Hi. destruct (Hpt i r Hi) as (o & Ho & Hcase).
  destruct (f o) as [n|] eqn:Hf.
  - destruct Hcase as (r' & Hr' & Hfresh & Hn).
    exists o, r', n. do 3 (split; [done|]). split; [congruence|].
    intros n0 Hn0. rewrite Hf in Hn0. injection Hn0 as <-. split; [done|]. split.
    + by apply lookup_ge_None.
    + intros j Hj. symmetry.
      eapply (mapObjects_fresh_once _ _ _ _ _ i j r' Hm Ha Hr' Hj Hfresh).
  - exists o, r, o. split; [done|]. split; [done|].
    split; [by apply Hkeep|]. split; [done|]. congruence.
Qed.

End map_objects_facts.

(** * [updateNodePositions] *)

(** C1. [updateNodePositions(D, dragging)] replaces the node array by an
    array of the same length whose element at each position has the id of
    the input element at that position.  No existing object is written.  A
    node whose id matches no item of [D] stays the same reference (and so
    the same object); a node whose id matches an item is a new object, met
    nowhere else in the result, whose position and absolute position are
    those of the first matching item and whose [dragging] flag is the
    supplied one.  This holds for the current store and for the first
    store alike. *)
Theorem updateNodePositions_spec :
  (∀ (D : list Flow.NodeDragItem) (dragging : bool) (s : Flow.Store),
     Heap.allocated (Flow.nodeHeap s) (Flow.nodes s) →
     let s' := Flow.exec (Flow.updateNodePositions D dragging) s in
     length (Flow.nodes s') = length (Flow.nodes s) ∧
     (∀ r o, Flow.nodeHeap s !! r = Some o → Flow.nodeHeap s' !! r = Some o) ∧
     ∀ i r, Flow.nodes s !! i = Some r →
       ∃ node r' node',
         Flow.nodeHeap s !! r = Some node ∧
         Flow.nodes s' !! i = Some r' ∧
         Flow.nodeHeap s' !! r' = Some node' ∧
         Flow.node_id node' = Flow.node_id node ∧
         (Flow.node_id node ∉ Flow.ndi_id <$> D → r' = r ∧ node' = node) ∧
         (∀ ndi,
            find (λ ndi, String.eqb (Flow.ndi_id ndi) (Flow.node_id node)) D
              = Some ndi →
            Flow.nodeHeap s !! r' = None ∧
            (∀ j, Flow.nodes s' !! j = Some r' → j = i) ∧
            Flow.node_position node' = Flow.ndi_position ndi ∧
            Flow.node_computed node' ≫= Flow.positionAbsolute
              = Flow.ndi_computed ndi ≫= Flow.positionAbsolute ∧
            Flow.node_dragging node' = Some dragging)) ∧
  (∀ (D : list Legacy.NodeDragItem) (dragging : bool)
     (nds : list loc) (h : list Legacy.Node),
     Heap.allocated h nds →
     let '(nds', h') := Legacy.updateNodePositions D dragging nds h in
     length nds' = length nds ∧
     (∀ r o, h !! r = Some o → h' !! r = Some o) ∧
     ∀ i r, nds !! i = Some r →
       ∃ node r' node',
         h !! r = Some node ∧
         nds' !! i = Some r' ∧
         h' !! r' = Some node' ∧
         Legacy.node_id node' = Legacy.node_id node ∧
         (Legacy.node_id node ∉ Legacy.ndi_id <$> D → r' = r ∧ node' = node) ∧
         (∀ ndi,
            find (λ ndi, String.eqb (Legacy.ndi_id ndi) (Legacy.node_id node)) D
              = Some ndi →
            h !! r' = None ∧
            (∀ j, nds' !! j = Some r' → j = i) ∧
            Legacy.node_position node' = Legacy.ndi_position ndi ∧
            Legacy.node_positionAbsolute node' = Legacy.ndi_positionAbsolute ndi ∧
            Legacy.node_dragging node' = Some dragging)).
Proof.
  split.
  - intros D dragging s Ha s'. subst s'.
    unfold Flow.exec, Flow.updateNodePositions.
    destruct (Heap.mapObjects _ _ _) as [nds' h'] eqn:Hm. simpl.
    destruct (mapObjects_identity _ _ _ _ _ Hm Ha) as (Hlen & Hkeep & Hpt).
    split; [done|]. split; [done|].
    intros i r Hi.
    destruct (Hpt i r Hi) as (node & r' & node' & Hn & Hr' & Hn' & Hnone & Hsome).
    exists node, r', node'. do 3 (split; [done|]).
    unfold Flow.draggedNode in Hnone, Hsome.
    destruct (find _ D) as [ndi|] eqn:Hf.
    + destruct (Hsome _ eq_refl) as (-> & Hfresh & Honce).
      split; [done|]. split.
      * intros Hnot. apply find_id_None in Hnot. congruence.
      * intros ? [= <-]. done.
    + destruct (Hnone eq_refl) as [-> ->].
      split; [done|]. split; [done|]. intros ? [=].
  - intros D dragging nds h Ha.
    unfold Legacy.updateNodePositions.
    destruct (Heap.mapObjects _ _ _) as [nds' h'] eqn:Hm.
    destruct (mapObjects_identity _ _ _ _ _ Hm Ha) as (Hlen & Hkeep & Hpt).
    split; [done|]. split; [done|].
    intros i r Hi.
    destruct (Hpt i r Hi) as (node & r' & node' & Hn & Hr' & Hn' & Hnone & Hsome).
    exists node, r', node'. do 3 (split; [done|]).
    unfold Legacy.draggedNode in Hnone, Hsome.
    destruct (find _ D) as [ndi|] eqn:Hf.
    + destruct (Hsome _ eq_refl) as (-> & Hfresh & Honce).
      split; [done|]. split.
      * intros Hnot. apply find_id_None in Hnot. congruence.
      * intros ? [= <-]. done.
    + destruct (Hnone eq_refl) as [-> ->].
      split; [done|]. split; [done|]. intros ? [=].
Qed.

Lemma updateNodePositions_spec_witness :
  Heap.allocated (Flow.nodeHeap Samples.detached) (Flow.nodes Samples.detached) ∧
  length
    (Flow.nodes
       (Flow.exec (Flow.updateNodePositions [Samples.dragA] true)
          Samples.detached))
  = length (Flow.nodes Samples.detached).
Proof.
  assert (Ha : Heap.allocated (Flow.nodeHeap Samples.detached)
                 (Flow.nodes Samples.detached))
    by (repeat constructor).
  split; [exact Ha|].
  exact (proj1 (proj1 updateNodePositions_spec [Samples.dragA] true
                  Samples.detached Ha)).
Defined.

(** Dragging [a] in the sample store: the array gets a new object in the
    place of [a] and keeps the reference of [b]. *)
Example updateNodePositions_sample :
  let s' :=
    Flow.exec (Flow.updateNodePositions [Samples.dragA] true) Samples.detached in
  Flow.nodes s' = [2; 1] ∧
  Flow.node_position <$> Flow.nodeHeap s' !! 2
    = Some {| x := 10%Z; y := 20%Z |} ∧
  Flow.nodeHeap s' !! 0 = Some Samples.nodeA ∧
  Flow.nodeHeap s' !! 1 = Some Samples.nodeB.
Proof. repeat split; reflexivity. Qed.

(** * Zoom bounds and translate extent *)

(** C9. Without a pan/zoom engine, [setMinZoom], [setMaxZoom] and
    [setTranslateExtent] return and leave the whole store as it is: the
    bound is dropped, not kept for later.  With an engine, each of them
    calls the engine and writes its own cell, and nothing else. *)
Theorem zoom_bounds_need_engine (s : Flow.Store) (minZoom maxZoom : number)
    (extent : CoordinateExtent) :
  (Flow.panZoom s = None →
     Flow.setMinZoom minZoom s = (tt, s) ∧
     Flow.setMaxZoom maxZoom s = (tt, s) ∧
     Flow.setTranslateExtent extent s = (tt, s)) ∧
  (∀ pz, Flow.panZoom s = Some pz →
     Flow.exec (Flow.setMinZoom minZoom) s =
       Flow.with_writes (Flow.CMinZoom :: Flow.writes s)
         (Flow.with_minZoom minZoom
            (Flow.with_panZoom
               (Some (Flow.SetScaleExtent minZoom (Flow.maxZoom s) :: pz)) s)) ∧
     Flow.exec (Flow.setMaxZoom maxZoom) s =
       Flow.with_writes (Flow.CMaxZoom :: Flow.writes s)
         (Flow.with_maxZoom maxZoom
            (Flow.with_panZoom
               (Some (Flow.SetScaleExtent (Flow.minZoom s) maxZoom :: pz)) s)) ∧
     Flow.exec (Flow.setTranslateExtent extent) s =
       Flow.with_writes (Flow.CTranslateExtent :: Flow.writes s)
         (Flow.with_translateExtent extent
            (Flow.with_panZoom
               (Some (Flow.SetTranslateExtent extent :: pz)) s))).
Proof.
  split.
  - intros Hpz.
    unfold Flow.setMinZoom, Flow.setMaxZoom, Flow.setTranslateExtent.
    unfold mbind, Flow.M_bind, Flow.gets. by rewrite Hpz.
  - intros pz Hpz.
    unfold Flow.exec, Flow.setMinZoom, Flow.setMaxZoom, Flow.setTranslateExtent.
    unfold mbind, Flow.M_bind, Flow.gets. by rewrite Hpz.
Qed.

Lemma zoom_bounds_need_engine_witness :
  Flow.panZoom Samples.detached = None ∧
  Flow.setMinZoom 3%Z Samples.detached = (tt, Samples.detached).
Proof.
  split; [reflexivity|].
  exact (proj1 (proj1 (zoom_bounds_need_engine Samples.detached 3%Z 4%Z
                         ((0%Z, 0%Z), (1%Z, 1%Z))) eq_refl)).
Defined.

(** * [reset] *)

(** C10. [reset] empties the node and edge arrays (so nothing in them is
    selected), clears the selection rectangle, its mode and the snap grid,
    installs a validator that accepts every connection, and puts the
    connection in progress back to its idle value.  It writes to no object
    and leaves the viewport, the engine, the zoom bounds, the translate
    extent, the type registries and the scheduled fit-view as they were. *)
Theorem reset_frame (s : Flow.Store) :
  let s' := Flow.exec Flow.reset s in
  (Flow.nodes s' = [] ∧ Flow.edges s' = [] ∧
   Flow.selectionRect s' = None ∧ Flow.selectionRectMode s' = None ∧
   Flow.snapGrid s' = None ∧
   (∀ c, Flow.isValidConnection s' c = true) ∧
   Flow.currentConnection s' = Flow.initConnectionUpdateData) ∧
  (Flow.viewport s' = Flow.viewport s ∧ Flow.panZoom s' = Flow.panZoom s ∧
   Flow.minZoom s' = Flow.minZoom s ∧ Flow.maxZoom s' = Flow.maxZoom s ∧
   Flow.translateExtent s' = Flow.translateExtent s ∧
   Flow.nodeTypes s' = Flow.nodeTypes s ∧
   Flow.edgeTypes s' = Flow.edgeTypes s ∧
   Flow.fitViewScheduled s' = Flow.fitViewScheduled s ∧
   Flow.nodeHeap s' = Flow.nodeHeap s ∧ Flow.edgeHeap s' = Flow.edgeHeap s) ∧
  Flow.writes s' =
    [Flow.CCurrentConnection; Flow.CEdges; Flow.CNodes;
     Flow.CIsValidConnection; Flow.CSnapGrid; Flow.CSelectionRectMode;
     Flow.CSelectionRect] ++ Flow.writes s.
Proof.
  repeat split.
Qed.

Lemma reset_frame_witness :
  Flow.nodes (Flow.exec Flow.reset Samples.attached) = [] ∧
  Flow.panZoom (Flow.exec Flow.reset Samples.attached) = Some [].
Proof.
  pose proof (reset_frame Samples.attached) as (Hset & Hkeep & _).
  split; [apply Hset | apply Hkeep].
Defined.

(** * [handleNodeSelection] on an id that no node has *)

Lemma findObject_None {A} (p : A → bool) (refs : list loc) (h : list A) :
  (∀ r o, r ∈ refs → h !! r = Some o → p o = false) →
  Heap.findObject p refs h = None.
Proof.
  intros Hall. unfold Heap.findObject.
  induction refs as [|r rs IH]; simpl; [done|].
  destruct (h !! r) as [o|] eqn:Ho; simpl.
  - rewrite (Hall r o); [|by left|done]. apply IH.
    intros r' o' Hr'. apply Hall. by right.
  - apply IH. intros r' o' Hr'. apply Hall. by right.
Qed.

(** C8. When no node of the collection has the id, [handleNodeSelection]
    writes one warning to the console and returns; the store it leaves is
    the store it found, console apart: no cell is written, no object is
    touched.  The function returns on every input, it has no way to throw. *)
Theorem handleNodeSelection_unknown_id (error012 : string → string)
    (id : string) (s : Flow.Store) :
  (∀ r node, r ∈ Flow.nodes s → Flow.nodeHeap s !! r = Some node →
     Flow.node_id node ≠ id) →
  Flow.handleNodeSelection error012 id s =
    (tt, Flow.with_console (("012", error012 id) :: Flow.console s) s).
Proof.
  intros Hno. unfold Flow.handleNodeSelection.
  unfold mbind, Flow.M_bind, Flow.gets.
  rewrite findObject_None; [done|].
  intros r node Hr Hnode. apply String.eqb_neq. by eapply Hno.
Qed.

Lemma handleNodeSelection_unknown_id_witness :
  Flow.exec (Flow.handleNodeSelection Samples.error012 "zz") Samples.detached =
    Flow.with_console [("012", "Node not found: zz")] Samples.detached.
Proof.
  unfold Flow.exec.
  rewrite (handleNodeSelection_unknown_id Samples.error012 "zz" Samples.detached).
  - reflexivity.
  - intros r node Hr Hnode.
    repeat (apply elem_of_cons in Hr as [->|Hr];
            [simpl in Hnode; injection Hnode as <-; discriminate|]).
    by apply elem_of_nil in Hr.
Defined.

(** * [fitView] and the scheduled fit-view *)

(** C5, as the code has it.  Without a pan/zoom engine [fitView] returns
    [false] and leaves the store as it is, whatever the options: the test
    for the engine comes before the test for [waitForInit], so no request is
    registered.  With an engine and [waitForInit] set, it registers the
    options as the pending request and returns [true]; only the
    [fitViewScheduled] cell is written, the engine is not called and the
    viewport keeps its transform. *)
Theorem fitView_engine_first
    (fitViewUtil :
       list Flow.Node → Flow.FitViewParams → option Flow.FitViewOptions →
       bool * Flow.PanZoom)
    (nds : list loc) (options : option Flow.FitViewOptions) (s : Flow.Store) :
  (Flow.panZoom s = None →
     Flow.fitView fitViewUtil nds options s = (false, s)) ∧
  (∀ pz o,
     Flow.panZoom s = Some pz → options = Some o →
     truthy (Flow.fvo_waitForInit o) = true →
     Flow.fitView fitViewUtil nds options s =
       (true,
        Flow.with_writes (Flow.CFitViewScheduled :: Flow.writes s)
          (Flow.with_fitViewScheduled (Flow.FvsOptions o) s))).
Proof.
  split.
  - intros Hpz. unfold Flow.fitView, mbind, Flow.M_bind, Flow.gets.
    by rewrite Hpz.
  - intros pz o Hpz -> Hwait.
    unfold Flow.fitView, mbind, Flow.M_bind, Flow.gets.
    by rewrite Hpz, Hwait.
Qed.

Lemma fitView_engine_first_witness :
  Flow.panZoom Samples.detached = None ∧
  Flow.fitView Samples.fitWhenNodes [0; 1] (Some Samples.waitOptions)
    Samples.detached = (false, Samples.detached).
Proof.
  split; [reflexivity|].
  exact (proj1 (fitView_engine_first Samples.fitWhenNodes [0; 1]
                  (Some Samples.waitOptions) Samples.detached) eq_refl).
Defined.

(** C5, as stated, fails: with no engine attached and [waitForInit]
    requested, [fitView] neither returns [true] nor registers a request. *)
Lemma fitView_waitForInit_counterexample :
  ¬ (Flow.panZoom Samples.detached = None →
     truthy (Flow.fvo_waitForInit Samples.waitOptions) = true →
     Flow.eval (Flow.fitViewAction Samples.fitWhenNodes
                  (Some Samples.waitOptions)) Samples.detached = true ∧
     Flow.fitViewScheduled
       (Flow.exec (Flow.fitViewAction Samples.fitWhenNodes
                     (Some Samples.waitOptions)) Samples.detached)
     = Flow.FvsOptions Samples.waitOptions).
Proof.
  intros H. destruct (H eq_refl eq_refl) as [Hret _].
  vm_compute in Hret. discriminate.
Qed.

Section fit_view_facts.
Variable fitViewUtil :
  list Flow.Node → Flow.FitViewParams → option Flow.FitViewOptions →
  bool * Flow.PanZoom.

(** The options of a retry never ask to wait. *)
Lemma scheduledFitViewOptions_no_wait (v : Flow.FitViewScheduled)
    (nextNodes : list loc) :
  truthy (Flow.fvo_waitForInit (Flow.scheduledFitViewOptions v nextNodes))
  = false.
Proof. by destruct v. Qed.

(** A fit-view that does not wait leaves every cell alone; only the engine
    may have moved. *)
Lemma fitView_no_wait_cells (nds : list loc) (o : Flow.FitViewOptions)
    (s : Flow.Store) :
  truthy (Flow.fvo_waitForInit o) = false →
  let s' := (Flow.fitView fitViewUtil nds (Some o) s).2 in
  Flow.fitViewScheduled s' = Flow.fitViewScheduled s ∧
  Flow.writes s' = Flow.writes s ∧
  Flow.nodes s' = Flow.nodes s ∧
  Flow.nodeHeap s' = Flow.nodeHeap s.
Proof.
  intros Hw. unfold Flow.fitView, mbind, Flow.M_bind, Flow.gets.
  destruct (Flow.panZoom s) as [pz|]; [|done].
  rewrite Hw. unfold Flow.callFitViewUtil.
  by destruct (fitViewUtil _ _ _).
Qed.

End fit_view_facts.

(** C6. When [updateNodeDimensions] has measurements to apply and a fit-view
    is scheduled, it retries the fit-view before it stores the nodes.  With
    an engine attached it calls [fitViewUtil] once: on the measured node
    objects and the measured node array, with the size, zoom bounds, engine
    and node origin of the store, and with options that do not ask to wait:
    [{ nodes: nextNodes }] for a request scheduled as [true]; the scheduled
    options with [waitForInit: false] and their own [nodes], or the measured
    ones when they name none, otherwise.  When the utility answers [true]
    the [fitViewScheduled] cell is set to [false].  When it answers [false],
    or when no engine is attached (the utility is then not called), the cell
    is not written and keeps its truthy value: the next dimension update
    retries.  In every case the measured nodes are stored last. *)
Theorem updateNodeDimensions_retries_fitView
    (fitViewUtil :
       list Flow.Node → Flow.FitViewParams → option Flow.FitViewOptions →
       bool * Flow.PanZoom)
    (updateNodeDimensionsSystem :
       list (string * Flow.NodeDimensionUpdate) → list loc →
       list (string * loc) → option Flow.DomNode → number * number →
       list Flow.Node → option (list loc) * list Flow.Node)
    (updates : list (string * Flow.NodeDimensionUpdate))
    (s : Flow.Store) (nextNodes : list loc) (measured : list Flow.Node) :
  updateNodeDimensionsSystem updates (Flow.nodes s) (Flow.nodeLookup s)
    (Flow.domNode s) (Flow.nodeOrigin s) (Flow.nodeHeap s)
    = (Some nextNodes, measured) →
  Flow.fvsTruthy (Flow.fitViewScheduled s) = true →
  let fitViewOptions :=
    match Flow.fitViewScheduled s with
    | Flow.FvsBool _ =>
        {| Flow.fvo_padding := None; Flow.fvo_includeHiddenNodes := None;
           Flow.fvo_minZoom := None; Flow.fvo_maxZoom := None;
           Flow.fvo_duration := None; Flow.fvo_nodes := Some nextNodes;
           Flow.fvo_waitForInit := None |}
    | Flow.FvsOptions scheduled =>
        {| Flow.fvo_padding := Flow.fvo_padding scheduled;
           Flow.fvo_includeHiddenNodes := Flow.fvo_includeHiddenNodes scheduled;
           Flow.fvo_minZoom := Flow.fvo_minZoom scheduled;
           Flow.fvo_maxZoom := Flow.fvo_maxZoom scheduled;
           Flow.fvo_duration := Flow.fvo_duration scheduled;
           Flow.fvo_nodes :=
             Some (default nextNodes (Flow.fvo_nodes scheduled));
           Flow.fvo_waitForInit := Some false |}
    end in
  let fitted :=
    match Flow.panZoom s with
    | None => None
    | Some panZoom =>
        Some (fitViewUtil measured
                {| Flow.fvp_nodes := nextNodes;
                   Flow.fvp_width := Flow.width s;
                   Flow.fvp_height := Flow.height s;
                   Flow.fvp_minZoom := Flow.minZoom s;
                   Flow.fvp_maxZoom := Flow.maxZoom s;
                   Flow.fvp_panZoom := panZoom;
                   Flow.fvp_nodeOrigin := Flow.nodeOrigin s |}
                (Some fitViewOptions))
    end in
  let s' :=
    Flow.exec
      (Flow.updateNodeDimensions fitViewUtil updateNodeDimensionsSystem updates)
      s in
  s' =
    match fitted with
    | Some (true, panZoom') =>
        Flow.with_writes
          (Flow.CNodes :: Flow.CFitViewScheduled :: Flow.writes s)
          (Flow.with_nodes nextNodes
             (Flow.with_fitViewScheduled (Flow.FvsBool false)
                (Flow.with_panZoom (Some panZoom')
                   (Flow.with_nodeHeap measured s))))
    | Some (false, panZoom') =>
        Flow.with_writes (Flow.CNodes :: Flow.writes s)
          (Flow.with_nodes nextNodes
             (Flow.with_panZoom (Some panZoom')
                (Flow.with_nodeHeap measured s)))
    | None =>
        Flow.with_writes (Flow.CNodes :: Flow.writes s)
          (Flow.with_nodes nextNodes (Flow.with_nodeHeap measured s))
    end ∧
  Flow.fitViewScheduled s' =
    match fitted with
    | Some (true, _) => Flow.FvsBool false
    | _ => Flow.fitViewScheduled s
    end ∧
  Flow.fvsTruthy (Flow.fitViewScheduled s') =
    match fitted with
    | Some (true, _) => false
    | _ => true
    end.
Proof.
  intros Hupd Hsched fitViewOptions fitted s'.
  assert (Hwait : truthy (Flow.fvo_waitForInit fitViewOptions) = false).
  { subst fitViewOptions. by destruct (Flow.fitViewScheduled s). }
  assert (Hopts :
    Flow.scheduledFitViewOptions (Flow.fitViewScheduled s) nextNodes
    = fitViewOptions).
  { subst fitViewOptions. by destruct (Flow.fitViewScheduled s). }
  assert (Hrun : s' =
    match fitted with
    | Some (true, panZoom') =>
        Flow.with_writes
          (Flow.CNodes :: Flow.CFitViewScheduled :: Flow.writes s)
          (Flow.with_nodes nextNodes
             (Flow.with_fitViewScheduled (Flow.FvsBool false)
                (Flow.with_panZoom (Some panZoom')
                   (Flow.with_nodeHeap measured s))))
    | Some (false, panZoom') =>
        Flow.with_writes (Flow.CNodes :: Flow.writes s)
          (Flow.with_nodes nextNodes
             (Flow.with_panZoom (Some panZoom')
                (Flow.with_nodeHeap measured s)))
    | None =>
        Flow.with_writes (Flow.CNodes :: Flow.writes s)
          (Flow.with_nodes nextNodes (Flow.with_nodeHeap measured s))
    end).
  { subst s' fitted. unfold Flow.exec, Flow.updateNodeDimensions.
    unfold mbind, Flow.M_bind, Flow.gets, Flow.callUpdateNodeDimensionsSystem.
    rewrite Hupd. cbn [Flow.fitViewScheduled Flow.with_nodeHeap].
    rewrite Hsched, Hopts.
    unfold Flow.fitView, mbind, Flow.M_bind, Flow.gets.
    change (Flow.panZoom (Flow.with_nodeHeap measured s))
      with (Flow.panZoom s).
    destruct (Flow.panZoom s) as [panZoom|]; [|reflexivity].
    cbv beta iota. rewrite Hwait. unfold Flow.callFitViewUtil.
    cbn [Flow.nodeHeap Flow.width Flow.height Flow.minZoom Flow.maxZoom
         Flow.nodeOrigin Flow.with_nodeHeap].
    by destruct (fitViewUtil _ _ _) as [[] panZoom']. }
  split; [exact Hrun|].
  rewrite Hrun.
  destruct fitted as [[[] panZoom']|]; by rewrite ?Hsched.
Qed.

Lemma updateNodeDimensions_retries_fitView_witness :
  let waiting :=
    Flow.with_fitViewScheduled (Flow.FvsOptions Samples.waitOptions)
      Samples.attached in
  let s' :=
    Flow.exec
      (Flow.updateNodeDimensions Samples.fitWhenNodes Samples.measureAll [])
      waiting in
  Flow.fitViewScheduled s' = Flow.FvsBool false ∧
  Flow.panZoom s' =
    Some [Flow.SetViewport
            {| viewport_x := 0%Z; viewport_y := 0%Z; viewport_zoom := 1%Z |}].
Proof.
  destruct (updateNodeDimensions_retries_fitView
              Samples.fitWhenNodes Samples.measureAll []
              (Flow.with_fitViewScheduled (Flow.FvsOptions Samples.waitOptions)
                 Samples.attached)
              [0; 1] (Flow.nodeHeap Samples.attached) eq_refl eq_refl)
    as (Hrun & Hflag & _).
  split; [exact Hflag | exact (f_equal Flow.panZoom Hrun)].
Defined.

(** Before the engine is attached the retry fails and the request stays
    scheduled; once it is attached the next update fits the view. *)
Example updateNodeDimensions_retry_until_attached :
  let update :=
    Flow.updateNodeDimensions Samples.fitWhenNodes Samples.measureAll [] in
  let early := Flow.exec update Samples.detached in
  Flow.fitViewScheduled early = Flow.FvsBool true ∧
  Flow.fitViewScheduled
    (Flow.exec update (Flow.with_panZoom (Some []) early))
  = Flow.FvsBool false.
Proof. split; reflexivity. Qed.

(** * Selection *)

(** The two kinds of element behave as records with a [selected] field. *)
Lemma node_selected_withSelected (b : bool) (n : Flow.Node) :
  Flow.node_selected (withSelected b n) = Some b.
Proof. reflexivity. Qed.

Lemma edge_selected_withSelected (b : bool) (e : Flow.Edge) :
  Flow.edge_selected (withSelected b e) = Some b.
Proof. reflexivity. Qed.

Section reset_selected_facts.
Context {A : Type} `{Element A}.
Hypothesis selected_withSelected :
  ∀ (b : bool) (o : A), elemSelected (withSelected b o) = Some b.

(** The loop of [resetSelectedElements], from any point on: the flag is
    raised when a listed element is selected, every listed element ends up
    unselected, and no other object is written. *)
Lemma resetSelectedStep_fold (elements : list loc) : ∀ (c : bool) (h : list A),
  let res := foldl Flow.resetSelectedStep (c, h) elements in
  res.1 =
    c || existsb (λ r, from_option (λ o, truthy (elemSelected o)) false (h !! r))
           elements ∧
  ∀ r,
    res.2 !! r =
      if decide (r ∈ elements)
      then (λ o, if truthy (elemSelected o) then withSelected false o else o)
             <$> h !! r
      else h !! r.
Proof.
  induction elements as [|r0 rest IH]; intros c h res.
  - subst res. split; [simpl; by rewrite orb_false_r|]. intros r.
    case_decide as Hin; [by apply elem_of_nil in Hin | done].
  - subst res. cbn [foldl existsb].
    assert (Hstep : Flow.resetSelectedStep (c, h) r0 =
      match h !! r0 with
      | Some element =>
          if truthy (elemSelected element)
          then (true, <[r0:=withSelected false element]> h)
          else (c, h)
      | None => (c, h)
      end) by reflexivity.
    rewrite Hstep. clear Hstep.
    destruct (h !! r0) as [el|] eqn:Hel; cbn [from_option].
    + destruct (truthy (elemSelected el)) eqn:Hsel.
      * destruct (IH true (<[r0:=withSelected false el]> h)) as [Hflag Hheap].
        split; [by rewrite Hflag, orb_true_r|].
        intros r. rewrite Hheap.
        assert (Hlt : r0 < length h) by (by eapply lookup_lt_Some).
        destruct (decide (r = r0)) as [->|Hne].
        -- rewrite list_lookup_insert_eq by done. rewrite Hel.
           destruct (decide (r0 ∈ r0 :: rest)) as [_|Hn];
             [|destruct Hn; by left].
           cbn [fmap option_fmap option_map]. rewrite Hsel.
           case_decide; [|done].
           cbn [fmap option_fmap option_map].
           by rewrite selected_withSelected.
        -- rewrite list_lookup_insert_ne by done.
           destruct (decide (r ∈ rest)) as [Hin|Hnin].
           ++ destruct (decide (r ∈ r0 :: rest)) as [_|Hn];
                [done | destruct Hn; by right].
           ++ destruct (decide (r ∈ r0 :: rest)) as [Hn|_]; [|done].
              apply elem_of_cons in Hn as [?|?]; done.
      * destruct (IH c h) as [Hflag Hheap].
        split; [by rewrite Hflag|].
        intros r. rewrite Hheap.
        destruct (decide (r ∈ rest)) as [Hin|Hnin].
        -- destruct (decide (r ∈ r0 :: rest)) as [_|Hn];
             [done | destruct Hn; by right].
        -- destruct (decide (r ∈ r0 :: rest)) as [Hn|_]; [|done].
           apply elem_of_cons in Hn as [->|?]; [|done].
           rewrite Hel. cbn [fmap option_fmap option_map]. by rewrite Hsel.
    + destruct (IH c h) as [Hflag Hheap].
      split; [by rewrite Hflag|].
      intros r. rewrite Hheap.
      destruct (decide (r ∈ rest)) as [Hin|Hnin].
      * destruct (decide (r ∈ r0 :: rest)) as [_|Hn];
          [done | destruct Hn; by right].
      * destruct (decide (r ∈ r0 :: rest)) as [Hn|_]; [|done].
        apply elem_of_cons in Hn as [->|?]; [|done].
        by rewrite Hel.
Qed.

Lemma resetSelectedElements_spec (elements : list loc) (h : list A) :
  let res := Flow.resetSelectedElements elements h in
  res.1 =
    existsb (λ r, from_option (λ o, truthy (elemSelected o)) false (h !! r))
      elements ∧
  (∀ r, r ∈ elements →
     res.2 !! r =
       (λ o, if truthy (elemSelected o) then withSelected false o else o)
         <$> h !! r) ∧
  (∀ r, r ∉ elements → res.2 !! r = h !! r).
Proof.
  destruct (resetSelectedStep_fold elements false h) as [Hflag Hheap].
  split; [exact Hflag|]. split; intros r Hr.
  - unfold Flow.resetSelectedElements. rewrite Hheap. by rewrite decide_True.
  - unfold Flow.resetSelectedElements. rewrite Hheap. by rewrite decide_False.
Qed.

End reset_selected_facts.

(** [unselectNodesAndEdges], run: the node pass, then the edge pass. *)
Lemma unselectNodesAndEdges_run (params : option Flow.UnselectParams)
    (s : Flow.Store) :
  Flow.exec (Flow.unselectNodesAndEdges params) s =
    let rn :=
      Flow.resetSelectedElements
        (default (Flow.nodes s) (params ≫= Flow.up_nodes)) (Flow.nodeHeap s) in
    let re :=
      Flow.resetSelectedElements
        (default (Flow.edges s) (params ≫= Flow.up_edges)) (Flow.edgeHeap s) in
    let s1 := Flow.with_nodeHeap rn.2 s in
    let s2 :=
      if rn.1
      then Flow.with_writes (Flow.CNodes :: Flow.writes s1)
             (Flow.with_nodes (Flow.nodes s1) s1)
      else s1 in
    let s3 := Flow.with_edgeHeap re.2 s2 in
    if re.1
    then Flow.with_writes (Flow.CEdges :: Flow.writes s3)
           (Flow.with_edges (Flow.edges s3) s3)
    else s3.
Proof.
  unfold Flow.exec, Flow.unselectNodesAndEdges, mbind, Flow.M_bind, Flow.gets,
    Flow.resetSelectedNodes, Flow.resetSelectedEdges.
  destruct params as [[[pn|] [pe|]]|]; cbn -[Flow.resetSelectedElements];
    (destruct (Flow.resetSelectedElements _ (Flow.nodeHeap s)) as [[] hn];
     cbn -[Flow.resetSelectedElements];
     destruct (Flow.resetSelectedElements _ (Flow.edgeHeap s)) as [[] he];
     reflexivity).
Qed.

(** C7. [unselectNodesAndEdges] clears [selected] on the nodes and edges it
    is given, on those of the store for a kind it is not given; every such
    element ends up unselected and no other object is written.  It calls
    [set] on the node cell exactly when one of those nodes was selected, and
    on the edge cell exactly when one of those edges was selected; the value
    it writes is the array the cell already holds, so with no selected
    element the cell sees no write at all. *)
Theorem unselectNodesAndEdges_writes (params : option Flow.UnselectParams)
    (s : Flow.Store) :
  let ns := default (Flow.nodes s) (params ≫= Flow.up_nodes) in
  let es := default (Flow.edges s) (params ≫= Flow.up_edges) in
  let nodeWasSelected :=
    existsb
      (λ r, from_option (λ o, truthy (Flow.node_selected o)) false
              (Flow.nodeHeap s !! r)) ns in
  let edgeWasSelected :=
    existsb
      (λ r, from_option (λ o, truthy (Flow.edge_selected o)) false
              (Flow.edgeHeap s !! r)) es in
  let s' := Flow.exec (Flow.unselectNodesAndEdges params) s in
  (∀ r, r ∈ ns →
     Flow.nodeHeap s' !! r =
       (λ o, if truthy (Flow.node_selected o) then withSelected false o else o)
         <$> Flow.nodeHeap s !! r) ∧
  (∀ r o, r ∈ ns → Flow.nodeHeap s' !! r = Some o →
     truthy (Flow.node_selected o) = false) ∧
  (∀ r, r ∉ ns → Flow.nodeHeap s' !! r = Flow.nodeHeap s !! r) ∧
  (∀ r, r ∈ es →
     Flow.edgeHeap s' !! r =
       (λ o, if truthy (Flow.edge_selected o) then withSelected false o else o)
         <$> Flow.edgeHeap s !! r) ∧
  (∀ r o, r ∈ es → Flow.edgeHeap s' !! r = Some o →
     truthy (Flow.edge_selected o) = false) ∧
  (∀ r, r ∉ es → Flow.edgeHeap s' !! r = Flow.edgeHeap s !! r) ∧
  Flow.nodes s' = Flow.nodes s ∧
  Flow.edges s' = Flow.edges s ∧
  Flow.writes s' =
    (if edgeWasSelected then [Flow.CEdges] else []) ++
    (if nodeWasSelected then [Flow.CNodes] else []) ++ Flow.writes s.
Proof.
  intros ns es nodeWasSelected edgeWasSelected s'.
  destruct (@resetSelectedElements_spec Flow.Node Flow.node_element
              node_selected_withSelected ns
              (Flow.nodeHeap s)) as (Hnf & Hnin & Hnout).
  destruct (@resetSelectedElements_spec Flow.Edge Flow.edge_element
              edge_selected_withSelected es
              (Flow.edgeHeap s)) as (Hef & Hein & Heout).
  fold nodeWasSelected in Hnf. fold edgeWasSelected in Hef.
  assert (Hs' : s' =
    let s1 := Flow.with_nodeHeap (Flow.resetSelectedElements ns (Flow.nodeHeap s)).2 s in
    let s2 := if nodeWasSelected
              then Flow.with_writes (Flow.CNodes :: Flow.writes s1)
                     (Flow.with_nodes (Flow.nodes s1) s1)
              else s1 in
    let s3 := Flow.with_edgeHeap (Flow.resetSelectedElements es (Flow.edgeHeap s)).2 s2 in
    if edgeWasSelected
    then Flow.with_writes (Flow.CEdges :: Flow.writes s3)
           (Flow.with_edges (Flow.edges s3) s3)
    else s3).
  { subst s'. rewrite unselectNodesAndEdges_run. cbv zeta.
    fold ns es. by rewrite Hnf, Hef. }
  assert (Hnh : Flow.nodeHeap s' =
                (Flow.resetSelectedElements ns (Flow.nodeHeap s)).2).
  { rewrite Hs'. by destruct nodeWasSelected, edgeWasSelected. }
  assert (Heh : Flow.edgeHeap s' =
                (Flow.resetSelectedElements es (Flow.edgeHeap s)).2).
  { rewrite Hs'. by destruct nodeWasSelected, edgeWasSelected. }
  rewrite Hnh, Heh.
  split; [exact Hnin|]. split.
  { intros r o Hr Ho. rewrite Hnin in Ho by done.
    destruct (Flow.nodeHeap s !! r) as [o0|]; [|done].
    simpl in Ho. injection Ho as <-.
    destruct (truthy (Flow.node_selected o0)) eqn:Hsel; [done | exact Hsel]. }
  split; [exact Hnout|]. split; [exact Hein|]. split.
  { intros r o Hr Ho. rewrite Hein in Ho by done.
    destruct (Flow.edgeHeap s !! r) as [o0|]; [|done].
    simpl in Ho. injection Ho as <-.
    destruct (truthy (Flow.edge_selected o0)) eqn:Hsel; [done | exact Hsel]. }
  split; [exact Heout|].
  rewrite Hs'. by destruct nodeWasSelected, edgeWasSelected.
Qed.

Lemma unselectNodesAndEdges_writes_witness :
  Flow.writes (Flow.exec (Flow.unselectNodesAndEdges None) Samples.detached)
  = [Flow.CEdges; Flow.CNodes] ∧
  Flow.writes
    (Flow.exec (Flow.unselectNodesAndEdges None)
       (Flow.exec (Flow.unselectNodesAndEdges None) Samples.detached))
  = [Flow.CEdges; Flow.CNodes].
Proof.
  split.
  - apply (unselectNodesAndEdges_writes None Samples.detached).
  - apply (unselectNodesAndEdges_writes None
             (Flow.exec (Flow.unselectNodesAndEdges None) Samples.detached)).
Defined.

(** Writing the flag twice is writing it once. *)
Lemma selectElement_node_idem (multi : bool) (ids : list string)
    (n : Flow.Node) :
  Flow.selectElement multi ids (Flow.selectElement multi ids n)
  = Flow.selectElement multi ids n.
Proof.
  destruct n as [i p c pa sel d de t da int].
  unfold Flow.selectElement. simpl.
  destruct multi; simpl; [|done].
  by destruct (truthy sel), (includes ids i).
Qed.

Lemma selectElement_edge_idem (multi : bool) (ids : list string)
    (e : Flow.Edge) :
  Flow.selectElement multi ids (Flow.selectElement multi ids e)
  = Flow.selectElement multi ids e.
Proof.
  destruct e as [i so ta sh th t sel de].
  unfold Flow.selectElement. simpl.
  destruct multi; simpl; [|done].
  by destruct (truthy sel), (includes ids i).
Qed.

Lemma withSelected_node_idem (b : bool) (n : Flow.Node) :
  withSelected b (withSelected b n) = withSelected b n.
Proof. reflexivity. Qed.

Lemma withSelected_edge_idem (b : bool) (e : Flow.Edge) :
  withSelected b (withSelected b e) = withSelected b e.
Proof. reflexivity. Qed.

(** X19. In the current store [addSelectedNodes(ids)] keeps both arrays and
    writes the [selected] flag of every node of the collection in place.
    With the multi-selection key held a node is selected afterwards when it
    was selected or its id is in [ids], and no edge object is written.
    Without the key a node is selected afterwards exactly when its id is in
    [ids], and every edge of the collection has its flag set to [false].
    [addSelectedEdges(ids)] does the same with nodes and edges swapped. *)
Theorem addSelected_selection (ids : list string) (s : Flow.Store) :
  (let s' := Flow.exec (Flow.addSelectedNodes ids) s in
   Flow.nodes s' = Flow.nodes s ∧ Flow.edges s' = Flow.edges s ∧
   (∀ r, r ∉ Flow.nodes s → Flow.nodeHeap s' !! r = Flow.nodeHeap s !! r) ∧
   (∀ r, r ∉ Flow.edges s → Flow.edgeHeap s' !! r = Flow.edgeHeap s !! r) ∧
   if Flow.multiselectionKeyPressed s
   then
     (∀ r, r ∈ Flow.nodes s →
        Flow.nodeHeap s' !! r =
          (λ n, withSelected
                  (truthy (Flow.node_selected n) || includes ids (Flow.node_id n))
                  n) <$> Flow.nodeHeap s !! r) ∧
     Flow.edgeHeap s' = Flow.edgeHeap s
   else
     (∀ r, r ∈ Flow.nodes s →
        Flow.nodeHeap s' !! r =
          (λ n, withSelected (includes ids (Flow.node_id n)) n)
            <$> Flow.nodeHeap s !! r) ∧
     (∀ r, r ∈ Flow.edges s →
        Flow.edgeHeap s' !! r = withSelected false <$> Flow.edgeHeap s !! r)) ∧
  (let s' := Flow.exec (Flow.addSelectedEdges ids) s in
   Flow.nodes s' = Flow.nodes s ∧ Flow.edges s' = Flow.edges s ∧
   (∀ r, r ∉ Flow.nodes s → Flow.nodeHeap s' !! r = Flow.nodeHeap s !! r) ∧
   (∀ r, r ∉ Flow.edges s → Flow.edgeHeap s' !! r = Flow.edgeHeap s !! r) ∧
   if Flow.multiselectionKeyPressed s
   then
     (∀ r, r ∈ Flow.edges s →
        Flow.edgeHeap s' !! r =
          (λ e, withSelected
                  (truthy (Flow.edge_selected e) || includes ids (Flow.edge_id e))
                  e) <$> Flow.edgeHeap s !! r) ∧
     Flow.nodeHeap s' = Flow.nodeHeap s
   else
     (∀ r, r ∈ Flow.edges s →
        Flow.edgeHeap s' !! r =
          (λ e, withSelected (includes ids (Flow.edge_id e)) e)
            <$> Flow.edgeHeap s !! r) ∧
     (∀ r, r ∈ Flow.nodes s →
        Flow.nodeHeap s' !! r = withSelected false <$> Flow.nodeHeap s !! r)).
Proof.
  split.
  - unfold Flow.exec, Flow.addSelectedNodes, mbind, Flow.M_bind, Flow.gets,
      Flow.updateNodesInPlace, Flow.updateEdgesInPlace, Flow.modify.
    destruct (Flow.multiselectionKeyPressed s) eqn:Hmulti; simpl.
    + split; [done|]. split; [done|].
      split; [intros r Hr; by apply mutObjects_lookup_notin|].
      split; [done|]. split; [|done].
      intros r Hr.
      rewrite (mutObjects_lookup_in _ _ (selectElement_node_idem true ids)) by done.
      done.
    + split; [done|]. split; [done|].
      split; [intros r Hr; by apply mutObjects_lookup_notin|].
      split; [intros r Hr; by apply mutObjects_lookup_notin|].
      split; intros r Hr.
      * rewrite (mutObjects_lookup_in _ _ (selectElement_node_idem false ids))
          by done.
        done.
      * by rewrite (mutObjects_lookup_in _ _ (withSelected_edge_idem false)).
  - unfold Flow.exec, Flow.addSelectedEdges, mbind, Flow.M_bind, Flow.gets,
      Flow.updateNodesInPlace, Flow.updateEdgesInPlace, Flow.modify.
    destruct (Flow.multiselectionKeyPressed s) eqn:Hmulti; simpl.
    + split; [done|]. split; [done|]. split; [done|].
      split; [intros r Hr; by apply mutObjects_lookup_notin|].
      split; [|done].
      intros r Hr.
      rewrite (mutObjects_lookup_in _ _ (selectElement_edge_idem true ids)) by done.
      done.
    + split; [done|]. split; [done|].
      split; [intros r Hr; by apply mutObjects_lookup_notin|].
      split; [intros r Hr; by apply mutObjects_lookup_notin|].
      split; intros r Hr.
      * rewrite (mutObjects_lookup_in _ _ (selectElement_edge_idem false ids))
          by done.
        done.
      * by rewrite (mutObjects_lookup_in _ _ (withSelected_node_idem false)).
Qed.

Lemma addSelected_selection_witness :
  Flow.nodeHeap (Flow.exec (Flow.addSelectedNodes ["b"]) Samples.detached) !! 1
  = Some (withSelected true Samples.nodeB) ∧
  Flow.edgeHeap (Flow.exec (Flow.addSelectedNodes ["b"]) Samples.detached) !! 0
  = Some (withSelected false Samples.edgeAB).
Proof.
  pose proof (proj1 (addSelected_selection ["b"] Samples.detached))
    as (_ & _ & _ & _ & Hnodes & Hedges).
  split.
  - apply (Hnodes 1). right. left.
  - apply (Hedges 0). left.
Defined.

(** The example of the specification: selecting [a] and then [b] leaves
    exactly [b] selected and no edge selected; with the multi-selection key
    held both nodes are selected and the edge selection stays. *)
Example addSelectedNodes_twice :
  let once := Flow.exec (Flow.addSelectedNodes ["a"]) Samples.detached in
  let twice := Flow.exec (Flow.addSelectedNodes ["b"]) once in
  let held :=
    Flow.exec (Flow.addSelectedNodes ["b"])
      (Flow.exec (Flow.addSelectedNodes ["a"]) Samples.multiSelecting) in
  Samples.selectedNodeIds twice = ["b"] ∧
  Samples.selectedEdgeIds twice = [] ∧
  Samples.selectedNodeIds held = ["a"; "b"] ∧
  Samples.selectedEdgeIds held = ["e1"].
Proof. repeat split; reflexivity. Qed.

(** In the first store [addSelectedNodes] has no multi-selection yet:
    whatever the key, a node is selected afterwards exactly when its id is
    in [ids]. *)
Lemma legacy_addSelectedNodes_replaces (ids : list string)
    (ns : list Legacy.Node) :
  Legacy.node_id <$> Legacy.addSelectedNodes ids ns = Legacy.node_id <$> ns ∧
  ∀ n, n ∈ Legacy.addSelectedNodes ids ns →
    Legacy.node_selected n = Some (includes ids (Legacy.node_id n)).
Proof.
  unfold Legacy.addSelectedNodes. split.
  - induction ns as [|n ns IH]; [done|]. cbn. f_equal. exact IH.
  - intros n Hn. apply list_elem_of_In, in_map_iff in Hn as (n0 & <- & _).
    done.
Qed.


(** * The visible edges of the first store *)

(** [getHandle] answers with a resolved handle; with an explicit id, with
    the handle that has this id. *)
Lemma getHandle_resolved (bounds : option (list HandleElement))
    (handleId : option string) (h : HandleElement) :
  Legacy.getHandle bounds handleId = Some h →
  Legacy.resolvedHandle (default [] bounds) handleId h ∧
  ∀ i, handleId = Some i → handle_id h = Some i.
Proof.
  unfold Legacy.getHandle. destruct bounds as [handles|]; [|done].
  destruct handleId as [i|]; simpl; intros Hg.
  - apply find_some in Hg as [Hin Hid].
    apply bool_decide_eq_true in Hid. apply list_elem_of_In in Hin.
    split; [|by intros j [= <-]].
    split; [done|]. split; [by intros j [= <-] _|].
    intros Hno. destruct (Hno i eq_refl).
    apply list_elem_of_fmap. by exists h.
  - split; [|done]. split; [by eapply head_Some_elem_of|]. by split.
Qed.

(** It answers with a handle exactly when a matching handle exists. *)
Lemma getHandle_matching (bounds : option (list HandleElement))
    (handleId : option string) :
  is_Some (Legacy.getHandle bounds handleId) ↔
  Legacy.matchingHandle (default [] bounds) handleId.
Proof.
  unfold Legacy.getHandle, Legacy.matchingHandle.
  destruct handleId as [i|].
  - destruct bounds as [handles|]; simpl.
    + split.
      * intros [h Hf]. apply find_some in Hf as [Hin Hid].
        apply bool_decide_eq_true in Hid. apply list_elem_of_In in Hin.
        apply list_elem_of_fmap. by exists h.
      * intros Hin. apply list_elem_of_fmap in Hin as (h & Hid & Hin).
        destruct (find _ handles) as [h0|] eqn:Hf; [by exists h0|].
        apply list_elem_of_In in Hin.
        pose proof (find_none _ _ Hf h Hin) as Hfalse. simpl in Hfalse.
        apply bool_decide_eq_false in Hfalse. congruence.
    + split; [by intros [h Hh]|]. intros Hin. by apply elem_of_nil in Hin.
  - destruct bounds as [[|h handles]|]; simpl.
    + split; [by intros [h Hh]|done].
    + split; [done|]. intros _. by exists h.
    + split; [by intros [h Hh]|done].
Qed.

(** A node with known geometry is a node, and has handle bounds. *)
Lemma getNodeData_valid (node : option Legacy.Node) :
  (Legacy.getNodeData node).2 = true →
  ∃ n hb, node = Some n ∧ (Legacy.getNodeData node).1.2 = Some hb.
Proof.
  unfold Legacy.getNodeData. simpl.
  destruct node as [n|]; simpl; [|done].
  destruct (Legacy.node_internals n ≫= handleBounds) as [hb|]; simpl; [|done].
  intros _. by exists n, hb.
Qed.

(** [getNodeData] says a node is valid exactly when it is there and its
    geometry is known. *)
Lemma getNodeData_known (node : option Legacy.Node) :
  (Legacy.getNodeData node).2 = true ↔
  ∃ n, node = Some n ∧ Legacy.knownGeometry n.
Proof.
  unfold Legacy.getNodeData, Legacy.knownGeometry. simpl. split.
  - destruct node as [n|]; simpl; [|done]. intros Hv.
    exists n. split; [done|].
    destruct (Legacy.node_internals n ≫= handleBounds) as [hb|],
      (Legacy.node_width n) as [w|], (Legacy.node_height n) as [h|],
      (Legacy.node_positionAbsolute n) as [p|]; try discriminate Hv.
    repeat split; by eexists.
  - intros (n & -> & [w Hw] & [h Hh] & [p Hp] & [hb Hb]). simpl.
    by rewrite Hw, Hh, Hp, Hb.
Qed.

Section projection_facts.
Variable getEdgePositions :
  Rect → HandleElement → Position → Rect → HandleElement → Position →
  Legacy.EdgePositions.

(** The callback of the projection without its throwing branch: once both
    nodes are valid their handle bounds are there to be read. *)
Lemma edgeWithData_normal (nds : list Legacy.Node) (edge : Legacy.Edge) :
  let sourceNode :=
    find (λ node, String.eqb (Legacy.node_id node) (Legacy.edge_source edge)) nds in
  let targetNode :=
    find (λ node, String.eqb (Legacy.node_id node) (Legacy.edge_target edge)) nds in
  let source := Legacy.getNodeData sourceNode in
  let target := Legacy.getNodeData targetNode in
  Legacy.edgeWithData getEdgePositions nds edge =
    if negb source.2 || negb target.2 then Legacy.Returns None
    else
      match
        Legacy.getHandle (source.1.2 ≫= hb_source) (Legacy.edge_sourceHandle edge),
        Legacy.getHandle (target.1.2 ≫= hb_target) (Legacy.edge_targetHandle edge)
      with
      | Some sourceHandle, Some targetHandle =>
          let p :=
            getEdgePositions source.1.1 sourceHandle
              (handle_position sourceHandle) target.1.1 targetHandle
              (handle_position targetHandle) in
          Legacy.Returns
            (Some {| Legacy.wrap_edge := edge;
                     Legacy.wrap_type := stringOr (Legacy.edge_type edge) "default";
                     Legacy.sourceX := Legacy.ep_sourceX p;
                     Legacy.sourceY := Legacy.ep_sourceY p;
                     Legacy.targetX := Legacy.ep_targetX p;
                     Legacy.targetY := Legacy.ep_targetY p;
                     Legacy.sourcePosition := handle_position sourceHandle;
                     Legacy.targetPosition := handle_position targetHandle;
                     Legacy.sourceHandleId := Legacy.edge_sourceHandle edge;
                     Legacy.targetHandleId := Legacy.edge_targetHandle edge |})
      | _, _ => Legacy.Returns None
      end.
Proof.
  intros sourceNode targetNode source target.
  unfold Legacy.edgeWithData. fold sourceNode targetNode.
  pose proof (getNodeData_valid sourceNode) as Hsv.
  pose proof (getNodeData_valid targetNode) as Htv.
  fold source in Hsv |- *. fold target in Htv |- *.
  destruct source as [[sr sb] sv], target as [[tr tb] tv]. simpl in *.
  destruct sv, tv; simpl; try done.
  destruct (Hsv eq_refl) as (? & shb & _ & ->).
  destruct (Htv eq_refl) as (? & thb & _ & ->).
  simpl.
  destruct (Legacy.getHandle (hb_source shb) _) as [sh|]; [|done].
  by destruct (Legacy.getHandle (hb_target thb) _) as [th|].
Qed.

(** The projection is the list of the answers of the callback. *)
Lemma edgesWithData_members (nds : list Legacy.Node) (eds : list Legacy.Edge) :
  ∃ visible,
    Legacy.edgesWithData getEdgePositions eds nds = Legacy.Returns visible ∧
    ∀ w, w ∈ visible ↔
      ∃ e, e ∈ eds ∧
        Legacy.edgeWithData getEdgePositions nds e = Legacy.Returns (Some w).
Proof.
  induction eds as [|e eds (visible & Hrun & Hmem)]; simpl.
  - exists []. split; [done|]. intros w. split.
    + intros Hw. by apply elem_of_nil in Hw.
    + intros (e & He & _). by apply elem_of_nil in He.
  - rewrite Hrun.
    destruct (Legacy.edgeWithData getEdgePositions nds e) as [r|] eqn:Hr.
    + exists (from_option (λ w, [w]) [] r ++ visible). split; [done|].
      intros w. rewrite elem_of_app, Hmem. split.
      * intros [Hw|(e0 & He0 & Hw)].
        -- destruct r as [w0|]; simpl in Hw; [|by apply elem_of_nil in Hw].
           apply list_elem_of_singleton in Hw as ->.
           exists e. split; [by left | done].
        -- exists e0. split; [by right | done].
      * intros (e0 & He0 & Hw). apply elem_of_cons in He0 as [->|He0].
        -- left. rewrite Hr in Hw. injection Hw as ->. simpl. by left.
        -- right. by exists e0.
    + rewrite edgeWithData_normal in Hr. cbv zeta in Hr.
      destruct (negb _ || negb _); [done|].
      destruct (Legacy.getHandle _ _); [|done].
      by destruct (Legacy.getHandle _ _).
Qed.

(** What the callback answers for an edge, in the words of the
    specification: the edge is rendered exactly when both end nodes are in
    the node collection with known geometry and a matching handle exists on
    each side; it is then rendered with the resolved handles. *)
Lemma edgeWithData_rendered (nds : list Legacy.Node) (e : Legacy.Edge) :
  let sourceNode :=
    find (λ node, String.eqb (Legacy.node_id node) (Legacy.edge_source e)) nds in
  let targetNode :=
    find (λ node, String.eqb (Legacy.node_id node) (Legacy.edge_target e)) nds in
  (∀ w, Legacy.edgeWithData getEdgePositions nds e = Legacy.Returns (Some w) →
     Legacy.wrap_edge w = e ∧
     ∃ sn tn sh th,
       sourceNode = Some sn ∧ targetNode = Some tn ∧
       Legacy.knownGeometry sn ∧ Legacy.knownGeometry tn ∧
       Legacy.getHandle ((Legacy.node_internals sn ≫= handleBounds) ≫= hb_source)
         (Legacy.edge_sourceHandle e) = Some sh ∧
       Legacy.getHandle ((Legacy.node_internals tn ≫= handleBounds) ≫= hb_target)
         (Legacy.edge_targetHandle e) = Some th ∧
       Legacy.sourcePosition w = handle_position sh ∧
       Legacy.targetPosition w = handle_position th) ∧
  (∀ sn tn,
     sourceNode = Some sn → targetNode = Some tn →
     Legacy.knownGeometry sn → Legacy.knownGeometry tn →
     Legacy.matchingHandle (Legacy.sourceHandles sn) (Legacy.edge_sourceHandle e) →
     Legacy.matchingHandle (Legacy.targetHandles tn) (Legacy.edge_targetHandle e) →
     ∃ w, Legacy.edgeWithData getEdgePositions nds e = Legacy.Returns (Some w) ∧
          Legacy.wrap_edge w = e).
Proof.
  intros sourceNode targetNode. split.
  - intros w Hw. rewrite edgeWithData_normal in Hw. cbv zeta in Hw.
    fold sourceNode targetNode in Hw.
    destruct (Legacy.getNodeData sourceNode).2 eqn:Hsv; [|done].
    destruct (Legacy.getNodeData targetNode).2 eqn:Htv; [|done].
    apply getNodeData_known in Hsv as (sn & Hsn & Hsk).
    apply getNodeData_known in Htv as (tn & Htn & Htk).
    rewrite Hsn, Htn in Hw. simpl in Hw.
    destruct (Legacy.getHandle _ (Legacy.edge_sourceHandle e)) as [sh|] eqn:Hsh;
      [|done].
    destruct (Legacy.getHandle _ (Legacy.edge_targetHandle e)) as [th|] eqn:Hth;
      [|done].
    injection Hw as <-. split; [done|].
    by exists sn, tn, sh, th.
  - intros sn tn Hsn Htn Hsk Htk Hsm Htm.
    rewrite edgeWithData_normal. cbv zeta. fold sourceNode targetNode.
    rewrite (proj2 (getNodeData_known sourceNode))
      by (by exists sn).
    rewrite (proj2 (getNodeData_known targetNode))
      by (by exists tn).
    rewrite Hsn, Htn. simpl.
    apply getHandle_matching in Hsm as [sh Hsh].
    apply getHandle_matching in Htm as [th Hth].
    rewrite Hsh, Hth. by eexists.
Qed.

End projection_facts.

(** C4. The edge projection never throws.  An edge is in it only when its
    source and target nodes are found in the node collection, the geometry
    of both is known (width, height, absolute position and handle bounds),
    and each side has a resolved handle: the handle its explicit id names
    when the node has such a handle of the role, the first handle of the
    role otherwise; an edge that names a handle is rendered with that very
    handle, and the rendered sides are those of the two handles.  An edge
    with an absent end node, with an end node of unknown geometry, or with
    no matching handle on one side (the node has no handle of the role, or
    none with the id the edge names) is left out.  Every other edge of the
    collection is in the projection. *)
Theorem edgesWithData_visible
    (getEdgePositions :
       Rect → HandleElement → Position → Rect → HandleElement → Position →
       Legacy.EdgePositions)
    (eds : list Legacy.Edge) (nds : list Legacy.Node) :
  let sourceOf e :=
    find (λ node, String.eqb (Legacy.node_id node) (Legacy.edge_source e)) nds in
  let targetOf e :=
    find (λ node, String.eqb (Legacy.node_id node) (Legacy.edge_target e)) nds in
  ∃ visible,
    Legacy.edgesWithData getEdgePositions eds nds = Legacy.Returns visible ∧
    (∀ w, w ∈ visible →
       let e := Legacy.wrap_edge w in
       e ∈ eds ∧
       ∃ sourceNode targetNode sourceHandle targetHandle,
         sourceOf e = Some sourceNode ∧ targetOf e = Some targetNode ∧
         Legacy.knownGeometry sourceNode ∧ Legacy.knownGeometry targetNode ∧
         Legacy.resolvedHandle (Legacy.sourceHandles sourceNode)
           (Legacy.edge_sourceHandle e) sourceHandle ∧
         Legacy.resolvedHandle (Legacy.targetHandles targetNode)
           (Legacy.edge_targetHandle e) targetHandle ∧
         (∀ i, Legacy.edge_sourceHandle e = Some i →
            handle_id sourceHandle = Some i) ∧
         (∀ i, Legacy.edge_targetHandle e = Some i →
            handle_id targetHandle = Some i) ∧
         Legacy.sourcePosition w = handle_position sourceHandle ∧
         Legacy.targetPosition w = handle_position targetHandle) ∧
    (∀ e,
       sourceOf e = None ∨ targetOf e = None ∨
       (∃ n, sourceOf e = Some n ∧ ¬ Legacy.knownGeometry n) ∨
       (∃ n, targetOf e = Some n ∧ ¬ Legacy.knownGeometry n) ∨
       (∃ n, sourceOf e = Some n ∧
          ¬ Legacy.matchingHandle (Legacy.sourceHandles n)
              (Legacy.edge_sourceHandle e)) ∨
       (∃ n, targetOf e = Some n ∧
          ¬ Legacy.matchingHandle (Legacy.targetHandles n)
              (Legacy.edge_targetHandle e)) →
       e ∉ (Legacy.wrap_edge <$> visible)) ∧
    (∀ e sourceNode targetNode,
       e ∈ eds →
       sourceOf e = Some sourceNode → targetOf e = Some targetNode →
       Legacy.knownGeometry sourceNode → Legacy.knownGeometry targetNode →
       Legacy.matchingHandle (Legacy.sourceHandles sourceNode)
         (Legacy.edge_sourceHandle e) →
       Legacy.matchingHandle (Legacy.targetHandles targetNode)
         (Legacy.edge_targetHandle e) →
       e ∈ (Legacy.wrap_edge <$> visible)).
Proof.
  intros sourceOf targetOf.
  destruct (edgesWithData_members getEdgePositions nds eds)
    as (visible & Hrun & Hmem).
  exists visible. split; [exact Hrun|].
  assert (Hshape : ∀ w, w ∈ visible →
    Legacy.wrap_edge w ∈ eds ∧
    ∃ sn tn sh th,
      sourceOf (Legacy.wrap_edge w) = Some sn ∧
      targetOf (Legacy.wrap_edge w) = Some tn ∧
      Legacy.knownGeometry sn ∧ Legacy.knownGeometry tn ∧
      Legacy.getHandle
        ((Legacy.node_internals sn ≫= handleBounds) ≫= hb_source)
        (Legacy.edge_sourceHandle (Legacy.wrap_edge w)) = Some sh ∧
      Legacy.getHandle
        ((Legacy.node_internals tn ≫= handleBounds) ≫= hb_target)
        (Legacy.edge_targetHandle (Legacy.wrap_edge w)) = Some th ∧
      Legacy.sourcePosition w = handle_position sh ∧
      Legacy.targetPosition w = handle_position th).
  { intros w Hw. apply Hmem in Hw as (e & He & Hw).
    apply (edgeWithData_rendered getEdgePositions) in Hw as [-> Hw].
    by split. }
  split; [|split].
  - intros w Hw e.
    destruct (Hshape w Hw)
      as (He & sn & tn & sh & th & Hsn & Htn & Hsk & Htk & Hsh & Hth & Hsp & Htp).
    split; [exact He|].
    apply getHandle_resolved in Hsh as [Hsres Hsid].
    apply getHandle_resolved in Hth as [Htres Htid].
    by exists sn, tn, sh, th.
  - intros e Hex Hin.
    apply list_elem_of_fmap in Hin as (w & -> & Hw).
    destruct (Hshape w Hw)
      as (_ & sn & tn & sh & th & Hsn & Htn & Hsk & Htk & Hsh & Hth & _).
    assert (Hsm : Legacy.matchingHandle (Legacy.sourceHandles sn)
                    (Legacy.edge_sourceHandle (Legacy.wrap_edge w))).
    { apply getHandle_matching. by exists sh. }
    assert (Htm : Legacy.matchingHandle (Legacy.targetHandles tn)
                    (Legacy.edge_targetHandle (Legacy.wrap_edge w))).
    { apply getHandle_matching. by exists th. }
    destruct Hex as [Hs|[Ht|[(n & Hn & Hno)|[(n & Hn & Hno)|[(n & Hn & Hno)|
                     (n & Hn & Hno)]]]]]; congruence.
  - intros e sn tn He Hsn Htn Hsk Htk Hsm Htm.
    destruct (proj2 (edgeWithData_rendered getEdgePositions nds e)
                sn tn Hsn Htn Hsk Htk Hsm Htm) as (w & Hw & Hwe).
    apply list_elem_of_fmap. exists w. split; [done|].
    apply Hmem. by exists e.
Qed.

Lemma edgesWithData_visible_witness :
  ∃ visible,
    Legacy.edgesWithData LegacySamples.anchors
      [LegacySamples.edgeGP; LegacySamples.edgeMissingHandle;
       LegacySamples.edgeDangling]
      LegacySamples.family = Legacy.Returns visible ∧
    LegacySamples.edgeGP ∈ (Legacy.wrap_edge <$> visible) ∧
    (LegacySamples.edgeMissingHandle ∉ (Legacy.wrap_edge <$> visible)) ∧
    LegacySamples.edgeDangling ∉ (Legacy.wrap_edge <$> visible).
Proof.
  destruct (edgesWithData_visible LegacySamples.anchors
              [LegacySamples.edgeGP; LegacySamples.edgeMissingHandle;
               LegacySamples.edgeDangling]
              LegacySamples.family)
    as (visible & Hrun & _ & Hout & Hin).
  exists visible. split; [exact Hrun|]. split; [|split].
  - apply (Hin LegacySamples.edgeGP LegacySamples.nodeG LegacySamples.nodeP).
    + left.
    + reflexivity.
    + reflexivity.
    + by repeat split.
    + by repeat split.
    + simpl. left.
    + simpl. discriminate.
  - apply Hout. do 5 right. exists LegacySamples.nodeC.
    split; [reflexivity|]. simpl. intros Hm.
    apply list_elem_of_singleton in Hm. discriminate Hm.
  - apply Hout. right. left. reflexivity.
Defined.

(** On the sample family the edge between two measured nodes is visible; the
    edge to a handle its target does not have, and the dangling edge, are
    not. *)
Example edgesWithData_sample :
  Legacy.wrap_edge <$>
    match
      Legacy.edgesWithData LegacySamples.anchors
        [LegacySamples.edgeGP; LegacySamples.edgeMissingHandle;
         LegacySamples.edgeDangling] LegacySamples.family
    with
    | Legacy.Returns visible => visible
    | Legacy.Throws => []
    end
  = [LegacySamples.edgeGP].
Proof. reflexivity. Qed.

(** * Deletion in the first store *)

Lemma filter_elem_of {A} (f : A → bool) (l : list A) (a : A) :
  a ∈ List.filter f l ↔ a ∈ l ∧ f a = true.
Proof. rewrite !list_elem_of_In. apply filter_In. Qed.

Lemma isSome_find_id {A} (key : A → string) (i : string) (l : list A) :
  isSome (find (λ a, String.eqb (key a) i) l) = true ↔ i ∈ key <$> l.
Proof.
  destruct (find _ l) as [a|] eqn:Hf; simpl.
  - split; [intros _|done]. apply find_id_Some in Hf as [Hin <-].
    by apply list_elem_of_fmap_2.
  - split; [done|]. intros Hin. by apply find_id_None in Hf.
Qed.

Lemma stringTruthy_true (s : string) :
  stringTruthy s = true ↔ s ≠ "".
Proof.
  unfold stringTruthy. rewrite negb_true_iff. apply String.eqb_neq.
Qed.

(** When the [reduce] callback pushes the node. *)
Lemma nodesToRemoveStep_pushes (nodeIds : list string)
    (res : list Legacy.Node) (node : Legacy.Node) :
  let pushed :=
    boolOrTrue (Legacy.node_deletable node) = true ∧
    (Legacy.node_id node ∈ nodeIds ∨
     ∃ parent, Legacy.node_parentNode node = Some parent ∧
       parent ≠ "" ∧ parent ∈ Legacy.node_id <$> res) in
  (pushed ∧ Legacy.nodesToRemoveStep nodeIds res node = res ++ [node]) ∨
  (¬ pushed ∧ Legacy.nodesToRemoveStep nodeIds res node = res).
Proof.
  unfold Legacy.nodesToRemoveStep.
  destruct (boolOrTrue (Legacy.node_deletable node)) eqn:Hdel; simpl.
  2: { right. split; [|done]. intros [? _]. done. }
  destruct (includes nodeIds (Legacy.node_id node)) eqn:Hinc; simpl.
  { apply includes_elem_of in Hinc. left. split; [|done].
    split; [done | by left]. }
  apply includes_false in Hinc.
  destruct (Legacy.node_parentNode node) as [parent|] eqn:Hpar; simpl.
  2: { right. split; [|done]. intros [_ [?|(? & ? & _)]]; done. }
  destruct (stringTruthy parent) eqn:Htruthy; simpl.
  2: { right. split; [|done].
       intros [_ [?|(? & [= <-] & Hne & _)]]; [done|].
       apply stringTruthy_true in Hne. congruence. }
  apply stringTruthy_true in Htruthy.
  destruct (isSome (find _ res)) eqn:Hfind.
  - apply isSome_find_id in Hfind. left. split; [|done].
    split; [done|]. right. by exists parent.
  - right. split; [|done].
    intros [_ [?|(? & [= <-] & _ & Hin)]]; [done|].
    apply isSome_find_id in Hin. congruence.
Qed.

Lemma nodesToRemove_snoc (nodeIds : list string) (nds : list Legacy.Node)
    (node : Legacy.Node) :
  Legacy.nodesToRemove nodeIds (nds ++ [node]) =
    Legacy.nodesToRemoveStep nodeIds (Legacy.nodesToRemove nodeIds nds) node.
Proof. unfold Legacy.nodesToRemove. by rewrite foldl_snoc. Qed.

(** The removal list, node by node: a node of the collection is listed when
    it may be deleted and either has the id of a selected node or has, as
    its parent, a node listed before it. *)
Lemma nodesToRemove_listed (nodeIds : list string) (nds : list Legacy.Node)
    (n : Legacy.Node) :
  n ∈ Legacy.nodesToRemove nodeIds nds ↔
    ∃ before after,
      nds = before ++ n :: after ∧
      boolOrTrue (Legacy.node_deletable n) = true ∧
      (Legacy.node_id n ∈ nodeIds ∨
       ∃ parent, Legacy.node_parentNode n = Some parent ∧ parent ≠ "" ∧
         parent ∈ Legacy.node_id <$> Legacy.nodesToRemove nodeIds before).
Proof.
  induction nds as [|m l IH] using rev_ind.
  - split.
    + intros Hn. by apply elem_of_nil in Hn.
    + intros (before & after & Heq & _). by destruct before.
  - rewrite nodesToRemove_snoc.
    destruct (nodesToRemoveStep_pushes nodeIds
                (Legacy.nodesToRemove nodeIds l) m)
      as [[Hpush ->]|[Hskip ->]].
    + split.
      * intros Hn. apply elem_of_app in Hn as [Hn|Hn].
        -- apply IH in Hn as (before & after & -> & Hrest).
           exists before, (after ++ [m]). split; [|done].
           by rewrite <- app_assoc.
        -- apply list_elem_of_singleton in Hn as ->.
           exists l, []. done.
      * intros (before & after & Heq & Hrest).
        destruct after as [|a after _] using rev_ind.
        -- apply app_inj_tail in Heq as [-> ->].
           apply elem_of_app. right. by left.
        -- rewrite app_comm_cons, app_assoc in Heq.
           apply app_inj_tail in Heq as [-> ->].
           apply elem_of_app. left. apply IH. by exists before, after.
    + split.
      * intros Hn. apply IH in Hn as (before & after & -> & Hrest).
        exists before, (after ++ [m]). split; [|done].
        by rewrite <- app_assoc.
      * intros (before & after & Heq & Hrest).
        destruct after as [|a after _] using rev_ind.
        -- apply app_inj_tail in Heq as [-> ->]. by destruct Hskip.
        -- rewrite app_comm_cons, app_assoc in Heq.
           apply app_inj_tail in Heq as [-> ->].
           apply IH. by exists before, after.
Qed.

(** The ids collected for removal are the ids of the edges to remove. *)
Lemma edgeIdsToRemove_elem_of (l : list Legacy.Edge) (i : string) :
  i ∈ Legacy.edgeIdsToRemove l ↔ i ∈ Legacy.edge_id <$> l.
Proof.
  unfold Legacy.edgeIdsToRemove. revert i.
  induction l as [|e l IH] using rev_ind; intros i; [done|].
  rewrite foldl_snoc, fmap_app, elem_of_app. simpl.
  destruct (includes _ (Legacy.edge_id e)) eqn:Hinc.
  - apply includes_elem_of, IH in Hinc. rewrite IH.
    split; [by left|]. intros [?|Hi]; [done|].
    apply list_elem_of_singleton in Hi as ->. done.
  - rewrite elem_of_app, IH. done.
Qed.

(** * Deletion in the current store *)

Lemma filterObjects_elem_of {A} (p : A → bool) (refs : list loc) (h : list A)
    (r : loc) :
  r ∈ Heap.filterObjects p refs h ↔
    r ∈ refs ∧ ∃ o, h !! r = Some o ∧ p o = true.
Proof.
  unfold Heap.filterObjects. rewrite filter_elem_of.
  destruct (h !! r) as [o|]; simpl.
  - split; [intros [? ?]; split; [done | by exists o]|].
    intros [? (o' & [= <-] & ?)]. done.
  - split; [intros [_ ?]; done | intros [_ (o & ? & _)]; done].
Qed.

Lemma someSameId_true {A} `{Element A} (matching : list loc) (h : list A)
    (element : A) :
  Flow.someSameId matching h element = true ↔
    ∃ m o, m ∈ matching ∧ h !! m = Some o ∧ elemId o = elemId element.
Proof.
  unfold Flow.someSameId. rewrite existsb_exists. split.
  - intros (m & Hm & Hsame). apply list_elem_of_In in Hm.
    destruct (h !! m) as [o|] eqn:Ho; simpl in Hsame; [|done].
    apply String.eqb_eq in Hsame. by exists m, o.
  - intros (m & o & Hm & Ho & Hsame). exists m.
    split; [by apply list_elem_of_In|].
    rewrite Ho. simpl. by apply String.eqb_eq.
Qed.

Section delete_facts.
Variable getElementsToRemove :
  list Flow.Node → list Flow.Edge → list loc → list loc → list loc → list loc →
  list loc * list loc.

(** The subscriber, run on a pressed key. *)
Lemma onDeleteKeyPressed_run (s : Flow.Store) :
  Flow.exec (Flow.onDeleteKeyPressed getElementsToRemove true) s =
    let matching :=
      getElementsToRemove (Flow.nodeHeap s) (Flow.edgeHeap s)
        (Heap.filterObjects (λ node, truthy (Flow.node_selected node))
           (Flow.nodes s) (Flow.nodeHeap s))
        (Heap.filterObjects (λ edge, truthy (Flow.edge_selected edge))
           (Flow.edges s) (Flow.edgeHeap s))
        (Flow.nodes s) (Flow.edges s) in
    if negb (length matching.1 =? 0) || negb (length matching.2 =? 0)
    then
      let s2 :=
        Flow.with_writes (Flow.CEdges :: Flow.CNodes :: Flow.writes s)
          (Flow.with_edges
             (Heap.filterObjects
                (λ edge, negb (Flow.someSameId matching.2 (Flow.edgeHeap s) edge))
                (Flow.edges s) (Flow.edgeHeap s))
             (Flow.with_nodes
                (Heap.filterObjects
                   (λ node,
                      negb (Flow.someSameId matching.1 (Flow.nodeHeap s) node))
                   (Flow.nodes s) (Flow.nodeHeap s)) s)) in
      if Flow.ondelete s
      then Flow.with_ondeleteCalls (matching :: Flow.ondeleteCalls s) s2
      else s2
    else s.
Proof.
  unfold Flow.exec, Flow.onDeleteKeyPressed, mbind, Flow.M_bind, Flow.gets,
    Flow.modify.
  cbv zeta.
  destruct (getElementsToRemove _ _ _ _ _ _) as [mN mE]. simpl.
  destruct (negb (length mN =? 0) || negb (length mE =? 0)); [|done].
  simpl. by destruct (Flow.ondelete s).
Qed.

End delete_facts.

(** C2, as the code has it.  In the first store the subscriber builds its
    removal list in one pass over the node collection: a node is listed
    when it may be deleted and either has the id of a selected node or has,
    as its parent, a node listed before it; a node with [deletable: false]
    is never listed.  The edges it removes are those with the id of a
    deletable edge that has the id of a selected edge or whose source or
    target is the id of a listed node.  In the current store the nodes and
    edges removed are those with the id of a node or edge that
    [getElementsToRemove] answered with, and nothing changes when it
    answered with none. *)
Theorem deleteKeyPressed_removal :
  (∀ (nds : list Legacy.Node) (eds : list Legacy.Edge),
     let nodeIds :=
       Legacy.node_id <$>
         List.filter (λ node, truthy (Legacy.node_selected node)) nds in
     let edgeIds :=
       Legacy.edge_id <$>
         List.filter (λ edge, truthy (Legacy.edge_selected edge)) eds in
     let listed := Legacy.nodesToRemove nodeIds nds in
     (∀ n, n ∈ listed ↔
        ∃ before after,
          nds = before ++ n :: after ∧
          boolOrTrue (Legacy.node_deletable n) = true ∧
          (Legacy.node_id n ∈ nodeIds ∨
           ∃ parent, Legacy.node_parentNode n = Some parent ∧ parent ≠ "" ∧
             parent ∈ Legacy.node_id <$> Legacy.nodesToRemove nodeIds before)) ∧
     (∀ n, n ∈ listed → Legacy.node_deletable n ≠ Some false) ∧
     (∀ e, e ∈ (Legacy.onDeleteKeyPressed true nds eds).2 ↔
        e ∈ eds ∧
        ¬ ∃ e', e' ∈ eds ∧ Legacy.edge_id e' = Legacy.edge_id e ∧
            boolOrTrue (Legacy.edge_deletable e') = true ∧
            (Legacy.edge_id e' ∈ edgeIds ∨
             Legacy.edge_source e' ∈ Legacy.node_id <$> listed ∨
             Legacy.edge_target e' ∈ Legacy.node_id <$> listed))) ∧
  (∀ (getElementsToRemove :
        list Flow.Node → list Flow.Edge → list loc → list loc → list loc →
        list loc → list loc * list loc)
     (s : Flow.Store),
     let matching :=
       getElementsToRemove (Flow.nodeHeap s) (Flow.edgeHeap s)
         (Heap.filterObjects (λ node, truthy (Flow.node_selected node))
            (Flow.nodes s) (Flow.nodeHeap s))
         (Heap.filterObjects (λ edge, truthy (Flow.edge_selected edge))
            (Flow.edges s) (Flow.edgeHeap s))
         (Flow.nodes s) (Flow.edges s) in
     let s' := Flow.exec (Flow.onDeleteKeyPressed getElementsToRemove true) s in
     (matching = ([], []) → s' = s) ∧
     (matching ≠ ([], []) →
        (∀ r, r ∈ Flow.nodes s' ↔
           r ∈ Flow.nodes s ∧
           ∃ node, Flow.nodeHeap s !! r = Some node ∧
             ¬ ∃ m o, m ∈ matching.1 ∧ Flow.nodeHeap s !! m = Some o ∧
                 Flow.node_id o = Flow.node_id node) ∧
        (∀ r, r ∈ Flow.edges s' ↔
           r ∈ Flow.edges s ∧
           ∃ edge, Flow.edgeHeap s !! r = Some edge ∧
             ¬ ∃ m o, m ∈ matching.2 ∧ Flow.edgeHeap s !! m = Some o ∧
                 Flow.edge_id o = Flow.edge_id edge))).
Proof.
  split.
  - intros nds eds nodeIds edgeIds listed. split; [|split].
    + intros n. apply nodesToRemove_listed.
    + intros n Hn Hfalse.
      apply nodesToRemove_listed in Hn as (_ & _ & _ & Hdel & _).
      by rewrite Hfalse in Hdel.
    + intros e. unfold Legacy.onDeleteKeyPressed. cbv zeta. cbn [snd].
      fold nodeIds edgeIds. rewrite filter_elem_of, negb_true_iff.
      rewrite includes_false, edgeIdsToRemove_elem_of.
      unfold Legacy.edgesToRemove. cbv zeta. fold listed.
      assert (Hids :
        Legacy.edge_id e ∈
          Legacy.edge_id <$>
            (List.filter (λ e0, includes edgeIds (Legacy.edge_id e0))
               (List.filter (λ e0, boolOrTrue (Legacy.edge_deletable e0)) eds) ++
             Legacy.getConnectedEdges listed
               (List.filter (λ e0, boolOrTrue (Legacy.edge_deletable e0)) eds))
        ↔ ∃ e', e' ∈ eds ∧ Legacy.edge_id e' = Legacy.edge_id e ∧
            boolOrTrue (Legacy.edge_deletable e') = true ∧
            (Legacy.edge_id e' ∈ edgeIds ∨
             Legacy.edge_source e' ∈ Legacy.node_id <$> listed ∨
             Legacy.edge_target e' ∈ Legacy.node_id <$> listed)).
      { rewrite list_elem_of_fmap. unfold Legacy.getConnectedEdges. split.
        - intros (e' & Hid & Hin). exists e'.
          apply elem_of_app in Hin as [Hin|Hin];
            apply filter_elem_of in Hin as [Hin Htest];
            apply filter_elem_of in Hin as [Hin Hdel].
          + apply includes_elem_of in Htest. repeat split; auto.
          + apply orb_true_iff in Htest as [Ht|Ht];
              apply includes_elem_of in Ht; repeat split; auto.
        - intros (e' & Hin & Hid & Hdel & Hwhy). exists e'. split; [done|].
          apply elem_of_app. destruct Hwhy as [Hsel|Hconn].
          + left. rewrite !filter_elem_of. split; [done|].
            by apply includes_elem_of.
          + right. rewrite !filter_elem_of. split; [done|].
            apply orb_true_iff.
            destruct Hconn as [Hs|Ht]; [left|right]; by apply includes_elem_of. }
      rewrite Hids. done.
  - intros getElementsToRemove s matching s'. subst s'.
    rewrite onDeleteKeyPressed_run. cbv zeta. fold matching.
    destruct matching as [mN mE]. cbn [fst snd]. split.
    + intros [= -> ->]. done.
    + intros Hne.
      assert (Hsome : negb (length mN =? 0) || negb (length mE =? 0) = true).
      { destruct mN, mE; done. }
      rewrite Hsome.
      assert (Hnodes : ∀ s2,
        Flow.nodes (if Flow.ondelete s
                    then Flow.with_ondeleteCalls
                           ((mN, mE) :: Flow.ondeleteCalls s) s2
                    else s2) = Flow.nodes s2)
        by (intros; by destruct (Flow.ondelete s)).
      assert (Hedges : ∀ s2,
        Flow.edges (if Flow.ondelete s
                    then Flow.with_ondeleteCalls
                           ((mN, mE) :: Flow.ondeleteCalls s) s2
                    else s2) = Flow.edges s2)
        by (intros; by destruct (Flow.ondelete s)).
      rewrite Hnodes, Hedges. cbn [Flow.nodes Flow.edges Flow.with_writes
        Flow.with_edges Flow.with_nodes].
      split; intros r; rewrite filterObjects_elem_of.
      * split; intros [Hr (o & Ho & Hkeep)]; (split; [done|]); exists o;
          (split; [done|]).
        -- apply negb_true_iff in Hkeep. intros Hex.
           pose proof (proj2 (someSameId_true mN (Flow.nodeHeap s) o) Hex).
           congruence.
        -- apply negb_true_iff. apply not_true_is_false. intros Hsame.
           exact (Hkeep (proj1 (someSameId_true mN (Flow.nodeHeap s) o) Hsame)).
      * split; intros [Hr (o & Ho & Hkeep)]; (split; [done|]); exists o;
          (split; [done|]).
        -- apply negb_true_iff in Hkeep. intros Hex.
           pose proof (proj2 (someSameId_true mE (Flow.edgeHeap s) o) Hex).
           congruence.
        -- apply negb_true_iff. apply not_true_is_false. intros Hsame.
           exact (Hkeep (proj1 (someSameId_true mE (Flow.edgeHeap s) o) Hsame)).
Qed.

Lemma deleteKeyPressed_removal_witness :
  1 ∈ Flow.nodes
        (Flow.exec (Flow.onDeleteKeyPressed Samples.removeSelected true)
           Samples.detached).
Proof.
  apply (proj2 (proj2 deleteKeyPressed_removal Samples.removeSelected
                  Samples.detached)).
  - discriminate.
  - split; [right; left|].
    exists Samples.nodeB. split; [reflexivity|].
    intros (m & o & Hm & Ho & Hid). cbn in Hm.
    apply list_elem_of_singleton in Hm as ->.
    cbn in Ho. injection Ho as <-. discriminate.
Defined.

(** C2, as stated, fails.  In the sample family the selected node [g] is
    removed, its child [p] may not be deleted and stays, and so the child
    [c] of [p] stays too, although it may be deleted and has the removed
    node [g] as an ancestor. *)
Lemma deleteKeyPressed_ancestor_counterexample :
  ¬ (∀ n, n ∈ LegacySamples.family →
       (n ∉ (Legacy.onDeleteKeyPressed true LegacySamples.family []).1 ↔
        Legacy.removedBySpec LegacySamples.family n)).
Proof.
  intros Hclaim.
  assert (Hc : LegacySamples.nodeC ∈ LegacySamples.family)
    by (do 2 right; left).
  apply (proj2 (Hclaim LegacySamples.nodeC Hc)).
  - apply (Legacy.removed_descendant _ _ LegacySamples.nodeG);
      [done | reflexivity | reflexivity | | ].
    + apply (Legacy.ancestor_step _ _ LegacySamples.nodeP);
        [right; left | reflexivity|].
      apply Legacy.ancestor_parent; [left | reflexivity].
    + apply Legacy.removed_selected; [left | reflexivity | reflexivity].
  - cbn. right. left.
Qed.

(** The removal list on the sample family is the selected node alone, and
    so is what leaves the node collection. *)
Example deleteKeyPressed_family :
  Legacy.nodesToRemove ["g"] LegacySamples.family = [LegacySamples.nodeG] ∧
  (Legacy.onDeleteKeyPressed true LegacySamples.family []).1
  = [LegacySamples.nodeP; LegacySamples.nodeC].
Proof. split; reflexivity. Qed.

(** The first store filters the node collection by the ids of the selected
    nodes, not by the removal list it has just built: a selected node that
    may not be deleted leaves the collection, and a listed child stays. *)
Example deleteKeyPressed_filters_selected_ids :
  let locked := LegacySamples.measured "l" None (Some true) (Some false) in
  let child := LegacySamples.measured "k" (Some "g") None None in
  Legacy.nodesToRemove ["l"] [locked] = [] ∧
  (Legacy.onDeleteKeyPressed true [locked] []).1 = [] ∧
  Legacy.nodesToRemove ["g"] [LegacySamples.nodeG; child]
  = [LegacySamples.nodeG; child] ∧
  (Legacy.onDeleteKeyPressed true [LegacySamples.nodeG; child] []).1 = [child].
Proof. repeat split; reflexivity. Qed.

(** * Further properties of the current store *)

Lemma findObject_Some {A} (p : A → bool) (refs : list loc) (h : list A)
    (r : loc) :
  Heap.findObject p refs h = Some r →
  r ∈ refs ∧ ∃ o, h !! r = Some o ∧ p o = true.
Proof.
  unfold Heap.findObject. intros Hf. apply find_some in Hf as [Hin Hp].
  split; [by apply list_elem_of_In|].
  destruct (h !! r) as [o|]; [by exists o | done].
Qed.

Lemma includes_app (ids1 ids2 : list string) (i : string) :
  includes (ids1 ++ ids2) i = includes ids1 i || includes ids2 i.
Proof. unfold includes. apply existsb_app. Qed.

Lemma includes_singleton (id i : string) :
  includes [id] i = String.eqb i id.
Proof. unfold includes. simpl. apply orb_false_r. Qed.

Section reset_again_facts.
Context {A : Type} `{Element A}.

(** With no selected element in the list the loop writes nothing. *)
Lemma resetSelectedElements_none_selected (elements : list loc) (h : list A) :
  (∀ r o, r ∈ elements → h !! r = Some o → truthy (elemSelected o) = false) →
  Flow.resetSelectedElements elements h = (false, h).
Proof.
  unfold Flow.resetSelectedElements.
  induction elements as [|r rest IH]; intros Hnone; [done|].
  cbn [foldl].
  assert (Hstep : Flow.resetSelectedStep (false, h) r = (false, h)).
  { unfold Flow.resetSelectedStep. cbn [snd].
    destruct (h !! r) as [o|] eqn:Ho; [|done].
    rewrite (Hnone r o); [done | by left | done]. }
  rewrite Hstep. apply IH. intros r' o Hr'. apply Hnone. by right.
Qed.

End reset_again_facts.

(** A store is its cells. *)
Lemma with_heaps_same (s : Flow.Store) :
  Flow.with_edgeHeap (Flow.edgeHeap s) (Flow.with_nodeHeap (Flow.nodeHeap s) s)
  = s.
Proof. by destruct s. Qed.

(** X1. Unselecting twice is unselecting once: after [unselectNodesAndEdges]
    a second call with the same argument finds nothing selected, writes no
    cell and leaves the store as it is. *)
Theorem unselectNodesAndEdges_idempotent (params : option Flow.UnselectParams)
    (s : Flow.Store) :
  let s1 := Flow.exec (Flow.unselectNodesAndEdges params) s in
  Flow.exec (Flow.unselectNodesAndEdges params) s1 = s1.
Proof.
  intros s1.
  set (ns := default (Flow.nodes s) (params ≫= Flow.up_nodes)).
  set (es := default (Flow.edges s) (params ≫= Flow.up_edges)).
  destruct (@resetSelectedElements_spec Flow.Node Flow.node_element
              node_selected_withSelected ns (Flow.nodeHeap s))
    as (_ & Hnin & _).
  destruct (@resetSelectedElements_spec Flow.Edge Flow.edge_element
              edge_selected_withSelected es (Flow.edgeHeap s))
    as (_ & Hein & _).
  assert (Hshape :
    Flow.nodes s1 = Flow.nodes s ∧ Flow.edges s1 = Flow.edges s ∧
    Flow.nodeHeap s1 = (Flow.resetSelectedElements ns (Flow.nodeHeap s)).2 ∧
    Flow.edgeHeap s1 = (Flow.resetSelectedElements es (Flow.edgeHeap s)).2).
  { subst s1. rewrite unselectNodesAndEdges_run. cbv zeta. fold ns es.
    destruct (Flow.resetSelectedElements ns (Flow.nodeHeap s)) as [[] hn],
      (Flow.resetSelectedElements es (Flow.edgeHeap s)) as [[] he]; done. }
  destruct Hshape as (Hn & He & Hnh & Heh).
  rewrite unselectNodesAndEdges_run. cbv zeta. rewrite Hn, He. fold ns es.
  rewrite (resetSelectedElements_none_selected ns (Flow.nodeHeap s1)).
  2: { intros r o Hr Ho. rewrite Hnh, Hnin in Ho by done.
       destruct (Flow.nodeHeap s !! r) as [o0|]; [|done].
       simpl in Ho. injection Ho as <-.
       destruct (truthy (Flow.node_selected o0)) eqn:Hsel; [done | exact Hsel]. }
  cbn [fst snd].
  change (Flow.edgeHeap (Flow.with_nodeHeap (Flow.nodeHeap s1) s1))
    with (Flow.edgeHeap s1).
  rewrite (resetSelectedElements_none_selected es (Flow.edgeHeap s1)).
  2: { intros r o Hr Ho. rewrite Heh, Hein in Ho by done.
       destruct (Flow.edgeHeap s !! r) as [o0|]; [|done].
       simpl in Ho. injection Ho as <-.
       destruct (truthy (Flow.edge_selected o0)) eqn:Hsel; [done | exact Hsel]. }
  cbn [fst snd]. apply with_heaps_same.
Qed.

(** [addSelectedNodes], run. *)
Lemma addSelectedNodes_run (ids : list string) (s : Flow.Store) :
  Flow.exec (Flow.addSelectedNodes ids) s =
    let multi := Flow.multiselectionKeyPressed s in
    let s1 :=
      Flow.with_writes (Flow.CNodes :: Flow.writes s)
        (Flow.with_nodeHeap
           (Heap.mutObjects (Flow.selectElement multi ids) (Flow.nodes s)
              (Flow.nodeHeap s)) s) in
    if multi then s1
    else
      Flow.with_writes (Flow.CEdges :: Flow.writes s1)
        (Flow.with_edgeHeap
           (Heap.mutObjects (withSelected false) (Flow.edges s)
              (Flow.edgeHeap s)) s1).
Proof.
  unfold Flow.exec, Flow.addSelectedNodes, mbind, Flow.M_bind, Flow.gets,
    Flow.updateNodesInPlace, Flow.updateEdgesInPlace, Flow.modify.
  by destruct (Flow.multiselectionKeyPressed s).
Qed.

(** [handleNodeSelection] on the id of a node of the collection: the
    selection rectangle is cleared, then the selection is changed. *)
Lemma handleNodeSelection_run (error012 : string → string) (id : string)
    (s : Flow.Store) (r : loc) (node : Flow.Node) :
  Heap.findObject (λ n, String.eqb (Flow.node_id n) id) (Flow.nodes s)
    (Flow.nodeHeap s) = Some r →
  Flow.nodeHeap s !! r = Some node →
  Flow.exec (Flow.handleNodeSelection error012 id) s =
    let s1 :=
      Flow.exec
        (Flow.cellSet Flow.CSelectionRectMode Flow.with_selectionRectMode None)
        (Flow.exec
           (Flow.cellSet Flow.CSelectionRect Flow.with_selectionRect None) s) in
    if truthy (Flow.node_selected node)
    then
      if Flow.multiselectionKeyPressed s
      then Flow.exec
             (Flow.unselectNodesAndEdges
                (Some {| Flow.up_nodes := Some [r]; Flow.up_edges := Some [] |}))
             s1
      else s1
    else Flow.exec (Flow.addSelectedNodes [id]) s1.
Proof.
  intros Hfind Hnode.
  unfold Flow.exec at 1. unfold Flow.handleNodeSelection.
  unfold mbind at 1 2. unfold Flow.M_bind at 1 2. unfold Flow.gets at 1 2.
  rewrite Hfind.
  unfold mbind at 1 2. unfold Flow.M_bind at 1 2.
  unfold Flow.cellSet at 1 2. rewrite Hnode. cbn [from_option].
  destruct (truthy (Flow.node_selected node)); cbn [negb]; [|done].
  unfold mbind at 1. unfold Flow.M_bind at 1. unfold Flow.gets at 1.
  cbn [Flow.multiselectionKeyPressed Flow.with_writes
         Flow.with_selectionRectMode Flow.with_selectionRect].
  by destruct (Flow.multiselectionKeyPressed s).
Qed.

(** X2. A click on an unselected node.  [handleNodeSelection] clears the
    selection rectangle and its mode and selects the node.  Without the
    multi-selection key every node of the collection is selected afterwards
    exactly when it has the clicked id, and every edge of the collection is
    unselected; with the key the other nodes keep their selection and no edge
    is written.  Both arrays and the console stay as they are. *)
Theorem handleNodeSelection_selects (error012 : string → string)
    (id : string) (s : Flow.Store) (r : loc) (node : Flow.Node) :
  Heap.findObject (λ n, String.eqb (Flow.node_id n) id) (Flow.nodes s)
    (Flow.nodeHeap s) = Some r →
  Flow.nodeHeap s !! r = Some node →
  truthy (Flow.node_selected node) = false →
  let multi := Flow.multiselectionKeyPressed s in
  let s' := Flow.exec (Flow.handleNodeSelection error012 id) s in
  Flow.selectionRect s' = None ∧ Flow.selectionRectMode s' = None ∧
  Flow.nodes s' = Flow.nodes s ∧ Flow.edges s' = Flow.edges s ∧
  Flow.console s' = Flow.console s ∧
  Flow.nodeHeap s' !! r = Some (withSelected true node) ∧
  (∀ r' o, r' ∈ Flow.nodes s → Flow.nodeHeap s !! r' = Some o →
     Flow.nodeHeap s' !! r' =
       Some (withSelected
               (if multi
                then truthy (Flow.node_selected o) ||
                     String.eqb (Flow.node_id o) id
                else String.eqb (Flow.node_id o) id) o)) ∧
  (∀ r', r' ∉ Flow.nodes s → Flow.nodeHeap s' !! r' = Flow.nodeHeap s !! r') ∧
  (if multi
   then Flow.edgeHeap s' = Flow.edgeHeap s
   else ∀ r', r' ∈ Flow.edges s →
          Flow.edgeHeap s' !! r' = withSelected false <$> Flow.edgeHeap s !! r').
Proof.
  intros Hfind Hnode Hsel multi s'.
  destruct (findObject_Some _ _ _ _ Hfind) as (Hr & o & Ho & Hid).
  rewrite Hnode in Ho. injection Ho as <-. apply String.eqb_eq in Hid.
  assert (Hs' : s' =
    Flow.exec (Flow.addSelectedNodes [id])
      (Flow.exec
         (Flow.cellSet Flow.CSelectionRectMode Flow.with_selectionRectMode None)
         (Flow.exec
            (Flow.cellSet Flow.CSelectionRect Flow.with_selectionRect None) s))).
  { subst s'. rewrite (handleNodeSelection_run _ _ _ _ _ Hfind Hnode).
    cbv zeta. by rewrite Hsel. }
  rewrite addSelectedNodes_run in Hs'. cbv zeta in Hs'.
  cbn [Flow.exec Flow.cellSet snd Flow.multiselectionKeyPressed Flow.nodes
         Flow.edges Flow.nodeHeap Flow.edgeHeap Flow.writes Flow.with_writes
         Flow.with_selectionRectMode Flow.with_selectionRect] in Hs'.
  fold multi in Hs'.
  assert (Hnodes : ∀ r' o, r' ∈ Flow.nodes s → Flow.nodeHeap s !! r' = Some o →
    Heap.mutObjects (Flow.selectElement multi [id]) (Flow.nodes s)
      (Flow.nodeHeap s) !! r' =
      Some (withSelected
              (if multi
               then truthy (Flow.node_selected o) ||
                    String.eqb (Flow.node_id o) id
               else String.eqb (Flow.node_id o) id) o)).
  { intros r' o Hr' Ho.
    rewrite (mutObjects_lookup_in _ _ (selectElement_node_idem multi [id]))
      by done.
    rewrite Ho. cbn [fmap option_fmap option_map]. f_equal.
    unfold Flow.selectElement. cbn [elemId elemSelected Flow.node_element].
    by rewrite includes_singleton. }
  rewrite Hs'. destruct multi eqn:Hmulti.
  - repeat (split; [reflexivity|]). split.
    { cbn [Flow.nodeHeap Flow.with_writes Flow.with_nodeHeap].
      rewrite (Hnodes r node Hr Hnode), Hsel, Hid, String.eqb_refl. done. }
    split; [exact Hnodes|]. split; [|reflexivity].
    intros r' Hr'. by apply mutObjects_lookup_notin.
  - repeat (split; [reflexivity|]). split.
    { cbn [Flow.nodeHeap Flow.with_writes Flow.with_nodeHeap Flow.with_edgeHeap].
      rewrite (Hnodes r node Hr Hnode), Hid, String.eqb_refl. done. }
    split; [exact Hnodes|]. split.
    + intros r' Hr'. by apply mutObjects_lookup_notin.
    + intros r' Hr'.
      by apply (mutObjects_lookup_in _ _ (withSelected_edge_idem false)).
Qed.

Lemma handleNodeSelection_selects_witness :
  Flow.nodeHeap
    (Flow.exec (Flow.handleNodeSelection Samples.error012 "b") Samples.detached)
    !! 1
  = Some (withSelected true Samples.nodeB).
Proof.
  exact (proj1 (proj2 (proj2 (proj2 (proj2 (proj2
           (handleNodeSelection_selects Samples.error012 "b" Samples.detached
              1 Samples.nodeB eq_refl eq_refl eq_refl))))))).
Defined.

(** X3. A click on a selected node.  With the multi-selection key held the node
    is unselected in place and nothing else is touched: no other node, no
    edge.  Without the key the click changes no node and no edge, and writes
    neither collection; in both cases the selection rectangle and its mode
    are cleared. *)
Theorem handleNodeSelection_toggles (error012 : string → string)
    (id : string) (s : Flow.Store) (r : loc) (node : Flow.Node) :
  Heap.findObject (λ n, String.eqb (Flow.node_id n) id) (Flow.nodes s)
    (Flow.nodeHeap s) = Some r →
  Flow.nodeHeap s !! r = Some node →
  truthy (Flow.node_selected node) = true →
  let s' := Flow.exec (Flow.handleNodeSelection error012 id) s in
  Flow.selectionRect s' = None ∧ Flow.selectionRectMode s' = None ∧
  Flow.nodes s' = Flow.nodes s ∧ Flow.edges s' = Flow.edges s ∧
  Flow.edgeHeap s' = Flow.edgeHeap s ∧
  if Flow.multiselectionKeyPressed s
  then
    Flow.nodeHeap s' = <[r := withSelected false node]> (Flow.nodeHeap s) ∧
    Flow.writes s' =
      Flow.CNodes :: Flow.CSelectionRectMode :: Flow.CSelectionRect
        :: Flow.writes s
  else
    Flow.nodeHeap s' = Flow.nodeHeap s ∧
    Flow.writes s' =
      Flow.CSelectionRectMode :: Flow.CSelectionRect :: Flow.writes s.
Proof.
  intros Hfind Hnode Hsel s'. subst s'.
  rewrite (handleNodeSelection_run _ _ _ _ _ Hfind Hnode). cbv zeta.
  rewrite Hsel.
  destruct (Flow.multiselectionKeyPressed s); [|by repeat split].
  rewrite unselectNodesAndEdges_run. cbv zeta.
  cbn [Flow.exec Flow.cellSet snd Flow.up_nodes Flow.up_edges mbind
         option_bind default Flow.nodeHeap Flow.edgeHeap Flow.with_writes
         Flow.with_selectionRectMode Flow.with_selectionRect].
  unfold Datatypes.id.
  assert (Hnodes : Flow.resetSelectedElements [r] (Flow.nodeHeap s) =
                   (true, <[r := withSelected false node]> (Flow.nodeHeap s))).
  { unfold Flow.resetSelectedElements. cbn [foldl].
    unfold Flow.resetSelectedStep. cbn [snd]. rewrite Hnode.
    cbn [elemSelected Flow.node_element]. by rewrite Hsel. }
  rewrite Hnodes.
  assert (Hedges : ∀ h : list Flow.Edge,
            Flow.resetSelectedElements [] h = (false, h)) by done.
  rewrite Hedges. by repeat split.
Qed.

Lemma handleNodeSelection_toggles_witness :
  Flow.nodeHeap
    (Flow.exec (Flow.handleNodeSelection Samples.error012 "a")
       Samples.multiSelecting)
  = [withSelected false Samples.nodeA; Samples.nodeB].
Proof.
  exact (proj1 (proj2 (proj2 (proj2 (proj2 (proj2
           (handleNodeSelection_toggles Samples.error012 "a"
              Samples.multiSelecting 0 Samples.nodeA
              eq_refl eq_refl eq_refl))))))).
Defined.

(** X4. [fitView] touches the scheduled request or the engine, nothing else:
    on every input the node and edge arrays, every object, the size, the
    zoom bounds, the viewport cell and the console are left as they were,
    an engine stays attached or detached as it was, and the scheduled
    request changes only when the call answers [true] to a [waitForInit]
    request with an engine attached. *)
Theorem fitView_frame
    (fitViewUtil :
       list Flow.Node → Flow.FitViewParams → option Flow.FitViewOptions →
       bool * Flow.PanZoom)
    (nds : list loc) (options : option Flow.FitViewOptions) (s : Flow.Store) :
  let res := Flow.fitView fitViewUtil nds options s in
  Flow.nodes res.2 = Flow.nodes s ∧ Flow.edges res.2 = Flow.edges s ∧
  Flow.nodeHeap res.2 = Flow.nodeHeap s ∧
  Flow.edgeHeap res.2 = Flow.edgeHeap s ∧
  Flow.width res.2 = Flow.width s ∧ Flow.height res.2 = Flow.height s ∧
  Flow.minZoom res.2 = Flow.minZoom s ∧ Flow.maxZoom res.2 = Flow.maxZoom s ∧
  Flow.viewport res.2 = Flow.viewport s ∧
  Flow.console res.2 = Flow.console s ∧
  isSome (Flow.panZoom res.2) = isSome (Flow.panZoom s) ∧
  (Flow.fitViewScheduled res.2 ≠ Flow.fitViewScheduled s →
     res.1 = true ∧ isSome (Flow.panZoom s) = true ∧
     ∃ o, options = Some o ∧ truthy (Flow.fvo_waitForInit o) = true ∧
       Flow.fitViewScheduled res.2 = Flow.FvsOptions o).
Proof.
  intros res. subst res.
  unfold Flow.fitView, mbind, Flow.M_bind, Flow.gets.
  destruct (Flow.panZoom s) as [pz|] eqn:Hpz.
  2: { cbn [mret Flow.M_ret fst snd]. rewrite ?Hpz.
       do 11 (split; [reflexivity|]). intros Hne. by destruct Hne. }
  assert (Hutil : ∀ options,
    let res := Flow.callFitViewUtil fitViewUtil nds pz options s in
    Flow.nodes res.2 = Flow.nodes s ∧ Flow.edges res.2 = Flow.edges s ∧
    Flow.nodeHeap res.2 = Flow.nodeHeap s ∧
    Flow.edgeHeap res.2 = Flow.edgeHeap s ∧
    Flow.width res.2 = Flow.width s ∧ Flow.height res.2 = Flow.height s ∧
    Flow.minZoom res.2 = Flow.minZoom s ∧ Flow.maxZoom res.2 = Flow.maxZoom s ∧
    Flow.viewport res.2 = Flow.viewport s ∧
    Flow.console res.2 = Flow.console s ∧
    isSome (Flow.panZoom res.2) = true ∧
    Flow.fitViewScheduled res.2 = Flow.fitViewScheduled s).
  { intros o. unfold Flow.callFitViewUtil.
    by destruct (fitViewUtil _ _ _). }
  destruct options as [o|].
  - destruct (truthy (Flow.fvo_waitForInit o)) eqn:Hwait.
    + do 10 (split; [reflexivity|]). split; [cbn; by rewrite Hpz|].
      intros _. split; [done|]. split; [done|]. by exists o.
    + destruct (Hutil (Some o))
        as (? & ? & ? & ? & ? & ? & ? & ? & ? & ? & ? & Hsched).
      do 11 (split; [done|]). intros Hne. by destruct Hne.
  - destruct (Hutil None) as (? & ? & ? & ? & ? & ? & ? & ? & ? & ? & ? & Hsched).
    do 11 (split; [done|]). intros Hne. by destruct Hne.
Qed.

(** X5. When the system has nothing to apply ([null]) [updateNodeDimensions]
    writes no cell and does not retry the fit-view.  When the scheduled
    request is [false] (the fit-view is done, or was never asked for) it
    stays [false] and the engine is not called, whatever the update: the
    done state is final. *)
Theorem updateNodeDimensions_done_is_final
    (fitViewUtil :
       list Flow.Node → Flow.FitViewParams → option Flow.FitViewOptions →
       bool * Flow.PanZoom)
    (updateNodeDimensionsSystem :
       list (string * Flow.NodeDimensionUpdate) → list loc →
       list (string * loc) → option Flow.DomNode → number * number →
       list Flow.Node → option (list loc) * list Flow.Node)
    (updates : list (string * Flow.NodeDimensionUpdate)) (s : Flow.Store) :
  let measured :=
    updateNodeDimensionsSystem updates (Flow.nodes s) (Flow.nodeLookup s)
      (Flow.domNode s) (Flow.nodeOrigin s) (Flow.nodeHeap s) in
  let s' :=
    Flow.exec
      (Flow.updateNodeDimensions fitViewUtil updateNodeDimensionsSystem updates)
      s in
  (measured.1 = None → s' = Flow.with_nodeHeap measured.2 s) ∧
  (Flow.fitViewScheduled s = Flow.FvsBool false →
     Flow.fitViewScheduled s' = Flow.FvsBool false ∧
     Flow.panZoom s' = Flow.panZoom s ∧
     ∀ nextNodes, measured.1 = Some nextNodes →
       s' = Flow.with_writes (Flow.CNodes :: Flow.writes s)
              (Flow.with_nodes nextNodes (Flow.with_nodeHeap measured.2 s))).
Proof.
  intros measured s'. subst s'.
  unfold Flow.exec, Flow.updateNodeDimensions.
  unfold mbind, Flow.M_bind, Flow.gets, Flow.callUpdateNodeDimensionsSystem.
  fold measured. destruct measured as [[nextNodes|] h]; cbn [fst snd].
  - split; [done|]. intros Hdone.
    cbn [Flow.fitViewScheduled Flow.with_nodeHeap]. rewrite Hdone.
    cbn [Flow.fvsTruthy]. split; [by cbn|]. split; [done|].
    intros ? [= <-]. done.
  - split; [done|]. intros Hdone. split; [by cbn|]. split; [done|].
    intros ? [=].
Qed.

Lemma updateNodeDimensions_done_is_final_witness :
  Flow.panZoom
    (Flow.exec
       (Flow.updateNodeDimensions Samples.fitWhenNodes Samples.measureAll [])
       (Flow.exec
          (Flow.updateNodeDimensions Samples.fitWhenNodes Samples.measureAll [])
          Samples.attached))
  = Flow.panZoom
      (Flow.exec
         (Flow.updateNodeDimensions Samples.fitWhenNodes Samples.measureAll [])
         Samples.attached).
Proof.
  exact (proj1 (proj2 (proj2 (updateNodeDimensions_done_is_final
           Samples.fitWhenNodes Samples.measureAll []
           (Flow.exec
              (Flow.updateNodeDimensions Samples.fitWhenNodes
                 Samples.measureAll [])
              Samples.attached)) eq_refl))).
Defined.

Lemma fitView_frame_witness :
  (Flow.fitView Samples.fitWhenNodes [0; 1] (Some Samples.waitOptions)
     Samples.attached).1 = true.
Proof.
  apply (fitView_frame Samples.fitWhenNodes [0; 1] (Some Samples.waitOptions)
           Samples.attached).
  discriminate.
Defined.

(** What two calls of the selection callback leave of an element is what
    one call leaves: with the multi-selection key, the call with both id
    lists; without it, the second call. *)
Lemma selectElement_node_twice (multi : bool) (ids1 ids2 : list string)
    (n : Flow.Node) :
  Flow.selectElement multi ids2 (Flow.selectElement multi ids1 n)
  = Flow.selectElement multi (if multi then ids1 ++ ids2 else ids2) n.
Proof.
  destruct n as [i p c pa sel d de t da int].
  unfold Flow.selectElement. simpl.
  destruct multi; simpl; [|done].
  by rewrite includes_app, orb_assoc.
Qed.

(** Two passes of in-place writes over the same array are one pass of the
    composed write. *)
Lemma mutObjects_twice {A} (f g k : A → A) (refs : list loc) (h : list A) :
  (∀ o, f (f o) = f o) → (∀ o, g (g o) = g o) → (∀ o, k (k o) = k o) →
  (∀ o, g (f o) = k o) →
  Heap.mutObjects g refs (Heap.mutObjects f refs h) = Heap.mutObjects k refs h.
Proof.
  intros Hf Hg Hk Hgf. apply list_eq. intros r.
  destruct (decide (r ∈ refs)) as [Hin|Hnin].
  - rewrite !mutObjects_lookup_in by done.
    destruct (h !! r); simpl; [|done]. by rewrite Hgf.
  - by rewrite !mutObjects_lookup_notin.
Qed.

(** X6. Selecting in two steps.  Two calls of [addSelectedNodes] leave the
    objects and arrays that one call leaves: with the multi-selection key
    held, the call with the two id lists joined; without it, the second call
    alone (the first selection is forgotten). *)
Theorem addSelectedNodes_twice_is_once (ids1 ids2 : list string)
    (s : Flow.Store) :
  let twice :=
    Flow.exec (Flow.addSelectedNodes ids2)
      (Flow.exec (Flow.addSelectedNodes ids1) s) in
  let once :=
    Flow.exec
      (Flow.addSelectedNodes
         (if Flow.multiselectionKeyPressed s then ids1 ++ ids2 else ids2)) s in
  Flow.nodeHeap twice = Flow.nodeHeap once ∧
  Flow.edgeHeap twice = Flow.edgeHeap once ∧
  Flow.nodes twice = Flow.nodes once ∧ Flow.edges twice = Flow.edges once.
Proof.
  intros twice once. subst twice once.
  rewrite !addSelectedNodes_run. cbv zeta.
  destruct (Flow.multiselectionKeyPressed s) eqn:Hmulti.
  - cbn [Flow.multiselectionKeyPressed Flow.with_writes Flow.with_nodeHeap].
    rewrite Hmulti.
    cbn [Flow.nodeHeap Flow.edgeHeap Flow.nodes Flow.edges Flow.with_writes
           Flow.with_nodeHeap].
    split; [|done].
    apply (mutObjects_twice _ _ _ _ _
             (selectElement_node_idem true ids1)
             (selectElement_node_idem true ids2)
             (selectElement_node_idem true (ids1 ++ ids2))).
    intros o. apply (selectElement_node_twice true).
  - cbn [Flow.multiselectionKeyPressed Flow.with_writes Flow.with_nodeHeap
           Flow.with_edgeHeap].
    rewrite Hmulti.
    cbn [Flow.nodeHeap Flow.edgeHeap Flow.nodes Flow.edges Flow.with_writes
           Flow.with_nodeHeap Flow.with_edgeHeap].
    split; [|split; [|done]].
    + apply (mutObjects_twice _ _ _ _ _
               (selectElement_node_idem false ids1)
               (selectElement_node_idem false ids2)
               (selectElement_node_idem false ids2)).
      intros o. apply (selectElement_node_twice false).
    + apply (mutObjects_twice _ _ _ _ _
               (withSelected_edge_idem false) (withSelected_edge_idem false)
               (withSelected_edge_idem false)).
      intros o. apply withSelected_edge_idem.
Qed.

Lemma mapObjects_all_kept {A} (f : A → option A) (refs : list loc)
    (h : list A) :
  (∀ o, f o = None) → Heap.mapObjects f refs h = (refs, h).
Proof.
  intros Hnone. induction refs as [|r rs IH]; [done|].
  rewrite mapObjects_cons.
  assert (Hr : h !! r ≫= f = None).
  { destruct (h !! r) as [o|]; [apply Hnone | done]. }
  rewrite Hr, IH. done.
Qed.

(** X7. A drag changes position and dragging flag only.  At every position of
    the node array the node after [updateNodePositions] has the parent,
    selection, deletable flag, type, data, handle bounds and measured width
    and height of the node before; edges are not touched; and with no drag
    item the array and the heap are the ones before. *)
Theorem updateNodePositions_keeps_rest (D : list Flow.NodeDragItem)
    (dragging : bool) (s : Flow.Store) :
  Heap.allocated (Flow.nodeHeap s) (Flow.nodes s) →
  let s' := Flow.exec (Flow.updateNodePositions D dragging) s in
  (∀ i r, Flow.nodes s !! i = Some r →
     ∃ node r' node',
       Flow.nodeHeap s !! r = Some node ∧
       Flow.nodes s' !! i = Some r' ∧
       Flow.nodeHeap s' !! r' = Some node' ∧
       Flow.node_parentId node' = Flow.node_parentId node ∧
       Flow.node_selected node' = Flow.node_selected node ∧
       Flow.node_deletable node' = Flow.node_deletable node ∧
       Flow.node_type node' = Flow.node_type node ∧
       Flow.node_data node' = Flow.node_data node ∧
       Flow.node_internals node' = Flow.node_internals node ∧
       Flow.node_computed node' ≫= Flow.computed_width
         = Flow.node_computed node ≫= Flow.computed_width ∧
       Flow.node_computed node' ≫= Flow.computed_height
         = Flow.node_computed node ≫= Flow.computed_height) ∧
  Flow.edges s' = Flow.edges s ∧ Flow.edgeHeap s' = Flow.edgeHeap s ∧
  (D = [] → Flow.nodes s' = Flow.nodes s ∧ Flow.nodeHeap s' = Flow.nodeHeap s).
Proof.
  intros Ha s'. subst s'. unfold Flow.exec, Flow.updateNodePositions.
  destruct (Heap.mapObjects _ _ _) as [nds' h'] eqn:Hm. cbn [snd].
  destruct (mapObjects_identity _ _ _ _ _ Hm Ha) as (_ & _ & Hpt).
  split; [|split; [done|split; [done|]]].
  - intros i r Hi.
    destruct (Hpt i r Hi) as (node & r' & node' & Hn & Hr' & Hn' & Hnone & Hsome).
    exists node, r', node'. do 3 (split; [done|]).
    destruct (Flow.draggedNode D dragging node) as [n|] eqn:Hd.
    + destruct (Hsome n eq_refl) as (-> & _). unfold Flow.draggedNode in Hd.
      destruct (find _ D); [|done]. injection Hd as <-. by repeat split.
    + destruct (Hnone eq_refl) as [_ ->]. by repeat split.
  - intros ->. rewrite mapObjects_all_kept in Hm by done.
    by injection Hm as <- <-.
Qed.

Lemma updateNodePositions_keeps_rest_witness :
  Flow.nodeHeap (Flow.exec (Flow.updateNodePositions [] true) Samples.detached)
  = Flow.nodeHeap Samples.detached.
Proof.
  apply (updateNodePositions_keeps_rest [] true Samples.detached).
  - repeat constructor.
  - reflexivity.
Defined.

Lemma filter_sublist {A} (f : A → bool) (l : list A) :
  List.filter f l `sublist_of` l.
Proof.
  induction l as [|a l IH]; simpl; [constructor|].
  destruct (f a); [by apply sublist_skip | by apply sublist_cons].
Qed.

(** X8. What a deletion leaves alone.  The subscriber of [deleteKeyPressed]
    writes to no object; the nodes and edges that stay keep their order; a
    released key changes nothing; and [ondelete] is called at most once, and
    not at all when no such callback is installed. *)
Theorem onDeleteKeyPressed_frame
    (getElementsToRemove :
       list Flow.Node → list Flow.Edge → list loc → list loc → list loc →
       list loc → list loc * list loc)
    (pressed : bool) (s : Flow.Store) :
  let s' :=
    Flow.exec (Flow.onDeleteKeyPressed getElementsToRemove pressed) s in
  Flow.nodeHeap s' = Flow.nodeHeap s ∧ Flow.edgeHeap s' = Flow.edgeHeap s ∧
  Flow.nodes s' `sublist_of` Flow.nodes s ∧
  Flow.edges s' `sublist_of` Flow.edges s ∧
  (pressed = false → s' = s) ∧
  (Flow.ondelete s = false → Flow.ondeleteCalls s' = Flow.ondeleteCalls s) ∧
  length (Flow.ondeleteCalls s') ≤ S (length (Flow.ondeleteCalls s)).
Proof.
  intros s'. subst s'.
  assert (Hsame :
    Flow.nodeHeap s = Flow.nodeHeap s ∧ Flow.edgeHeap s = Flow.edgeHeap s ∧
    Flow.nodes s `sublist_of` Flow.nodes s ∧
    Flow.edges s `sublist_of` Flow.edges s ∧
    (pressed = false → s = s) ∧
    (Flow.ondelete s = false → Flow.ondeleteCalls s = Flow.ondeleteCalls s) ∧
    length (Flow.ondeleteCalls s) ≤ S (length (Flow.ondeleteCalls s))).
  { do 2 (split; [done|]). do 2 (split; [reflexivity|]).
    do 2 (split; [done|]). lia. }
  destruct pressed; [|exact Hsame].
  rewrite onDeleteKeyPressed_run. cbv zeta.
  destruct (getElementsToRemove _ _ _ _ _ _) as [mN mE]. cbn [fst snd].
  destruct (negb (length mN =? 0) || negb (length mE =? 0)); [|exact Hsame].
  destruct (Flow.ondelete s) eqn:Hhook;
    cbn [Flow.nodeHeap Flow.edgeHeap Flow.nodes Flow.edges Flow.ondeleteCalls
           Flow.with_ondeleteCalls Flow.with_writes Flow.with_edges
           Flow.with_nodes];
    (split; [done|]); (split; [done|]);
    (split; [apply filter_sublist|]); (split; [apply filter_sublist|]);
    (split; [done|]); (split; [done|]); simpl; lia.
Qed.

(** * Further properties of the first store *)

(** The node [setNodes] merges with is a node of the store with the id. *)
Lemma currentNodeOf_Some (id : string) (s : LegacyStore.Store)
    (current : Legacy.Node) :
  LegacyStore.currentNodeOf id s = Some current →
  Legacy.node_id current = id ∧
  ∃ r, r ∈ LegacyStore.nodesStore s ∧
    LegacyStore.nodeHeap s !! r = Some current.
Proof.
  unfold LegacyStore.currentNodeOf.
  destruct (Heap.findObject _ _ _) as [r|] eqn:Hf; [|done].
  cbn [mbind option_bind]. intros Hcur.
  destruct (findObject_Some _ _ _ _ Hf) as (Hr & o & Ho & Hid).
  rewrite Ho in Hcur. injection Hcur as ->.
  apply String.eqb_eq in Hid. split; [done | by exists r].
Qed.

(** X9. [setNodes] builds the node array anew.  The new array has one new
    object for each given node, in the given order, with the given id,
    position and data, and with its absolute position set to its position.
    A field the given node lacks (width, height, handle bounds, selection,
    parent, ...) is taken from the node of the store with the same id, when
    there is one.  No existing object is written and the edges stay. *)
Theorem setNodes_merges (nds : list Legacy.Node) (s : LegacyStore.Store) :
  let s' := LegacyStore.setNodes nds s in
  length (LegacyStore.nodesStore s') = length nds ∧
  (∀ r o, LegacyStore.nodeHeap s !! r = Some o →
     LegacyStore.nodeHeap s' !! r = Some o) ∧
  LegacyStore.edgesStore s' = LegacyStore.edgesStore s ∧
  LegacyStore.edgeHeap s' = LegacyStore.edgeHeap s ∧
  ∀ i n, nds !! i = Some n →
    ∃ r' n',
      LegacyStore.nodesStore s' !! i = Some r' ∧
      LegacyStore.nodeHeap s !! r' = None ∧
      LegacyStore.nodeHeap s' !! r' = Some n' ∧
      Legacy.node_id n' = Legacy.node_id n ∧
      Legacy.node_position n' = Legacy.node_position n ∧
      Legacy.node_data n' = Legacy.node_data n ∧
      Legacy.node_positionAbsolute n' = Some (Legacy.node_position n) ∧
      let current := LegacyStore.currentNodeOf (Legacy.node_id n) s in
      Legacy.node_width n' =
        LegacyStore.orElse (Legacy.node_width n)
          (current ≫= Legacy.node_width) ∧
      Legacy.node_height n' =
        LegacyStore.orElse (Legacy.node_height n)
          (current ≫= Legacy.node_height) ∧
      Legacy.node_internals n' =
        LegacyStore.orElse (Legacy.node_internals n)
          (current ≫= Legacy.node_internals) ∧
      Legacy.node_selected n' =
        LegacyStore.orElse (Legacy.node_selected n)
          (current ≫= Legacy.node_selected) ∧
      Legacy.node_parentNode n' =
        LegacyStore.orElse (Legacy.node_parentNode n)
          (current ≫= Legacy.node_parentNode).
Proof.
  intros s'. subst s'. unfold LegacyStore.setNodes. cbv zeta.
  cbn [LegacyStore.nodesStore LegacyStore.nodeHeap LegacyStore.edgesStore
         LegacyStore.edgeHeap LegacyStore.with_nodesStore
         LegacyStore.with_nodeHeap].
  split; [by rewrite length_seq, length_map|].
  split; [intros r o Ho; by apply lookup_app_l_Some|].
  split; [done|]. split; [done|].
  intros i n Hi.
  assert (Hlt : i < length nds) by (by eapply lookup_lt_Some).
  exists (length (LegacyStore.nodeHeap s) + i),
    (LegacyStore.mergedNode
       (LegacyStore.currentNodeOf (Legacy.node_id n) s) n).
  split; [apply lookup_seq; by rewrite length_map|].
  split; [apply lookup_ge_None; lia|].
  split; [|done].
  rewrite lookup_app_r by lia.
  replace (length (LegacyStore.nodeHeap s) + i
             - length (LegacyStore.nodeHeap s)) with i by lia.
  change (map ?f nds) with (f <$> nds).
  by rewrite list_lookup_fmap, Hi.
Qed.

(** X10. Unselecting in the first store copies on write.  After
    [resetSelectedElements] no node and no edge of the arrays is selected;
    an element that was not selected is the same object as before, an
    element that was selected is replaced by a new object that differs in
    its [selected] flag only; no existing object is written. *)
Theorem resetSelectedElements_copies (s : LegacyStore.Store) :
  Heap.allocated (LegacyStore.nodeHeap s) (LegacyStore.nodesStore s) →
  Heap.allocated (LegacyStore.edgeHeap s) (LegacyStore.edgesStore s) →
  let s' := LegacyStore.resetSelectedElements s in
  (∀ r o, LegacyStore.nodeHeap s !! r = Some o →
     LegacyStore.nodeHeap s' !! r = Some o) ∧
  (∀ r o, LegacyStore.edgeHeap s !! r = Some o →
     LegacyStore.edgeHeap s' !! r = Some o) ∧
  (∀ i r, LegacyStore.nodesStore s !! i = Some r →
     ∃ o r' o',
       LegacyStore.nodeHeap s !! r = Some o ∧
       LegacyStore.nodesStore s' !! i = Some r' ∧
       LegacyStore.nodeHeap s' !! r' = Some o' ∧
       truthy (Legacy.node_selected o') = false ∧
       (truthy (Legacy.node_selected o) = false → r' = r ∧ o' = o) ∧
       (truthy (Legacy.node_selected o) = true →
          LegacyStore.nodeHeap s !! r' = None ∧ o' = withSelected false o)) ∧
  (∀ i r, LegacyStore.edgesStore s !! i = Some r →
     ∃ o r' o',
       LegacyStore.edgeHeap s !! r = Some o ∧
       LegacyStore.edgesStore s' !! i = Some r' ∧
       LegacyStore.edgeHeap s' !! r' = Some o' ∧
       truthy (Legacy.edge_selected o') = false ∧
       (truthy (Legacy.edge_selected o) = false → r' = r ∧ o' = o) ∧
       (truthy (Legacy.edge_selected o) = true →
          LegacyStore.edgeHeap s !! r' = None ∧ o' = withSelected false o)).
Proof.
  intros Han Hae s'. subst s'. unfold LegacyStore.resetSelectedElements.
  destruct (Heap.mapObjects _ (LegacyStore.nodesStore s) _)
    as [ns nh] eqn:Hmn.
  cbv zeta.
  cbn [LegacyStore.edgesStore LegacyStore.edgeHeap LegacyStore.with_nodesStore
         LegacyStore.with_nodeHeap].
  destruct (Heap.mapObjects _ (LegacyStore.edgesStore s) _)
    as [es eh] eqn:Hme.
  cbn [LegacyStore.nodesStore LegacyStore.nodeHeap LegacyStore.edgesStore
         LegacyStore.edgeHeap LegacyStore.with_nodesStore
         LegacyStore.with_nodeHeap LegacyStore.with_edgesStore
         LegacyStore.with_edgeHeap].
  destruct (mapObjects_identity _ _ _ _ _ Hmn Han) as (_ & Hnkeep & Hnpt).
  destruct (mapObjects_identity _ _ _ _ _ Hme Hae) as (_ & Hekeep & Hept).
  split; [done|]. split; [done|]. split.
  - intros i r Hi.
    destruct (Hnpt i r Hi) as (o & r' & o' & Ho & Hr' & Ho' & Hnone & Hsome).
    exists o, r', o'. do 3 (split; [done|]).
    unfold LegacyStore.resetSelectedItem in Hnone, Hsome.
    cbn [elemSelected LegacyStore.legacy_node_element] in Hnone, Hsome.
    destruct (truthy (Legacy.node_selected o)) eqn:Hsel.
    + destruct (Hsome _ eq_refl) as (-> & Hfresh & _).
      split; [done|]. split; [done|]. done.
    + destruct (Hnone eq_refl) as [-> ->]. split; [done|]. split; done.
  - intros i r Hi.
    destruct (Hept i r Hi) as (o & r' & o' & Ho & Hr' & Ho' & Hnone & Hsome).
    exists o, r', o'. do 3 (split; [done|]).
    unfold LegacyStore.resetSelectedItem in Hnone, Hsome.
    cbn [elemSelected LegacyStore.legacy_edge_element] in Hnone, Hsome.
    destruct (truthy (Legacy.edge_selected o)) eqn:Hsel.
    + destruct (Hsome _ eq_refl) as (-> & Hfresh & _).
      split; [done|]. split; [done|]. done.
    + destruct (Hnone eq_refl) as [-> ->]. split; [done|]. split; done.
Qed.

Section measure_facts.
Variable fitViewUtil :
  list Legacy.Node → LegacyStore.FitViewParams →
  bool * LegacyStore.D3ZoomInstance.
Variable getDimensions : nat → number * number.
Variable getHandleBounds :
  string → nat → number → option (list HandleElement).

(** Measuring a node twice with the same updates is measuring it once. *)
Lemma measuredNode_idem (zoom : number)
    (updates : list LegacyStore.NodeDimensionUpdate) (node : Legacy.Node) :
  LegacyStore.measuredNode getDimensions getHandleBounds zoom updates
    (LegacyStore.measuredNode getDimensions getHandleBounds zoom updates node)
  = LegacyStore.measuredNode getDimensions getHandleBounds zoom updates node.
Proof.
  unfold LegacyStore.measuredNode at 2.
  destruct (find _ updates) as [update|] eqn:Hf.
  2: { unfold LegacyStore.measuredNode. by rewrite Hf. }
  cbv zeta.
  destruct (getDimensions (LegacyStore.ndu_nodeElement update)) as [w h] eqn:Hd.
  cbn [fst snd].
  destruct (LegacyStore.numberTruthy w && LegacyStore.numberTruthy h &&
            (negb (bool_decide (Legacy.node_width node = Some w)) ||
             negb (bool_decide (Legacy.node_height node = Some h)) ||
             truthy (LegacyStore.ndu_forceUpdate update))) eqn:Hdo.
  - unfold LegacyStore.measuredNode. cbn [Legacy.node_id]. rewrite Hf.
    cbv zeta. rewrite Hd. cbn [fst snd Legacy.node_width Legacy.node_height].
    apply andb_true_iff in Hdo as [Hwh Hrest]. rewrite Hwh. cbn [andb].
    rewrite Hrest.
    rewrite !bool_decide_eq_true_2 by done. cbn [negb orb].
    destruct (truthy (LegacyStore.ndu_forceUpdate update)); reflexivity.
  - unfold LegacyStore.measuredNode. rewrite Hf. cbv zeta. rewrite Hd.
    cbn [fst snd]. by rewrite Hdo.
Qed.

(** The fit-view step of [updateNodeDimensions] writes to no object and to
    no array. *)
Lemma fitViewOnInitStep_frame (s : LegacyStore.Store) :
  let res := LegacyStore.fitViewOnInitStep fitViewUtil s in
  LegacyStore.nodeHeap res.2 = LegacyStore.nodeHeap s ∧
  LegacyStore.nodesStore res.2 = LegacyStore.nodesStore s ∧
  LegacyStore.edgeHeap res.2 = LegacyStore.edgeHeap s ∧
  LegacyStore.edgesStore res.2 = LegacyStore.edgesStore s ∧
  LegacyStore.fitViewOnInit res.2 = LegacyStore.fitViewOnInit s.
Proof.
  unfold LegacyStore.fitViewOnInitStep, LegacyStore._fitView.
  destruct (LegacyStore.fitViewOnInitDone s); [done|].
  destruct (LegacyStore.fitViewOnInit s && _ && _); [|done].
  destruct (LegacyStore.d3_zoom _); [|done].
  destruct (LegacyStore.d3_selection _); [|done].
  by destruct (fitViewUtil _ _).
Qed.

End measure_facts.

(** X11. What a measurement writes.  With a viewport element in the document,
    [updateNodeDimensions] keeps the node array and writes to nodes of the
    array only, in place.  A node is written exactly when the first update
    with its id measures a width and a height that are not zero, and the
    size differs from the stored one or the update is forced; it then gets
    the measured width and height and new handle bounds, and keeps its id
    and position.  A node with no update, a measurement with a zero side
    (even a forced one), or an unforced measurement of the stored size
    leave the node as it is.  With no viewport element nothing changes. *)
Theorem updateNodeDimensions_measures
    (fitViewUtil :
       list Legacy.Node → LegacyStore.FitViewParams →
       bool * LegacyStore.D3ZoomInstance)
    (getDimensions : nat → number * number)
    (getHandleBounds : string → nat → number → option (list HandleElement))
    (updates : list LegacyStore.NodeDimensionUpdate) (s : LegacyStore.Store) :
  LegacyStore.updateNodeDimensions fitViewUtil None getDimensions
    getHandleBounds updates s = s ∧
  ∀ zoom,
    let s' :=
      LegacyStore.updateNodeDimensions fitViewUtil (Some zoom) getDimensions
        getHandleBounds updates s in
    LegacyStore.nodesStore s' = LegacyStore.nodesStore s ∧
    (∀ r, r ∉ LegacyStore.nodesStore s →
       LegacyStore.nodeHeap s' !! r = LegacyStore.nodeHeap s !! r) ∧
    ∀ r node,
      r ∈ LegacyStore.nodesStore s →
      LegacyStore.nodeHeap s !! r = Some node →
      (find (λ u, String.eqb (LegacyStore.ndu_id u) (Legacy.node_id node))
         updates = None →
       LegacyStore.nodeHeap s' !! r = Some node) ∧
      ∀ update w h,
        find (λ u, String.eqb (LegacyStore.ndu_id u) (Legacy.node_id node))
          updates = Some update →
        getDimensions (LegacyStore.ndu_nodeElement update) = (w, h) →
        (w = 0%Z ∨ h = 0%Z → LegacyStore.nodeHeap s' !! r = Some node) ∧
        (Legacy.node_width node = Some w → Legacy.node_height node = Some h →
         truthy (LegacyStore.ndu_forceUpdate update) = false →
         LegacyStore.nodeHeap s' !! r = Some node) ∧
        (w ≠ 0%Z → h ≠ 0%Z →
         Legacy.node_width node ≠ Some w ∨ Legacy.node_height node ≠ Some h ∨
         truthy (LegacyStore.ndu_forceUpdate update) = true →
         ∃ node',
           LegacyStore.nodeHeap s' !! r = Some node' ∧
           Legacy.node_width node' = Some w ∧
           Legacy.node_height node' = Some h ∧
           Legacy.node_id node' = Legacy.node_id node ∧
           Legacy.node_position node' = Legacy.node_position node ∧
           Legacy.node_selected node' = Legacy.node_selected node ∧
           Legacy.node_internals node' =
             Some {| handleBounds :=
                       Some {| hb_source :=
                                 getHandleBounds ".source"
                                   (LegacyStore.ndu_nodeElement update) zoom;
                               hb_target :=
                                 getHandleBounds ".target"
                                   (LegacyStore.ndu_nodeElement update) zoom
                            |} |}).
Proof.
  split; [done|]. intros zoom s'.
  assert (Hheap : LegacyStore.nodeHeap s' =
    Heap.mutObjects
      (LegacyStore.measuredNode getDimensions getHandleBounds zoom updates)
      (LegacyStore.nodesStore s) (LegacyStore.nodeHeap s)).
  { subst s'. unfold LegacyStore.updateNodeDimensions. cbv zeta.
    pose proof (fitViewOnInitStep_frame fitViewUtil
      (LegacyStore.with_nodeHeap
         (Heap.mutObjects
            (LegacyStore.measuredNode getDimensions getHandleBounds zoom updates)
            (LegacyStore.nodesStore s) (LegacyStore.nodeHeap s)) s))
      as (Hh & _).
    destruct (LegacyStore.fitViewOnInitStep _ _) as [done s2].
    exact Hh. }
  assert (Hnodes : LegacyStore.nodesStore s' = LegacyStore.nodesStore s).
  { subst s'. unfold LegacyStore.updateNodeDimensions. cbv zeta.
    by destruct (LegacyStore.fitViewOnInitStep _ _). }
  split; [exact Hnodes|]. rewrite Hheap.
  split; [intros r Hr; by apply mutObjects_lookup_notin|].
  intros r node Hr Hnode.
  rewrite (mutObjects_lookup_in _ _
             (measuredNode_idem getDimensions getHandleBounds zoom updates))
    by done.
  rewrite Hnode. cbn [fmap option_fmap option_map].
  unfold LegacyStore.measuredNode. split.
  - intros Hnone. by rewrite Hnone.
  - intros update w h Hfind Hdim. rewrite Hfind. cbv zeta. rewrite Hdim.
    cbn [fst snd]. split; [|split].
    + intros [-> | ->]; [done|].
      by rewrite andb_false_r.
    + intros Hw Hh Hforce.
      rewrite !bool_decide_eq_true_2 by done. rewrite Hforce.
      by rewrite andb_false_r.
    + intros Hw Hh Hwhy.
      assert (Hwt : LegacyStore.numberTruthy w = true).
      { unfold LegacyStore.numberTruthy. apply negb_true_iff.
        by apply Z.eqb_neq. }
      assert (Hht : LegacyStore.numberTruthy h = true).
      { unfold LegacyStore.numberTruthy. apply negb_true_iff.
        by apply Z.eqb_neq. }
      rewrite Hwt, Hht. cbn [andb].
      assert (Hdo :
        negb (bool_decide (Legacy.node_width node = Some w)) ||
        negb (bool_decide (Legacy.node_height node = Some h)) ||
        truthy (LegacyStore.ndu_forceUpdate update) = true).
      { destruct Hwhy as [Hne|[Hne|Hforce]].
        - by rewrite bool_decide_eq_false_2.
        - rewrite (bool_decide_eq_false_2 _ Hne). cbn [negb].
          by rewrite orb_true_r.
        - rewrite Hforce. by rewrite orb_true_r. }
      rewrite Hdo. eexists. split; [reflexivity|]. by repeat split.
Qed.

Lemma setNodes_merges_witness :
  ∃ r' n',
    LegacyStore.nodesStore
      (LegacyStore.setNodes [LegacyStoreSamples.bareG]
         LegacyStoreSamples.loaded) !! 0 = Some r' ∧
    LegacyStore.nodeHeap
      (LegacyStore.setNodes [LegacyStoreSamples.bareG]
         LegacyStoreSamples.loaded) !! r' = Some n' ∧
    Legacy.node_width n' = Some 20%Z ∧
    Legacy.node_positionAbsolute n' = Some {| x := 3%Z; y := 4%Z |}.
Proof.
  destruct (proj2 (proj2 (proj2 (proj2
              (setNodes_merges [LegacyStoreSamples.bareG]
                 LegacyStoreSamples.loaded))))
              0 LegacyStoreSamples.bareG eq_refl)
    as (r' & n' & Hr' & _ & Hn' & _ & _ & _ & Habs & Hw & _).
  exists r', n'. split; [exact Hr'|]. split; [exact Hn'|].
  split; [exact Hw | exact Habs].
Defined.

Lemma resetSelectedElements_copies_witness :
  ∃ o r' o',
    LegacyStore.nodeHeap LegacyStoreSamples.loaded !! 0 = Some o ∧
    LegacyStore.nodesStore
      (LegacyStore.resetSelectedElements LegacyStoreSamples.loaded) !! 0
    = Some r' ∧
    LegacyStore.nodeHeap
      (LegacyStore.resetSelectedElements LegacyStoreSamples.loaded) !! r'
    = Some o' ∧
    truthy (Legacy.node_selected o') = false.
Proof.
  assert (Han : Heap.allocated
                  (LegacyStore.nodeHeap LegacyStoreSamples.loaded)
                  (LegacyStore.nodesStore LegacyStoreSamples.loaded))
    by (repeat constructor).
  assert (Hae : Heap.allocated
                  (LegacyStore.edgeHeap LegacyStoreSamples.loaded)
                  (LegacyStore.edgesStore LegacyStoreSamples.loaded))
    by (repeat constructor).
  destruct (proj1 (proj2 (proj2
              (resetSelectedElements_copies LegacyStoreSamples.loaded Han Hae)))
              0 0 eq_refl)
    as (o & r' & o' & Ho & Hr' & Ho' & Hsel & _).
  exists o, r', o'. repeat split; assumption.
Defined.

Lemma updateNodeDimensions_measures_witness :
  ∃ node',
    LegacyStore.nodeHeap
      (LegacyStore.updateNodeDimensions LegacyStoreSamples.fitAlways
         (Some 1%Z) LegacyStoreSamples.measure30x40
         LegacyStoreSamples.oneHandle [LegacyStoreSamples.updateG]
         LegacyStoreSamples.loaded) !! 0 = Some node' ∧
    Legacy.node_width node' = Some 30%Z ∧
    Legacy.node_height node' = Some 40%Z.
Proof.
  destruct (proj2 (proj2 (proj2 (proj2
              (updateNodeDimensions_measures LegacyStoreSamples.fitAlways
                 LegacyStoreSamples.measure30x40 LegacyStoreSamples.oneHandle
                 [LegacyStoreSamples.updateG] LegacyStoreSamples.loaded)
              1%Z))
              0 LegacySamples.nodeG ltac:(left) eq_refl)
              LegacyStoreSamples.updateG 30%Z 40%Z eq_refl eq_refl)
    as (_ & _ & Hwrite).
  destruct Hwrite as (node' & Hn & Hw & Hh & _);
    [discriminate | discriminate | left; discriminate |].
  exists node'. repeat split; assumption.
Defined.

(** X12. The fit-view on initialisation happens once.  Once
    [fitViewOnInitDone] is set, [updateNodeDimensions] keeps it set and does
    not call the zoom behaviour again.  It does not call it either when no
    fit-view on initialisation was asked for, or while the zoom behaviour or
    its selection is not attached; the flag then stays as it is. *)
Theorem fitViewOnInit_only_once
    (fitViewUtil :
       list Legacy.Node → LegacyStore.FitViewParams →
       bool * LegacyStore.D3ZoomInstance)
    (viewportZoom : option number)
    (getDimensions : nat → number * number)
    (getHandleBounds : string → nat → number → option (list HandleElement))
    (updates : list LegacyStore.NodeDimensionUpdate) (s : LegacyStore.Store) :
  let s' :=
    LegacyStore.updateNodeDimensions fitViewUtil viewportZoom getDimensions
      getHandleBounds updates s in
  LegacyStore.fitViewOnInit s' = LegacyStore.fitViewOnInit s ∧
  (LegacyStore.fitViewOnInitDone s = true →
     LegacyStore.fitViewOnInitDone s' = true ∧
     LegacyStore.d3Store s' = LegacyStore.d3Store s) ∧
  (LegacyStore.fitViewOnInit s = false ∨
   LegacyStore.d3_zoom (LegacyStore.d3Store s) = None ∨
   LegacyStore.d3_selection (LegacyStore.d3Store s) = None →
     LegacyStore.fitViewOnInitDone s' = LegacyStore.fitViewOnInitDone s ∧
     LegacyStore.d3Store s' = LegacyStore.d3Store s).
Proof.
  intros s'. subst s'. unfold LegacyStore.updateNodeDimensions.
  destruct viewportZoom as [zoom|]; [|done]. cbv zeta.
  unfold LegacyStore.fitViewOnInitStep, LegacyStore._fitView.
  cbn [LegacyStore.fitViewOnInitDone LegacyStore.fitViewOnInit
         LegacyStore.d3Store LegacyStore.with_nodeHeap].
  destruct (LegacyStore.fitViewOnInitDone s) eqn:Hdone.
  { split; [done|]. split; [done|]. intros _. done. }
  destruct (LegacyStore.fitViewOnInit s) eqn:Hinit.
  2: { split; [done|]. split; [done|]. intros _. done. }
  destruct (LegacyStore.d3_zoom (LegacyStore.d3Store s)) as [z|] eqn:Hz.
  2: { split; [done|]. split; [done|]. intros _. done. }
  destruct (LegacyStore.d3_selection (LegacyStore.d3Store s)) as [sel|] eqn:Hs.
  2: { split; [done|]. split; [done|]. intros _. done. }
  cbn [andb isSome]. destruct (fitViewUtil _ _).
  split; [done|]. split; [done|]. intros [?|[?|?]]; done.
Qed.

Lemma fitViewOnInit_only_once_witness :
  let fitted :=
    LegacyStore.updateNodeDimensions LegacyStoreSamples.fitAlways (Some 1%Z)
      LegacyStoreSamples.measure30x40 LegacyStoreSamples.oneHandle
      [LegacyStoreSamples.updateG] LegacyStoreSamples.loaded in
  LegacyStore.d3Store
    (LegacyStore.updateNodeDimensions LegacyStoreSamples.fitAlways (Some 1%Z)
       LegacyStoreSamples.measure30x40 LegacyStoreSamples.oneHandle
       [LegacyStoreSamples.updateG] fitted)
  = LegacyStore.d3Store fitted.
Proof.
  intros fitted.
  exact (proj2 (proj1 (proj2 (fitViewOnInit_only_once
           LegacyStoreSamples.fitAlways (Some 1%Z)
           LegacyStoreSamples.measure30x40 LegacyStoreSamples.oneHandle
           [LegacyStoreSamples.updateG] fitted)) eq_refl)).
Defined.

(** X13. In the first store [addSelectedNodes] replaces the selection, with or
    without the multi-selection key: every node of the array becomes a new
    object, selected exactly when its id is in [ids] and otherwise equal to
    the node it replaces.  The selection rectangle and its mode are cleared;
    edges, like every existing object, are left alone. *)
Theorem legacy_addSelectedNodes_store (ids : list string)
    (s : LegacyStore.Store) :
  Heap.allocated (LegacyStore.nodeHeap s) (LegacyStore.nodesStore s) →
  let s' := LegacyStore.addSelectedNodes ids s in
  LegacyStore.selectionRectStore s' = None ∧
  LegacyStore.selectionRectModeStore s' = None ∧
  LegacyStore.edgesStore s' = LegacyStore.edgesStore s ∧
  LegacyStore.edgeHeap s' = LegacyStore.edgeHeap s ∧
  length (LegacyStore.nodesStore s') = length (LegacyStore.nodesStore s) ∧
  (∀ r o, LegacyStore.nodeHeap s !! r = Some o →
     LegacyStore.nodeHeap s' !! r = Some o) ∧
  ∀ i r, LegacyStore.nodesStore s !! i = Some r →
    ∃ o r',
      LegacyStore.nodeHeap s !! r = Some o ∧
      LegacyStore.nodesStore s' !! i = Some r' ∧
      LegacyStore.nodeHeap s !! r' = None ∧
      LegacyStore.nodeHeap s' !! r' =
        Some (withSelected (includes ids (Legacy.node_id o)) o).
Proof.
  intros Ha s'. subst s'. unfold LegacyStore.addSelectedNodes. cbv zeta.
  cbn [LegacyStore.nodesStore LegacyStore.nodeHeap
         LegacyStore.with_selectionRectModeStore
         LegacyStore.with_selectionRectStore].
  destruct (Heap.mapObjects _ _ _) as [ns nh] eqn:Hm.
  destruct (mapObjects_identity _ _ _ _ _ Hm Ha) as (Hlen & Hkeep & Hpt).
  do 4 (split; [done|]). split; [exact Hlen|]. split; [exact Hkeep|].
  intros i r Hi.
  destruct (Hpt i r Hi) as (o & r' & o' & Ho & Hr' & Ho' & _ & Hsome).
  destruct (Hsome _ eq_refl) as (-> & Hfresh & _).
  by exists o, r'.
Qed.

Lemma legacy_addSelectedNodes_store_witness :
  ∃ o r',
    LegacyStore.nodeHeap LegacyStoreSamples.loaded !! 0 = Some o ∧
    LegacyStore.nodesStore
      (LegacyStore.addSelectedNodes ["p"] LegacyStoreSamples.loaded) !! 0
    = Some r' ∧
    LegacyStore.nodeHeap
      (LegacyStore.addSelectedNodes ["p"] LegacyStoreSamples.loaded) !! r'
    = Some (withSelected false o).
Proof.
  assert (Han : Heap.allocated
                  (LegacyStore.nodeHeap LegacyStoreSamples.loaded)
                  (LegacyStore.nodesStore LegacyStoreSamples.loaded))
    by (repeat constructor).
  destruct (proj2 (proj2 (proj2 (proj2 (proj2 (proj2
              (legacy_addSelectedNodes_store ["p"] LegacyStoreSamples.loaded
                 Han))))))
              0 0 eq_refl)
    as (o & r' & Ho & Hr' & _ & Ho').
  exists o, r'. split; [exact Ho|]. split; [exact Hr'|].
  rewrite Ho'. cbn in Ho. injection Ho as <-. reflexivity.
Defined.

Section projection_order_facts.
Variable getEdgePositions :
  Rect → HandleElement → Position → Rect → HandleElement → Position →
  Legacy.EdgePositions.

(** The callback of the projection answers for every edge, with an edge
    that wraps the one it was given. *)
Lemma edgeWithData_returns (nds : list Legacy.Node) (e : Legacy.Edge) :
  ∃ res,
    Legacy.edgeWithData getEdgePositions nds e = Legacy.Returns res ∧
    ∀ w, res = Some w → Legacy.wrap_edge w = e.
Proof.
  rewrite edgeWithData_normal. cbv zeta.
  destruct (negb _ || negb _); [by exists None|].
  destruct (Legacy.getHandle _ _) as [sh|]; [|by exists None].
  destruct (Legacy.getHandle _ _) as [th|]; [|by exists None].
  eexists. split; [reflexivity|]. by intros w [= <-].
Qed.

(** With no node in the collection the callback answers [null]. *)
Lemma edgeWithData_no_nodes (e : Legacy.Edge) :
  Legacy.edgeWithData getEdgePositions [] e = Legacy.Returns None.
Proof. by rewrite edgeWithData_normal. Qed.

End projection_order_facts.

(** X14. The edge projection works edge by edge and keeps the order.  The
    visible edges of two edge lists put end to end are the visible edges of
    the first followed by those of the second; the edges they wrap are, in
    order, edges of the collection; and with no node nothing is visible. *)
Theorem edgesWithData_in_order
    (getEdgePositions :
       Rect → HandleElement → Position → Rect → HandleElement → Position →
       Legacy.EdgePositions)
    (eds1 eds2 : list Legacy.Edge) (nds : list Legacy.Node) :
  (∃ visible1 visible2,
     Legacy.edgesWithData getEdgePositions eds1 nds = Legacy.Returns visible1 ∧
     Legacy.edgesWithData getEdgePositions eds2 nds = Legacy.Returns visible2 ∧
     Legacy.edgesWithData getEdgePositions (eds1 ++ eds2) nds
       = Legacy.Returns (visible1 ++ visible2) ∧
     Legacy.wrap_edge <$> visible1 `sublist_of` eds1) ∧
  Legacy.edgesWithData getEdgePositions eds1 [] = Legacy.Returns [].
Proof.
  split.
  - destruct (edgesWithData_members getEdgePositions nds eds2)
      as (visible2 & Hrun2 & _).
    induction eds1 as [|e eds1 (visible1 & v2 & Hrun1 & Hv2 & Happ & Hsub)].
    + exists [], visible2. by repeat split.
    + rewrite Hrun2 in Hv2. injection Hv2 as <-.
      destruct (edgeWithData_returns getEdgePositions nds e)
        as (res & Hres & Hwrap).
      exists (from_option (λ w, [w]) [] res ++ visible1), visible2.
      split; [cbn [Legacy.edgesWithData]; by rewrite Hres, Hrun1|].
      split; [done|]. split.
      * cbn [app Legacy.edgesWithData]. rewrite Hres, Happ.
        by rewrite app_assoc.
      * destruct res as [w|]; simpl.
        -- rewrite (Hwrap w eq_refl). by apply sublist_skip.
        -- by apply sublist_cons.
  - induction eds1 as [|e eds1 IH]; [done|]. cbn [Legacy.edgesWithData].
    by rewrite edgeWithData_no_nodes, IH.
Qed.

Lemma filter_all {A} (f : A → bool) (l : list A) :
  (∀ a, a ∈ l → f a = true) → List.filter f l = l.
Proof.
  induction l as [|a l IH]; intros Hall; simpl; [done|].
  rewrite (Hall a) by (by left). f_equal. apply IH.
  intros b Hb. apply Hall. by right.
Qed.

Lemma filter_none {A} (f : A → bool) (l : list A) :
  (∀ a, a ∈ l → f a = false) → List.filter f l = [].
Proof.
  induction l as [|a l IH]; intros Hall; simpl; [done|].
  rewrite (Hall a) by (by left). apply IH.
  intros b Hb. apply Hall. by right.
Qed.

(** With no selected id the removal list stays empty. *)
Lemma nodesToRemove_no_ids (nds : list Legacy.Node) :
  Legacy.nodesToRemove [] nds = [].
Proof.
  induction nds as [|n nds IH] using rev_ind; [done|].
  rewrite nodesToRemove_snoc, IH.
  destruct (nodesToRemoveStep_pushes [] [] n) as [[Hpush _]|[_ Hstep]].
  - destruct Hpush as (_ & [Hin|(p & _ & _ & Hin)]);
      by apply elem_of_nil in Hin.
  - exact Hstep.
Qed.

(** X15. Pressing the delete key with nothing selected removes nothing: the node
    and edge collections are the ones before. *)
Theorem onDeleteKeyPressed_nothing_selected (nds : list Legacy.Node)
    (eds : list Legacy.Edge) :
  (∀ n, n ∈ nds → truthy (Legacy.node_selected n) = false) →
  (∀ e, e ∈ eds → truthy (Legacy.edge_selected e) = false) →
  Legacy.onDeleteKeyPressed true nds eds = (nds, eds).
Proof.
  intros Hn He. unfold Legacy.onDeleteKeyPressed. cbv zeta.
  rewrite (filter_none (λ node, truthy (Legacy.node_selected node)) nds)
    by done.
  rewrite (filter_none (λ edge, truthy (Legacy.edge_selected edge)) eds)
    by done.
  cbn [fmap list_fmap].
  unfold Legacy.edgesToRemove. cbv zeta. rewrite nodesToRemove_no_ids.
  unfold Legacy.getConnectedEdges. cbn [fmap list_fmap].
  rewrite (filter_none (λ e, includes [] (Legacy.edge_id e))) by done.
  rewrite (filter_none
             (λ e, includes [] (Legacy.edge_source e) ||
                   includes [] (Legacy.edge_target e))) by done.
  cbn [app]. unfold Legacy.edgeIdsToRemove. cbn [foldl].
  by rewrite !filter_all.
Qed.

Lemma onDeleteKeyPressed_nothing_selected_witness :
  Legacy.onDeleteKeyPressed true [LegacySamples.nodeP; LegacySamples.nodeC]
    [LegacySamples.edgePC]
  = ([LegacySamples.nodeP; LegacySamples.nodeC], [LegacySamples.edgePC]).
Proof.
  apply onDeleteKeyPressed_nothing_selected.
  - intros n Hn.
    repeat (apply elem_of_cons in Hn as [->|Hn]; [reflexivity|]).
    by apply elem_of_nil in Hn.
  - intros e He.
    repeat (apply elem_of_cons in He as [->|He]; [reflexivity|]).
    by apply elem_of_nil in He.
Defined.

(** X16. Which nodes the first store removes.  The delete key takes out of the
    node collection exactly the nodes that have the id of a selected node,
    and keeps the others in their order.  So a selected node leaves the
    collection even with [deletable: false], and a node no selected node
    shares its id with stays, whatever happens to its parent. *)
Theorem onDeleteKeyPressed_removes_selected_ids (nds : list Legacy.Node)
    (eds : list Legacy.Edge) :
  let nodeIds :=
    Legacy.node_id <$>
      List.filter (λ node, truthy (Legacy.node_selected node)) nds in
  let nds' := (Legacy.onDeleteKeyPressed true nds eds).1 in
  (∀ n, n ∈ nds' ↔ n ∈ nds ∧ Legacy.node_id n ∉ nodeIds) ∧
  (∀ n, n ∈ nds → truthy (Legacy.node_selected n) = true → n ∉ nds') ∧
  nds' `sublist_of` nds.
Proof.
  intros nodeIds nds'. subst nds'. unfold Legacy.onDeleteKeyPressed.
  cbv zeta. cbn [fst]. fold nodeIds.
  assert (Hiff : ∀ n,
    n ∈ List.filter (λ node, negb (includes nodeIds (Legacy.node_id node))) nds
    ↔ n ∈ nds ∧ Legacy.node_id n ∉ nodeIds).
  { intros n. by rewrite filter_elem_of, negb_true_iff, includes_false. }
  split; [exact Hiff|]. split; [|apply filter_sublist].
  intros n Hn Hsel Hstay. apply Hiff in Hstay as [_ Hnot]. apply Hnot.
  apply list_elem_of_fmap_2. by apply filter_elem_of.
Qed.

Lemma onDeleteKeyPressed_removes_selected_ids_witness :
  LegacySamples.nodeG ∉
    (Legacy.onDeleteKeyPressed true LegacySamples.family []).1.
Proof.
  apply (onDeleteKeyPressed_removes_selected_ids LegacySamples.family []).
  - left.
  - reflexivity.
Defined.

(** X17. Edges that may not be deleted survive a deletion: an edge stays in the
    collection when every edge with its id has [deletable: false], whether
    it is selected or touches a removed node. *)
Theorem onDeleteKeyPressed_keeps_locked_edges (nds : list Legacy.Node)
    (eds : list Legacy.Edge) (e : Legacy.Edge) :
  e ∈ eds →
  (∀ e', e' ∈ eds → Legacy.edge_id e' = Legacy.edge_id e →
     Legacy.edge_deletable e' = Some false) →
  e ∈ (Legacy.onDeleteKeyPressed true nds eds).2.
Proof.
  intros He Hlocked. unfold Legacy.onDeleteKeyPressed. cbv zeta. cbn [snd].
  apply filter_elem_of. split; [done|].
  apply negb_true_iff, includes_false.
  rewrite edgeIdsToRemove_elem_of. unfold Legacy.edgesToRemove. cbv zeta.
  intros Hin. apply list_elem_of_fmap in Hin as (e' & Hid & Hin).
  assert (Hdel : e' ∈ eds ∧ boolOrTrue (Legacy.edge_deletable e') = true).
  { apply elem_of_app in Hin as [Hin|Hin].
    - apply filter_elem_of in Hin as [Hin _].
      by apply filter_elem_of in Hin.
    - unfold Legacy.getConnectedEdges in Hin.
      apply filter_elem_of in Hin as [Hin _].
      by apply filter_elem_of in Hin. }
  destruct Hdel as [He' Hdel].
  rewrite (Hlocked e' He') in Hdel by done. done.
Qed.

Lemma onDeleteKeyPressed_keeps_locked_edges_witness :
  let locked :=
    {| Legacy.edge_id := "g-p"; Legacy.edge_source := "g";
       Legacy.edge_target := "p"; Legacy.edge_sourceHandle := None;
       Legacy.edge_targetHandle := None; Legacy.edge_type := None;
       Legacy.edge_selected := Some true;
       Legacy.edge_deletable := Some false |} in
  locked ∈ (Legacy.onDeleteKeyPressed true LegacySamples.family [locked]).2.
Proof.
  intros locked.
  apply (onDeleteKeyPressed_keeps_locked_edges LegacySamples.family
           [locked] locked).
  - left.
  - intros e' He' _. apply list_elem_of_singleton in He' as ->. reflexivity.
Defined.

(** * The type registries *)

(** X18. The registries of the first store start from the user's.  Every entry
    the user gives is kept, under its own name; the three built-in names of
    each registry are always there, with the built-in component when the
    user gives none; and no other name is added. *)
Theorem initial_registries_default (Component : Type)
    (InputNode OutputNode DefaultNode : Component)
    (StraightEdge SmoothStepEdge BezierEdge : Component)
    (nodeTypes edgeTypes : gmap string Component) :
  let nodeRegistry :=
    LegacyRegistry.initialNodeTypes Component InputNode OutputNode DefaultNode
      nodeTypes in
  let edgeRegistry :=
    LegacyRegistry.initialEdgeTypes Component StraightEdge SmoothStepEdge
      BezierEdge edgeTypes in
  (∀ k c, nodeTypes !! k = Some c → nodeRegistry !! k = Some c) ∧
  (∀ k c, edgeTypes !! k = Some c → edgeRegistry !! k = Some c) ∧
  (nodeTypes !! "input" = None → nodeRegistry !! "input" = Some InputNode) ∧
  (nodeTypes !! "output" = None → nodeRegistry !! "output" = Some OutputNode) ∧
  (nodeTypes !! "default" = None →
     nodeRegistry !! "default" = Some DefaultNode) ∧
  (edgeTypes !! "straight" = None →
     edgeRegistry !! "straight" = Some StraightEdge) ∧
  (edgeTypes !! "smoothstep" = None →
     edgeRegistry !! "smoothstep" = Some SmoothStepEdge) ∧
  (edgeTypes !! "default" = None →
     edgeRegistry !! "default" = Some BezierEdge) ∧
  (∀ k, k ≠ "input" → k ≠ "output" → k ≠ "default" →
     nodeRegistry !! k = nodeTypes !! k) ∧
  (∀ k, k ≠ "straight" → k ≠ "smoothstep" → k ≠ "default" →
     edgeRegistry !! k = edgeTypes !! k).
Proof.
  intros nodeRegistry edgeRegistry. subst nodeRegistry edgeRegistry.
  unfold LegacyRegistry.initialNodeTypes, LegacyRegistry.initialEdgeTypes.
  split; [|split].
  - intros k c Hk.
    destruct (decide (k = "default")) as [->|?];
      [by rewrite lookup_insert_eq, Hk|rewrite lookup_insert_ne by done].
    destruct (decide (k = "output")) as [->|?];
      [by rewrite lookup_insert_eq, Hk|rewrite lookup_insert_ne by done].
    destruct (decide (k = "input")) as [->|?];
      [by rewrite lookup_insert_eq, Hk|by rewrite lookup_insert_ne].
  - intros k c Hk.
    destruct (decide (k = "default")) as [->|?];
      [by rewrite lookup_insert_eq, Hk|rewrite lookup_insert_ne by done].
    destruct (decide (k = "smoothstep")) as [->|?];
      [by rewrite lookup_insert_eq, Hk|rewrite lookup_insert_ne by done].
    destruct (decide (k = "straight")) as [->|?];
      [by rewrite lookup_insert_eq, Hk|by rewrite lookup_insert_ne].
  - repeat split.
    + intros Hk. rewrite !lookup_insert_ne by done.
      by rewrite lookup_insert_eq, Hk.
    + intros Hk. rewrite lookup_insert_ne by done.
      by rewrite lookup_insert_eq, Hk.
    + intros Hk. by rewrite lookup_insert_eq, Hk.
    + intros Hk. rewrite !lookup_insert_ne by done.
      by rewrite lookup_insert_eq, Hk.
    + intros Hk. rewrite lookup_insert_ne by done.
      by rewrite lookup_insert_eq, Hk.
    + intros Hk. by rewrite lookup_insert_eq, Hk.
    + intros k ? ? ?. by rewrite !lookup_insert_ne.
    + intros k ? ? ?. by rewrite !lookup_insert_ne.
Qed.

Lemma initial_registries_default_witness :
  LegacyRegistry.initialNodeTypes string "InputNode" "OutputNode"
    "DefaultNode" {["input" := "MyInput"; "custom" := "Custom"]} !! "output"
  = Some "OutputNode".
Proof.
  apply (initial_registries_default string "InputNode" "OutputNode"
           "DefaultNode" "StraightEdge" "SmoothStepEdge" "BezierEdge"
           {["input" := "MyInput"; "custom" := "Custom"]} ∅).
  reflexivity.
Defined.

(** * Sample runs of the further properties *)

Lemma unselectNodesAndEdges_idempotent_witness :
  Flow.exec (Flow.unselectNodesAndEdges None)
    (Flow.exec (Flow.unselectNodesAndEdges None) Samples.detached)
  = Flow.exec (Flow.unselectNodesAndEdges None) Samples.detached.
Proof.
  exact (unselectNodesAndEdges_idempotent None Samples.detached).
Defined.

Lemma addSelectedNodes_twice_is_once_witness :
  Flow.nodeHeap
    (Flow.exec (Flow.addSelectedNodes ["b"])
       (Flow.exec (Flow.addSelectedNodes ["a"]) Samples.multiSelecting))
  = Flow.nodeHeap
      (Flow.exec (Flow.addSelectedNodes ["a"; "b"]) Samples.multiSelecting).
Proof.
  exact (proj1 (addSelectedNodes_twice_is_once ["a"] ["b"]
                  Samples.multiSelecting)).
Defined.

Lemma onDeleteKeyPressed_frame_witness :
  Flow.exec (Flow.onDeleteKeyPressed Samples.removeSelected false)
    Samples.detached = Samples.detached ∧
  Flow.nodes
    (Flow.exec (Flow.onDeleteKeyPressed Samples.removeSelected true)
       Samples.detached) `sublist_of` Flow.nodes Samples.detached.
Proof.
  split.
  - exact (proj1 (proj2 (proj2 (proj2 (proj2
             (onDeleteKeyPressed_frame Samples.removeSelected false
                Samples.detached))))) eq_refl).
  - exact (proj1 (proj2 (proj2
             (onDeleteKeyPressed_frame Samples.removeSelected true
                Samples.detached)))).
Defined.

Lemma edgesWithData_in_order_witness :
  Legacy.edgesWithData LegacySamples.anchors [LegacySamples.edgeGP] []
  = Legacy.Returns [].
Proof.
  exact (proj2 (edgesWithData_in_order LegacySamples.anchors
                  [LegacySamples.edgeGP] [] [])).
Defined.
